(** * Social network analyser: detection and scoring engine

    A shallow embedding of [main.py] (class [SocialNetworkAnalyzer]),
    [content_analyzer.py] (classes [ContentAnalyzer] and
    [ContentSimilarityAnalyzer]) and the detectors of [graph_utils.py]
    (class [SuspiciousPatternDetector]), and the properties of the
    scoring engine proved over it.

    Modelling conventions.
    - Python [int] is [Z].  Python [float] values are exact rationals [Q]:
      the decimal literals of the source ([0.8], [0.02], ...) are the
      rationals they denote and rounding is not modelled.  Rationals are
      compared with [Qeq] (written [==]); the stored terms themselves are
      the ones the operations of the source build.  The numbers the
      specification names are replayed on binary64 floats in [Binary64].
    - [str] is [string] holding the UTF-8 bytes of the text.
    - A [dict] is an association list in insertion order ([Dict]);
      assigning to a key that is present keeps its position.
    - Records stand for the dictionaries whose keys are fixed by the
      code; a key read with [.get(k, default)] is an [option] field.
    - [datetime.now()] is an explicit argument of every operation that
      reads the clock. *)

From Stdlib Require Import QArith Qabs Qminmax Lqa ZArith String Ascii List Bool Lia Permutation Sorted.
From Stdlib Require Floats.
From stdpp Require Import base option list strings gmap.
Import ListNotations.

Local Open Scope string_scope.
Local Open Scope list_scope.

(* ================================================================== *)
(** * Part I: the embedding *)
(* ================================================================== *)

(** ** Numbers *)

Definition Qltb (x y : Q) : bool := negb (Qle_bool y x).

(** [min(a, b)] and [max(a, b)] of Python on two arguments: the first
    argument is kept unless the second is strictly smaller (greater). *)
Definition py_min (a b : Q) : Q := if Qltb b a then b else a.
Definition py_max (a b : Q) : Q := if Qltb a b then b else a.

(** ** The same arithmetic on binary64 floats

    Python computes with IEEE 754 binary64 numbers.  The operations
    below are the ones above on the kernel's floats, for replaying the
    engine's arithmetic on concrete numbers; the integers involved are
    small enough to be exact. *)

Module Binary64.
Import Floats.
Local Open Scope float_scope.
Set Warnings "-inexact-float".

Definition py_min (a b : float) : float := if PrimFloat.ltb b a then b else a.
Definition py_max (a b : float) : float := if PrimFloat.ltb a b then b else a.

(** [max(0.1, 0.5 - (age - 25) * 0.02)] *)
Definition suspicion_threshold (user_age : float) : float :=
  py_max 0.1 (0.5 - (user_age - 25) * 0.02).

(** [min(1.0, child_content_ratio * 2)] *)
Definition suspicion_score (ratio : float) : float := py_min 1.0 (ratio * 2).

(** [min(1.0, risk_score)] after the rules of the classifier have added
    the weights [ws] to [0.0], in this order. *)
Definition capped_sum (ws : list float) : float :=
  py_min 1.0 (fold_left PrimFloat.add ws 0.0).

Set Warnings "+inexact-float".
End Binary64.

(** ** Strings *)

Module PyStr.

(** [needle in hay] on strings. *)
Fixpoint contains (needle hay : string) : bool :=
  String.prefix needle hay ||
  match hay with
  | EmptyString => false
  | String _ rest => contains needle rest
  end.

(** [x in [s1, ..., sn]] on a list of strings. *)
Definition mem (x : string) (l : list string) : bool :=
  existsb (String.eqb x) l.

Definition lower_byte (c : ascii) : ascii :=
  let n := nat_of_ascii c in
  if (65 <=? n)%nat && (n <=? 90)%nat then ascii_of_nat (n + 32) else c.

(** [str.lower()] on UTF-8 text, for the code points up to U+00FF:
    A-Z, and the two-byte sequences [C3 80 .. C3 9E] (the capital
    letters of Latin-1, [C3 97] being the multiplication sign).  Other
    code points are left as they are. *)
Fixpoint latin1_lower (s : string) : string :=
  match s with
  | EmptyString => EmptyString
  | String c rest =>
      match rest with
      | String d rest' =>
          let n := nat_of_ascii d in
          if (nat_of_ascii c =? 195)%nat && (128 <=? n)%nat && (n <=? 158)%nat
             && negb (n =? 151)%nat
          then String c (String (ascii_of_nat (n + 32)) (latin1_lower rest'))
          else String (lower_byte c) (latin1_lower rest)
      | EmptyString => String (lower_byte c) EmptyString
      end
  end.

End PyStr.

(** ** Dictionaries

    A Python [dict] keeps its keys in insertion order, and [d[k] = v] on
    a key that is present replaces the value where it stands. *)

Definition dict (K V : Type) : Type := list (K * V).

Module Dict.
Section Ops.
Context {K V : Type} `{EqDecision K}.

(** [d.get(k)] *)
Fixpoint get (k : K) (d : dict K V) : option V :=
  match d with
  | [] => None
  | (k', v) :: rest => if decide (k = k') then Some v else get k rest
  end.

(** [k in d] *)
Definition contains (k : K) (d : dict K V) : bool :=
  match get k d with Some _ => true | None => false end.

(** [d[k] = v] *)
Fixpoint setitem (k : K) (v : V) (d : dict K V) : dict K V :=
  match d with
  | [] => [(k, v)]
  | (k', v') :: rest =>
      if decide (k = k') then (k, v) :: rest else (k', v') :: setitem k v rest
  end.

Definition keys (d : dict K V) : list K := map fst d.
Definition values (d : dict K V) : list V := map snd d.

(** The keys of a dictionary are pairwise distinct. *)
Definition wf (d : dict K V) : Prop := NoDup (keys d).
End Ops.

(** [d[k] += 1] on a [defaultdict(int)] or a [Counter]. *)
Definition incr {K : Type} `{EqDecision K} (k : K) (d : dict K nat) : dict K nat :=
  setitem k (S (default 0%nat (get k d))) d.

(** [Counter(l)] *)
Definition counter {K : Type} `{EqDecision K} (l : list K) : dict K nat :=
  fold_left (fun d k => incr k d) l [].
End Dict.

(** ** Time *)

(** A [datetime]: the instant, with the [hour] attribute and the value
    of [weekday()] (Monday is 0). *)
Record datetime := { instant : Z; hour : Z; weekday : Z }.

(** ** Content metadata and risk classification ([content_analyzer.py]) *)

(** The metadata dictionary of a content item.  Every key is read with
    [.get], so every field is optional. *)
Record metadata := {
  title : option string;
  description : option string;
  category : option string;
  target_age_max : option Q;
  target_age_min : option Q;
  duration_seconds : option Q
}.

(** The empty dictionary [{}]. *)
Definition empty_metadata : metadata :=
  {| title := None; description := None; category := None;
     target_age_max := None; target_age_min := None;
     duration_seconds := None |}.

(** The strings ['ALTO'], ['MÉDIO'], ['BAIXO'], ['MÍNIMO']. *)
Inductive risk_level := ALTO | MEDIO | BAIXO | MINIMO.

Definition risk_level_eqb (a b : risk_level) : bool :=
  match a, b with
  | ALTO, ALTO | MEDIO, MEDIO | BAIXO, BAIXO | MINIMO, MINIMO => true
  | _, _ => false
  end.

Definition risk_level_name (l : risk_level) : string :=
  match l with
  | ALTO => "ALTO" | MEDIO => "MÉDIO" | BAIXO => "BAIXO" | MINIMO => "MÍNIMO"
  end.

Record risk_assessment := {
  risk_score : Q;
  risk_level_of : risk_level;
  risk_factors : list string
}.

(** [self.risk_keywords] *)
Definition high_risk_keywords : list string :=
  ["criança"; "menino"; "menina"; "bebê"; "infantil"; "kids"; "children"].
Definition medium_risk_keywords : list string :=
  ["jovem"; "adolescente"; "teen"; "escola"; "school"].
Definition suspicious_actions : list string :=
  ["baixar"; "download"; "salvar"; "share"; "compartilhar"].

(** [_get_risk_level] *)
Definition _get_risk_level (score : Q) : risk_level :=
  if Qle_bool 0.7 score then ALTO
  else if Qle_bool 0.4 score then MEDIO
  else if Qle_bool 0.2 score then BAIXO
  else MINIMO.

Section Classifier.

(** Python's [str.lower]; [PyStr.latin1_lower] is the instance used
    on concrete inputs. *)
Variable lower : string -> string.

(** The accumulator of [classify_content_risk]: [risk_score] and
    [risk_factors]. *)
Definition acc := (Q * list string)%type.

Definition bump (a : acc) (w : Q) (factor : string) : acc :=
  ((fst a + w)%Q, snd a ++ [factor]).

(** [for keyword in keywords: if keyword in text: ...] *)
Fixpoint scan_keywords (text : string) (w : Q) (label : string)
         (keywords : list string) (a : acc) : acc :=
  match keywords with
  | [] => a
  | k :: ks =>
      scan_keywords text w label ks
        (if PyStr.contains k text then bump a w (label ++ k) else a)
  end.

Definition age_rule (md : metadata) (a : acc) : acc :=
  let tmax := default 100%Q (target_age_max md) in
  if Qle_bool tmax 8 then bump a 0.8 "Conteúdo para crianças muito pequenas"
  else if Qle_bool tmax 12 then bump a 0.6 "Conteúdo infantil"
  else if Qle_bool tmax 16 then bump a 0.3 "Conteúdo adolescente"
  else a.

Definition text_content (md : metadata) : string :=
  lower (default "" (title md) ++ " " ++ default "" (description md)).

Definition category_rule (md : metadata) (a : acc) : acc :=
  let cat := lower (default "" (category md)) in
  if PyStr.mem cat ["kids"; "children"; "family"; "educational"]
  then bump a 0.2 ("Categoria suspeita: " ++ cat) else a.

Definition duration_rule (md : metadata) (a : acc) : acc :=
  let duration := default 0%Q (duration_seconds md) in
  if Qltb 0 duration && Qltb duration 60
  then bump a 0.1 "Duração muito curta" else a.

(** The value of [risk_score] and [risk_factors] before the [return]. *)
Definition raw_risk (md : metadata) : acc :=
  let a0 : acc := (0.0%Q, []) in
  let a1 := age_rule md a0 in
  let a2 := scan_keywords (text_content md) 0.3
              "Palavra-chave de alto risco: " high_risk_keywords a1 in
  let a3 := scan_keywords (text_content md) 0.1
              "Palavra-chave de médio risco: " medium_risk_keywords a2 in
  let a4 := category_rule md a3 in
  duration_rule md a4.

Definition classify_content_risk (content_metadata : metadata) : risk_assessment :=
  let a := raw_risk content_metadata in
  {| risk_score := py_min 1.0 (fst a);
     risk_level_of := _get_risk_level (py_min 1.0 (fst a));
     risk_factors := snd a |}.

End Classifier.

(** ** The in-memory store: users and content *)

(** An entry of a user's [content_consumed] list.  [timestamp] and
    [metadata] are read with [.get]. *)
Record interaction := {
  i_content_id : string;
  i_content_type : string;
  i_interaction_type : string;
  i_timestamp : option datetime;
  i_metadata : option metadata
}.

(** An entry of a content item's [interactions] list. *)
Record content_interaction := {
  ci_user_id : string;
  ci_interaction_type : string;
  ci_timestamp : datetime
}.

(** A value of [content_data]. *)
Record content_item := {
  c_content_id : string;
  c_content_type : string;
  c_interactions : list content_interaction;
  c_flags : list string;
  c_metadata : metadata
}.

(** A value of [user_profiles].  [extra] holds the keys that only
    [profile_data] brings (such as ["name"]). *)
Record profile := {
  user_id : string;
  age : Z;
  registration_date : datetime;
  suspicious_score : Q;
  content_consumed : list interaction;
  connections : list string;
  extra : dict string string
}.

(** The [profile_data] argument of [add_user]: a dictionary that may
    carry any of the keys of a profile, and other keys. *)
Record profile_data := {
  pd_user_id : option string;
  pd_age : option Z;
  pd_registration_date : option datetime;
  pd_suspicious_score : option Q;
  pd_content_consumed : option (list interaction);
  pd_connections : option (list string);
  pd_extra : dict string string
}.

(** True division of two Python integers. *)
Definition int_div (a b : nat) : Q :=
  (inject_Z (Z.of_nat a) / inject_Z (Z.of_nat b))%Q.

(** ['kids_video', 'children_game', 'educational_kids'] *)
Definition child_content_types : list string :=
  ["kids_video"; "children_game"; "educational_kids"].

(** ** Behaviour patterns ([analyze_user_content_patterns]) *)

(** The strings appended to [suspicious_indicators], one constructor per
    template, with the interpolated values. *)
Inductive indicator :=
| RiskyAction (interaction_type : string) (level : risk_level)
| AdultHighRisk (user_age : Z) (ratio : Q)
| SchoolHours
| BulkActions (total_actions : nat)
| NarrowFocus (dominant_types : list string).

Record temporal_patterns := {
  hour_distribution : dict Z nat;
  weekday_distribution : dict Z nat;
  peak_hours : list Z;
  school_time_ratio : Q;
  tp_total_interactions : nat
}.

(** [temporal_patterns] is [None] for the dictionary [{'error': ...}]. *)
Record pattern_analysis := {
  pa_user_id : string;
  pa_age : Z;
  total_interactions : nat;
  content_types : dict string nat;
  risk_distribution : dict string nat;
  pa_temporal_patterns : option temporal_patterns;
  interaction_types : dict string nat;
  suspicious_indicators : list indicator;
  avg_risk_score : Q;
  high_risk_ratio : Q
}.

(** The variables the interaction loop updates. *)
Record loop_state := {
  ls_content_types : dict string nat;
  ls_interaction_types : dict string nat;
  ls_risk_distribution : dict string nat;
  total_risk_score : Q;
  high_risk_content_count : nat;
  ls_indicators : list indicator
}.

Definition loop_init : loop_state :=
  {| ls_content_types := []; ls_interaction_types := [];
     ls_risk_distribution := []; total_risk_score := 0;
     high_risk_content_count := 0; ls_indicators := [] |}.

Definition is_high_or_medium (l : risk_level) : bool :=
  risk_level_eqb l ALTO || risk_level_eqb l MEDIO.

(** [_analyze_temporal_patterns] *)
Definition _analyze_temporal_patterns (interactions : list interaction)
  : option temporal_patterns :=
  let timestamps := omap i_timestamp interactions in
  match timestamps with
  | [] => None
  | _ =>
      let hours := map hour timestamps in
      let hour_dist := Dict.counter hours in
      let weekdays := map weekday timestamps in
      let school :=
        length (List.filter (fun ts => (8 <=? hour ts)%Z && (hour ts <=? 17)%Z
                                  && (weekday ts <? 5)%Z) timestamps) in
      Some {| hour_distribution := hour_dist;
              weekday_distribution := Dict.counter weekdays;
              peak_hours :=
                map fst (List.filter
                  (fun hc => Qltb (inject_Z (Z.of_nat (length hours)) * 0.2)
                                  (inject_Z (Z.of_nat (snd hc)))) hour_dist);
              school_time_ratio := int_div school (length timestamps);
              tp_total_interactions := length timestamps |}
  end.

(** [_detect_suspicious_patterns]: the indicators it appends. *)
Definition _detect_suspicious_patterns (pa : pattern_analysis) (p : profile)
  : pattern_analysis :=
  let i1 :=
    if (18 <=? age p)%Z && Qltb 0.3 (high_risk_ratio pa)
    then [AdultHighRisk (age p) (high_risk_ratio pa)] else [] in
  let i2 :=
    match pa_temporal_patterns pa with
    | Some t => if Qltb 0.6 (school_time_ratio t) then [SchoolHours] else []
    | None => []
    end in
  let total_actions :=
    (default 0 (Dict.get "download" (interaction_types pa)) +
     default 0 (Dict.get "share" (interaction_types pa)))%nat in
  let i3 :=
    if (5 <? total_actions)%nat && Qltb 0.2 (high_risk_ratio pa)
    then [BulkActions total_actions] else [] in
  let i4 :=
    if (length (content_types pa) <=? 2)%nat && (10 <? total_interactions pa)%nat
       && existsb (fun ctype => PyStr.mem ctype child_content_types)
                  (Dict.keys (content_types pa))
    then [NarrowFocus (Dict.keys (content_types pa))] else [] in
  {| pa_user_id := pa_user_id pa; pa_age := pa_age pa;
     total_interactions := total_interactions pa;
     content_types := content_types pa;
     risk_distribution := risk_distribution pa;
     pa_temporal_patterns := pa_temporal_patterns pa;
     interaction_types := interaction_types pa;
     suspicious_indicators := suspicious_indicators pa ++ i1 ++ i2 ++ i3 ++ i4;
     avg_risk_score := avg_risk_score pa;
     high_risk_ratio := high_risk_ratio pa |}.

Section PatternAnalyzer.

Variable lower : string -> string.

(** One iteration of [for interaction in profile['content_consumed']]. *)
Definition loop_step (content_data : dict string content_item)
           (st : loop_state) (i : interaction) : loop_state :=
  let cts := Dict.incr (i_content_type i) (ls_content_types st) in
  let its := Dict.incr (i_interaction_type i) (ls_interaction_types st) in
  match Dict.get (i_content_id i) content_data with
  | Some item =>
      let content_risk := classify_content_risk lower (c_metadata item) in
      let level := risk_level_of content_risk in
      {| ls_content_types := cts;
         ls_interaction_types := its;
         ls_risk_distribution :=
           Dict.incr (risk_level_name level) (ls_risk_distribution st);
         total_risk_score := total_risk_score st + risk_score content_risk;
         high_risk_content_count :=
           if is_high_or_medium level then S (high_risk_content_count st)
           else high_risk_content_count st;
         ls_indicators :=
           if PyStr.mem (i_interaction_type i) ["download"; "save"; "share"]
              && is_high_or_medium level
           then ls_indicators st ++ [RiskyAction (i_interaction_type i) level]
           else ls_indicators st |}
  | None =>
      {| ls_content_types := cts;
         ls_interaction_types := its;
         ls_risk_distribution := ls_risk_distribution st;
         total_risk_score := total_risk_score st;
         high_risk_content_count := high_risk_content_count st;
         ls_indicators := ls_indicators st |}
  end.

(** The body of [for user_id, profile in user_profiles.items()] for a
    user with at least one interaction. *)
Definition analyze_user (content_data : dict string content_item)
           (uid : string) (p : profile) : pattern_analysis :=
  let consumed := content_consumed p in
  let st := fold_left (loop_step content_data) consumed loop_init in
  _detect_suspicious_patterns
    {| pa_user_id := uid; pa_age := age p;
       total_interactions := length consumed;
       content_types := ls_content_types st;
       risk_distribution := ls_risk_distribution st;
       pa_temporal_patterns := _analyze_temporal_patterns consumed;
       interaction_types := ls_interaction_types st;
       suspicious_indicators := ls_indicators st;
       avg_risk_score :=
         total_risk_score st / inject_Z (Z.of_nat (length consumed));
       high_risk_ratio :=
         int_div (high_risk_content_count st) (length consumed) |}
    p.

Definition analyze_user_content_patterns
           (user_profiles : dict string profile)
           (content_data : dict string content_item)
  : dict string pattern_analysis :=
  fold_left
    (fun user_patterns '(uid, p) =>
       if (length (content_consumed p) =? 0)%nat then user_patterns
       else Dict.setitem uid (analyze_user content_data uid p) user_patterns)
    user_profiles [].

End PatternAnalyzer.

(** ** The connection graph

    The [networkx.Graph] of the analyser, as networkx stores it: the
    adjacency dictionary [_adj], from a node to the dictionary of its
    neighbours with the data of the edge.  The nodes are its keys. *)

Record edge_data := {
  connection_type : string;
  weight : Q;
  e_timestamp : datetime
}.

Definition nx_graph : Type := dict string (dict string edge_data).

Module Graph.

Definition empty : nx_graph := [].

(** [G.nodes()] *)
Definition nodes (g : nx_graph) : list string := Dict.keys g.

(** [n in G] *)
Definition has_node (g : nx_graph) (n : string) : bool := Dict.contains n g.

(** [G.add_node(n)]; a node that is present keeps its edges. *)
Definition add_node (n : string) (g : nx_graph) : nx_graph :=
  if Dict.contains n g then g else Dict.setitem n [] g.

(** [G._adj[u][v] = data] *)
Definition set_adj (u v : string) (data : edge_data) (g : nx_graph) : nx_graph :=
  Dict.setitem u (Dict.setitem v data (default [] (Dict.get u g))) g.

(** [G.add_edge(u, v, connection_type=.., weight=.., timestamp=..)]:
    both nodes are added when missing, and the data of an edge that
    is present is replaced. *)
Definition add_edge (u v : string) (data : edge_data) (g : nx_graph) : nx_graph :=
  set_adj v u data (set_adj u v data (add_node v (add_node u g))).

(** [G.neighbors(n)]; [None] is the [NetworkXError] raised for a node
    that is not in the graph. *)
Definition neighbors (g : nx_graph) (n : string) : option (list string) :=
  Dict.keys <$> Dict.get n g.

Definition has_edge (g : nx_graph) (u v : string) : bool :=
  match Dict.get u g with
  | Some nbrs => Dict.contains v nbrs
  | None => false
  end.

(** The degree of a node; a self-loop counts twice. *)
Definition degree (n : string) (nbrs : dict string edge_data) : nat :=
  (length nbrs + if Dict.contains n nbrs then 1 else 0)%nat.

(** [G.number_of_edges()] *)
Definition number_of_edges (g : nx_graph) : nat :=
  (list_sum (map (fun '(n, nbrs) => degree n nbrs) g) / 2)%nat.

(** [G.subgraph(keep)]: the subgraph induced by the nodes in [keep]. *)
Definition subgraph (g : nx_graph) (keep : gset string) : nx_graph :=
  map (fun '(n, nbrs) =>
         (n, List.filter (fun '(m, _) => bool_decide (m ∈ keep)) nbrs))
      (List.filter (fun '(n, _) => bool_decide (n ∈ keep)) g).

End Graph.

(** ** The analyser ([main.py]) *)

(** The state of a [SocialNetworkAnalyzer]. *)
Record analyzer := {
  graph : nx_graph;
  user_profiles : dict string profile;
  content_data : dict string content_item
}.

(** [__init__] *)
Definition init : analyzer :=
  {| graph := Graph.empty; user_profiles := []; content_data := [] |}.

(** [profile.update(profile_data)] *)
Definition profile_update (p : profile) (pd : profile_data) : profile :=
  {| user_id := default (user_id p) (pd_user_id pd);
     age := default (age p) (pd_age pd);
     registration_date := default (registration_date p) (pd_registration_date pd);
     suspicious_score := default (suspicious_score p) (pd_suspicious_score pd);
     content_consumed := default (content_consumed p) (pd_content_consumed pd);
     connections := default (connections p) (pd_connections pd);
     extra := fold_left (fun d '(k, v) => Dict.setitem k v d) (pd_extra pd) (extra p) |}.

(** The dictionary literal of [add_user]. *)
Definition fresh_profile (uid : string) (user_age : Z) (now : datetime) : profile :=
  {| user_id := uid; age := user_age; registration_date := now;
     suspicious_score := 0.0; content_consumed := []; connections := [];
     extra := [] |}.

(** [add_user(user_id, age, profile_data)]; [profile_data] is [None] by
    default. *)
Definition add_user (st : analyzer) (uid : string) (user_age : Z)
           (pd : option profile_data) (now : datetime) : analyzer :=
  let p0 := fresh_profile uid user_age now in
  let p := match pd with Some d => profile_update p0 d | None => p0 end in
  {| graph := Graph.add_node uid (graph st);
     user_profiles := Dict.setitem uid p (user_profiles st);
     content_data := content_data st |}.

(** [self.user_profiles[u]['connections'].append(v)] *)
Definition append_connection (u v : string) (ups : dict string profile)
  : dict string profile :=
  match Dict.get u ups with
  | Some p =>
      Dict.setitem u
        {| user_id := user_id p; age := age p;
           registration_date := registration_date p;
           suspicious_score := suspicious_score p;
           content_consumed := content_consumed p;
           connections := connections p ++ [v];
           extra := extra p |} ups
  | None => ups
  end.

(** [add_connection(user1, user2, connection_type, weight)]; the
    defaults of the source are ['friend'] and [1.0]. *)
Definition add_connection (st : analyzer) (user1 user2 : string)
           (ctype : string) (w : Q) (now : datetime) : analyzer :=
  if Dict.contains user1 (user_profiles st) && Dict.contains user2 (user_profiles st)
  then
    {| graph :=
         Graph.add_edge user1 user2
           {| connection_type := ctype; weight := w; e_timestamp := now |}
           (graph st);
       user_profiles :=
         append_connection user2 user1
           (append_connection user1 user2 (user_profiles st));
       content_data := content_data st |}
  else st.

(** [self.user_profiles[u]['content_consumed'].append(i)] *)
Definition append_interaction (u : string) (i : interaction)
           (ups : dict string profile) : dict string profile :=
  match Dict.get u ups with
  | Some p =>
      Dict.setitem u
        {| user_id := user_id p; age := age p;
           registration_date := registration_date p;
           suspicious_score := suspicious_score p;
           content_consumed := content_consumed p ++ [i];
           connections := connections p;
           extra := extra p |} ups
  | None => ups
  end.

(** [self.content_data[cid]['interactions'].append(ci)] *)
Definition append_content_interaction (cid : string) (ci : content_interaction)
           (cd : dict string content_item) : dict string content_item :=
  match Dict.get cid cd with
  | Some c =>
      Dict.setitem cid
        {| c_content_id := c_content_id c; c_content_type := c_content_type c;
           c_interactions := c_interactions c ++ [ci];
           c_flags := c_flags c; c_metadata := c_metadata c |} cd
  | None => cd
  end.

(** [add_content_interaction(user_id, content_id, content_type,
    interaction_type, content_metadata)]: the returned flag and the
    store afterwards.  [content_metadata] is [None] by default and
    [interaction_type] is ['view']; [now1] and [now2] are the two
    readings of the clock. *)
Definition add_content_interaction (st : analyzer) (uid cid ctype itype : string)
           (content_metadata : option metadata) (now1 now2 : datetime)
  : bool * analyzer :=
  if negb (Dict.contains uid (user_profiles st)) then (false, st)
  else
    let md := default empty_metadata content_metadata in
    let i := {| i_content_id := cid; i_content_type := ctype;
                i_interaction_type := itype; i_timestamp := Some now1;
                i_metadata := Some md |} in
    let ups := append_interaction uid i (user_profiles st) in
    let cd :=
      if negb (Dict.contains cid (content_data st))
      then Dict.setitem cid
             {| c_content_id := cid; c_content_type := ctype;
                c_interactions := []; c_flags := []; c_metadata := md |}
             (content_data st)
      else content_data st in
    let cd' :=
      append_content_interaction cid
        {| ci_user_id := uid; ci_interaction_type := itype;
           ci_timestamp := now2 |} cd in
    (true, {| graph := graph st; user_profiles := ups; content_data := cd' |}).

(** ** Suspicion scoring ([detect_suspicious_content_patterns]) *)

(** An entry of the list [suspicious_users]. *)
Record suspicion_record := {
  s_user_id : string;
  s_age : Z;
  child_content_ratio : Q;
  child_content_count : nat;
  total_content_count : nat;
  suspicion_score : Q;
  connections_count : nat
}.

(** The test of the inner loop: the content type is one of the child
    content types, or [target_age_max] (100 when absent) is below 13. *)
Definition is_child_content (i : interaction) : bool :=
  PyStr.mem (i_content_type i) child_content_types
  || Qltb (default 100%Q (target_age_max (default empty_metadata (i_metadata i)))) 13.

(** [for interaction in ...: if ...: child_content_count += 1] *)
Definition count_child_content (consumed : list interaction) : nat :=
  fold_left (fun n i => if is_child_content i then S n else n) consumed 0%nat.

(** [max(0.1, 0.5 - (age - 25) * 0.02)] *)
Definition suspicion_threshold (user_age : Z) : Q :=
  py_max 0.1 (0.5 - inject_Z (user_age - 25) * 0.02).

(** The body of the loop over [user_profiles.items()]: the record
    appended for this user, if any. *)
Definition scan_user (uid : string) (p : profile) : option suspicion_record :=
  if (age p <? 18)%Z then None
  else
    let total := length (content_consumed p) in
    if (total =? 0)%nat then None
    else
      let child := count_child_content (content_consumed p) in
      let ratio := int_div child total in
      if Qltb (suspicion_threshold (age p)) ratio && (5 <? child)%nat
      then Some {| s_user_id := uid; s_age := age p;
                   child_content_ratio := ratio;
                   child_content_count := child;
                   total_content_count := total;
                   suspicion_score := py_min 1.0 (ratio * 2);
                   connections_count := length (connections p) |}
      else None.

(** [profile['suspicious_score'] = score] *)
Definition set_suspicious_score (p : profile) (score : Q) : profile :=
  {| user_id := user_id p; age := age p;
     registration_date := registration_date p;
     suspicious_score := score;
     content_consumed := content_consumed p;
     connections := connections p;
     extra := extra p |}.

(** [sorted(l, key=key, reverse=True)]: a stable sort, greatest key
    first; entries with equal keys keep their order. *)
Fixpoint insert_desc {A : Type} (key : A -> Q) (x : A) (l : list A) : list A :=
  match l with
  | [] => [x]
  | y :: ys =>
      if Qltb (key x) (key y) then y :: insert_desc key x ys else x :: y :: ys
  end.

Definition sorted_desc {A : Type} (key : A -> Q) (l : list A) : list A :=
  foldr (insert_desc key) [] l.

(** The order of a list sorted this way: the greater key first. *)
Definition desc {A : Type} (key : A -> Q) (a b : A) : Prop := (key b <= key a)%Q.

(** The loop of [detect_suspicious_content_patterns]: the list
    [suspicious_users] in the order of discovery, and the profiles with
    the scores written back. *)
Definition detect_loop (ups : dict string profile)
  : list suspicion_record * dict string profile :=
  fold_left
    (fun '(found, done) '(uid, p) =>
       match scan_user uid p with
       | Some r =>
           (found ++ [r], done ++ [(uid, set_suspicious_score p (suspicion_score r))])
       | None => (found, done ++ [(uid, p)])
       end)
    ups ([], []).

(** One entry of [user_profiles.items()] through the loop: the record
    it yields, and the entry afterwards. *)
Definition scan_entry (e : string * profile) : option suspicion_record :=
  scan_user (fst e) (snd e).

Definition write_back (e : string * profile) : string * profile :=
  (fst e,
   match scan_user (fst e) (snd e) with
   | Some r => set_suspicious_score (snd e) (suspicion_score r)
   | None => snd e
   end).

(** [detect_suspicious_content_patterns()]: the returned list and the
    store afterwards.  The parameter [min_age_gap] is not used by the
    source. *)
Definition detect_suspicious_content_patterns (st : analyzer)
  : list suspicion_record * analyzer :=
  let '(found, ups) := detect_loop (user_profiles st) in
  (sorted_desc suspicion_score found,
   {| graph := graph st; user_profiles := ups;
      content_data := content_data st |}).

(** ** Suspicious networks and the report *)

Record component_analysis := {
  component_id : nat;
  total_users : nat;
  ca_suspicious_users : nat;
  suspicious_user_ids : list string;
  ca_density : Q;
  avg_clustering : Q;
  ca_diameter : option nat   (** [None] is the string ['N/A'] *)
}.

Record network_analysis := {
  total_suspicious_users : nat;
  na_connected_components : nat;
  largest_component_size : nat;
  components_analysis : list component_analysis
}.

Record centrality := {
  c_degree : Q;
  c_betweenness : Q;
  c_closeness : Q;
  c_eigenvector : Q
}.

(** The recommendation strings, one constructor per template. *)
Inductive recommendation :=
| Alerta (suspicious : nat)
| PrioridadeAlta (high_risk : nat)
| RedesIdentificadas (components : nat)
| RedesComplexas (large_components : nat).

Record summary := {
  sm_total_users : nat;
  total_connections : nat;
  suspicious_users_count : nat;
  high_risk_users : nat
}.

Record report := {
  r_timestamp : datetime;
  r_summary : summary;
  r_suspicious_users : list suspicion_record;
  r_network_analysis : network_analysis;
  influential_suspicious : list (suspicion_record * centrality);
  recommendations : list recommendation
}.

(** [enumerate(l)] *)
Definition enumerate {A : Type} (l : list A) : list (nat * A) :=
  combine (seq 0 (length l)) l.

(** [max(len(comp) for comp in comps) if comps else 0] *)
Definition max_size (comps : list (gset string)) : nat :=
  match comps with
  | [] => 0%nat
  | c :: cs => fold_left (fun m c' => Nat.max m (size c')) cs (size c)
  end.

(** [len([u for u in suspicious_users if u['suspicion_score'] > 0.7])] *)
Definition count_high_risk (suspicious_users : list suspicion_record) : nat :=
  length (List.filter (fun u => Qltb 0.7 (suspicion_score u)) suspicious_users).

Section Engine.

(** The graph algorithms of networkx the analyser calls. A result
    [None] of a centrality stands for the exception the algorithm
    raises (no convergence, the null graph). *)
Variable nx_connected_components : nx_graph -> list (gset string).
Variable nx_density : nx_graph -> Q.
Variable nx_average_clustering : nx_graph -> Q.
Variable nx_is_connected : nx_graph -> bool.
Variable nx_diameter : nx_graph -> nat.
Variable nx_degree_centrality : nx_graph -> option (dict string Q).
Variable nx_betweenness_centrality : nx_graph -> option (dict string Q).
Variable nx_closeness_centrality : nx_graph -> option (dict string Q).
Variable nx_eigenvector_centrality : nx_graph -> option (dict string Q).

(** The set [extended_suspicious]: each suspicious user and the
    neighbours of each; [None] when [neighbors] raises. *)
Definition extend_suspicious (g : nx_graph) (ids : list string)
  : option (gset string) :=
  fold_left
    (fun acc uid =>
       ext ← acc;
       nbrs ← Graph.neighbors g uid;
       Some (ext ∪ {[uid]} ∪ list_to_set nbrs))
    ids (Some ∅).

(** The entry of [components_analysis] for the component [i]. *)
Definition analyze_component (sub : nx_graph) (ids : gset string)
           (i : nat) (component : gset string) : component_analysis :=
  let suspicious_in_component := component ∩ ids in
  let component_subgraph := Graph.subgraph sub component in
  {| component_id := i;
     total_users := size component;
     ca_suspicious_users := size suspicious_in_component;
     suspicious_user_ids := elements suspicious_in_component;
     ca_density := nx_density component_subgraph;
     avg_clustering := nx_average_clustering component_subgraph;
     ca_diameter :=
       if nx_is_connected component_subgraph
       then Some (nx_diameter component_subgraph) else None |}.

(** [analyze_suspicious_networks(suspicious_users)] *)
Definition analyze_suspicious_networks (st : analyzer)
           (suspicious_users : list suspicion_record) : option network_analysis :=
  let suspicious_user_ids : gset string :=
    list_to_set (map s_user_id suspicious_users) in
  extended_suspicious ← extend_suspicious (graph st) (elements suspicious_user_ids);
  let subgraph := Graph.subgraph (graph st) extended_suspicious in
  let connected_components := nx_connected_components subgraph in
  Some
    {| total_suspicious_users := size suspicious_user_ids;
       na_connected_components := length connected_components;
       largest_component_size := max_size connected_components;
       components_analysis :=
         map (fun '(i, component) =>
                analyze_component subgraph suspicious_user_ids i component)
             (List.filter
                (fun '(_, component) =>
                   (1 <? size (component ∩ suspicious_user_ids))%nat)
                (enumerate connected_components)) |}.

(** [calculate_user_centrality_metrics()] *)
Definition calculate_user_centrality_metrics (st : analyzer)
  : option (dict string centrality) :=
  dc ← nx_degree_centrality (graph st);
  bc ← nx_betweenness_centrality (graph st);
  cc ← nx_closeness_centrality (graph st);
  ec ← nx_eigenvector_centrality (graph st);
  Some (fold_left
          (fun metrics uid =>
             Dict.setitem uid
               {| c_degree := default 0%Q (Dict.get uid dc);
                  c_betweenness := default 0%Q (Dict.get uid bc);
                  c_closeness := default 0%Q (Dict.get uid cc);
                  c_eigenvector := default 0%Q (Dict.get uid ec) |}
               metrics)
          (Graph.nodes (graph st)) []).

(** [_generate_recommendations] *)
Definition _generate_recommendations (suspicious_users : list suspicion_record)
           (na : network_analysis) : list recommendation :=
  (if (10 <? length suspicious_users)%nat
   then [Alerta (length suspicious_users)] else []) ++
  (if (0 <? count_high_risk suspicious_users)%nat
   then [PrioridadeAlta (count_high_risk suspicious_users)] else []) ++
  (if (0 <? na_connected_components na)%nat
   then [RedesIdentificadas (na_connected_components na)] else []) ++
  (let large_components :=
     List.filter (fun c => (3 <=? ca_suspicious_users c)%nat)
                 (components_analysis na) in
   match large_components with
   | [] => []
   | _ => [RedesComplexas (length large_components)]
   end).

(** The suspicious users joined with their centrality metrics. *)
Definition join_centrality (metrics : dict string centrality)
           (top : list suspicion_record) : list (suspicion_record * centrality) :=
  omap (fun u => (fun m => (u, m)) <$> Dict.get (s_user_id u) metrics) top.

(** [generate_risk_report()]: the report, or [None] when one of the
    graph algorithms raises, and the store afterwards. *)
Definition generate_risk_report (st : analyzer) (now : datetime)
  : option report * analyzer :=
  let '(suspicious_users, st1) := detect_suspicious_content_patterns st in
  (na ← analyze_suspicious_networks st1 suspicious_users;
   centrality_metrics ← calculate_user_centrality_metrics st1;
   Some
     {| r_timestamp := now;
        r_summary :=
          {| sm_total_users := length (user_profiles st1);
             total_connections := Graph.number_of_edges (graph st1);
             suspicious_users_count := length suspicious_users;
             high_risk_users := count_high_risk suspicious_users |};
        r_suspicious_users := firstn 20 suspicious_users;
        r_network_analysis := na;
        influential_suspicious :=
          join_centrality centrality_metrics (firstn 10 suspicious_users);
        recommendations := _generate_recommendations suspicious_users na |},
   st1).

End Engine.

(** ** The graph algorithms on concrete graphs

    The networkx algorithms the analyser delegates to, for evaluating
    the engine on concrete graphs: breadth-first search for components
    and distances, edge density and the clustering coefficient. *)

Module Nx.

Definition adj (g : nx_graph) (v : string) : list string :=
  default [] (Graph.neighbors g v).

(** The inner loop of [_plain_bfs]: the neighbours not seen yet are
    added to [seen] and to the next level. *)
Fixpoint visit (nbrs seen next : list string) : list string * list string :=
  match nbrs with
  | [] => (seen, next)
  | w :: ws =>
      if bool_decide (w ∈ seen) then visit ws seen next
      else visit ws (seen ++ [w]) (next ++ [w])
  end.

Fixpoint visit_level (g : nx_graph) (thislevel seen next : list string)
  : list string * list string :=
  match thislevel with
  | [] => (seen, next)
  | v :: vs =>
      let '(seen', next') := visit (adj g v) seen next in
      visit_level g vs seen' next'
  end.

(** [_plain_bfs]: the nodes reached and the number of levels after
    the source; a search visits at most [fuel] levels. *)
Fixpoint plain_bfs (fuel : nat) (g : nx_graph) (seen level : list string)
         (depth : nat) : list string * nat :=
  match fuel with
  | O => (seen, depth)
  | S fuel' =>
      let '(seen', next) := visit_level g level seen [] in
      match next with
      | [] => (seen', depth)
      | _ => plain_bfs fuel' g seen' next (S depth)
      end
  end.

Definition reach (g : nx_graph) (source : string) : list string * nat :=
  plain_bfs (length g) g [source] [source] 0.

(** [connected_components]: a search from every node not seen so far,
    in the order of the nodes.  (networkx walks a subgraph view whose
    node filter is small in the order of the filter set, which Python
    leaves unspecified: the components are the same, their numbering
    may differ.) *)
Definition connected_components (g : nx_graph) : list (gset string) :=
  snd (fold_left
         (fun '(seen, comps) v =>
            if bool_decide (v ∈ seen) then (seen, comps)
            else
              let c : gset string := list_to_set (fst (reach g v)) in
              (seen ∪ c, comps ++ [c]))
         (Graph.nodes g) ((∅ : gset string), [])).

Definition is_connected (g : nx_graph) : bool :=
  match Graph.nodes g with
  | [] => false
  | v :: _ => (length (fst (reach g v)) =? length g)%nat
  end.

(** [diameter]: the greatest eccentricity. *)
Definition diameter (g : nx_graph) : nat :=
  foldr Nat.max 0%nat (map (fun v => snd (reach g v)) (Graph.nodes g)).

(** [density]: [2m / (n (n - 1))], and 0 without edges or with at
    most one node. *)
Definition density (g : nx_graph) : Q :=
  let n := length g in
  let m := Graph.number_of_edges g in
  if (m =? 0)%nat || (n <=? 1)%nat then 0%Q
  else (int_div m (n * (n - 1)) * 2)%Q.

(** The clustering coefficient of [v]. *)
Definition clustering (g : nx_graph) (v : string) : Q :=
  let vs := List.filter (fun w => negb (String.eqb w v)) (adj g v) in
  let t :=
    list_sum
      (map (fun w =>
              length (List.filter
                        (fun x => negb (String.eqb x w)
                                  && bool_decide (x ∈ adj g w)) vs))
           vs) in
  let d := length vs in
  if (t =? 0)%nat then 0%Q else int_div t (d * (d - 1)).

Definition average_clustering (g : nx_graph) : Q :=
  (fold_left Qplus (map (clustering g) (Graph.nodes g)) 0
   / inject_Z (Z.of_nat (length g)))%Q.

(** A stand-in for a centrality of networkx: the empty dictionary, so
    that every node reads the default 0. *)
Definition no_centrality (g : nx_graph) : option (dict string Q) := Some [].

End Nx.

(** ** The stores the interface builds

    The stores an analyser can hold: the empty one, and what the
    ingestion operations and the scorer make of such a store. *)
Inductive reachable : analyzer -> Prop :=
| reachable_init : reachable init
| reachable_add_user st uid a pd now :
    reachable st -> reachable (add_user st uid a pd now)
| reachable_add_connection st user1 user2 ctype w now :
    reachable st -> reachable (add_connection st user1 user2 ctype w now)
| reachable_add_content_interaction st uid cid ctype itype md now1 now2 :
    reachable st ->
    reachable (snd (add_content_interaction st uid cid ctype itype md now1 now2))
| reachable_detect st :
    reachable st -> reachable (snd (detect_suspicious_content_patterns st)).

(** The keys of [user_profiles] are distinct, and every registered user
    is a node of the graph. *)
Definition store_inv (st : analyzer) : Prop :=
  Dict.wf (user_profiles st) /\
  forall u, Dict.contains u (user_profiles st) = true ->
            Graph.has_node (graph st) u = true.

(** ** The scorer as the specification words it

    The definitions below follow the text of the specification, not the
    code; the theorems compare them with [scan_user]. *)




(** ** The average risk as the specification words it *)

(** The classifier's scores of the interactions whose content is in the
    catalog, in the order of the log. *)
Definition resolvable_scores (lower : string -> string)
           (content_data : dict string content_item)
           (consumed : list interaction) : list Q :=
  omap (fun i =>
          (fun item => risk_score (classify_content_risk lower (c_metadata item)))
            <$> Dict.get (i_content_id i) content_data)
       consumed.

Definition Qsum (l : list Q) : Q := foldr Qplus 0%Q l.

(** The mean of a list of numbers. *)
Definition mean (l : list Q) : Q := (Qsum l / inject_Z (Z.of_nat (length l)))%Q.

(** The number of entries of [l] whose tag [f] is [k]. *)
Definition count_by {A : Type} (f : A -> string) (k : string) (l : list A) : nat :=
  length (List.filter (fun x => bool_decide (f x = k)) l).

(** ** Concrete inputs *)

(** The content [{title: "bebê aprende", target_age_max: 5, category:
    "kids", duration_seconds: 30}]. *)
Definition bebe_aprende : metadata :=
  {| title := Some "bebê aprende"; description := None;
     category := Some "kids"; target_age_max := Some 5%Q;
     target_age_min := None; duration_seconds := Some 30%Q |}.

(** A clock reading, a Monday at noon. *)
Definition noon : datetime := {| instant := 0; hour := 12; weekday := 0 |}.

(** Metadata [{target_age_max: 6}]. *)
Definition for_age_6 : metadata :=
  {| title := None; description := None; category := None;
     target_age_max := Some 6%Q; target_age_min := None;
     duration_seconds := None |}.

(** [n] views by [uid] of the content [cid]. *)
Fixpoint views (n : nat) (uid cid ctype : string) (md : option metadata)
         (st : analyzer) : analyzer :=
  match n with
  | O => st
  | S k =>
      snd (add_content_interaction (views k uid cid ctype md st)
             uid cid ctype "view" md noon noon)
  end.

(** The end-to-end scenario of the specification: U1, 45, with 8 of 10
    interactions on content for age 6; U2, 16, with the same pattern;
    U3, 30, with 1 of 10. *)
Definition demo_store : analyzer :=
  let st0 := add_user (add_user (add_user init "U1" 45 None noon)
                                "U2" 16 None noon) "U3" 30 None noon in
  let st1 := views 2 "U1" "news" "video" None
               (views 8 "U1" "toy" "video" (Some for_age_6) st0) in
  let st2 := views 2 "U2" "news" "video" None
               (views 8 "U2" "toy" "video" (Some for_age_6) st1) in
  views 9 "U3" "news" "video" None
    (views 1 "U3" "toy" "video" (Some for_age_6) st2).


(** A user registered with a log that names the content ["gone"], which
    the catalog does not hold, and who then views ["toy"], a content
    for age 5. *)
Definition stale_log : profile_data :=
  {| pd_user_id := None; pd_age := None; pd_registration_date := None;
     pd_suspicious_score := None;
     pd_content_consumed :=
       Some [{| i_content_id := "gone"; i_content_type := "video";
                i_interaction_type := "view"; i_timestamp := Some noon;
                i_metadata := None |}];
     pd_connections := None; pd_extra := [] |}.

Definition for_age_5 : metadata :=
  {| title := None; description := None; category := None;
     target_age_max := Some 5%Q; target_age_min := None;
     duration_seconds := None |}.

Definition half_known_store : analyzer :=
  snd (add_content_interaction
         (add_user init "u" 30 (Some stale_log) noon)
         "u" "toy" "video" "view" (Some for_age_5) noon noon).

Definition half_known_user : profile :=
  Eval vm_compute in
    default (fresh_profile "u" 30 noon)
            (Dict.get "u" (user_profiles half_known_store)).

Definition half_known_log : list interaction := content_consumed half_known_user.

(** A suspicious-user record for an id no user was registered under. *)
Definition ghost : suspicion_record :=
  {| s_user_id := "ghost"; s_age := 40; child_content_ratio := 1;
     child_content_count := 6; total_content_count := 6;
     suspicion_score := 1.0; connections_count := 0 |}.

(** The graph scenario of the specification: the suspicious users A and
    B are connected, A has one more neighbour N who is not suspicious,
    and the suspicious user C has no connection. *)
Definition trio_store : analyzer :=
  let st0 := add_user (add_user (add_user (add_user init "A" 40 None noon)
                                          "B" 50 None noon)
                                "C" 60 None noon) "N" 35 None noon in
  let st1 := add_connection (add_connection st0 "A" "B" "friend" 1.0 noon)
                            "A" "N" "follower" 0.5 noon in
  views 6 "C" "toy" "kids_video" None
    (views 6 "B" "toy" "kids_video" None
       (views 6 "A" "toy" "kids_video" None st1)).

Definition trio_suspects : list suspicion_record :=
  Eval vm_compute in fst (detect_suspicious_content_patterns trio_store).

(** Three flagged users, registered in the order low, top1, top2: low
    has 6 child interactions out of 20 (score 0.6), top1 and top2 have 6
    out of 6 (score 1.0). *)
Definition ranking_store : analyzer :=
  let st0 := add_user (add_user (add_user init "low" 45 None noon)
                                "top1" 45 None noon) "top2" 45 None noon in
  views 6 "top2" "toy" "kids_video" None
    (views 6 "top1" "toy" "kids_video" None
       (views 14 "low" "news" "video" None
          (views 6 "low" "toy" "kids_video" None st0))).

(** Attributes [{"name": "Ana", "age": 12, "suspicious_score": 0.9}]. *)
Definition overriding_attrs : profile_data :=
  {| pd_user_id := None; pd_age := Some 12%Z; pd_registration_date := None;
     pd_suspicious_score := Some 0.9%Q; pd_content_consumed := None;
     pd_connections := None; pd_extra := [("name", "Ana")] |}.

(** ** More of the graph: edge data and the edge view *)

(** [G[u][v]]: the data of the edge between [u] and [v], if any. *)
Definition edge_attrs (g : nx_graph) (u v : string) : option edge_data :=
  nbrs ← Dict.get u g; Dict.get v nbrs.

(** The adjacency of a graph is symmetric. *)
Definition undirected (g : nx_graph) : Prop :=
  forall u v, Graph.has_edge g u v = Graph.has_edge g v u.

(** The invariant of the connection graph of a store: the nodes are the
    registered users, and the adjacency is symmetric. *)
Definition graph_inv (st : analyzer) : Prop :=
  (forall u, Graph.has_node (graph st) u = Dict.contains u (user_profiles st)) /\
  undirected (graph st) /\
  (forall u v, Graph.has_edge (graph st) u v = true ->
               Dict.contains u (user_profiles st) = true /\
               Dict.contains v (user_profiles st) = true).

(** The invariant of the content catalog of a store: distinct keys, every
    item stored under its own id, with at least one interaction, all by
    registered users. *)
Definition catalog_inv (st : analyzer) : Prop :=
  Dict.wf (content_data st) /\
  forall cid c, Dict.get cid (content_data st) = Some c ->
    c_content_id c = cid /\ c_interactions c <> [] /\ c_flags c = [] /\
    forall ci, In ci (c_interactions c) ->
               Dict.contains (ci_user_id ci) (user_profiles st) = true.

(** ** The order of the risk levels *)

(** MÍNIMO < BAIXO < MÉDIO < ALTO. *)
Definition risk_rank (l : risk_level) : nat :=
  match l with MINIMO => 0 | BAIXO => 1 | MEDIO => 2 | ALTO => 3 end.

(** The accumulator of the classifier after some rules: every factor
    stands for a weight between 0.1 and 0.8. *)
Definition weighed (a : acc) : Prop :=
  (0.1 * inject_Z (Z.of_nat (length (snd a))) <= fst a)%Q /\
  (fst a <= 0.8 * inject_Z (Z.of_nat (length (snd a))))%Q.

(** What the age rule alone contributes. *)
Definition age_weight (md : metadata) : Q :=
  fst (age_rule md (0.0%Q, [])).


Section Reports.

Variable lower : string -> string.
Variable cd : dict string content_item.


End Reports.

(** ** The content risk report ([generate_content_risk_report]) *)

(** An entry of a level's list in [user_risk_analysis]. *)
Record user_summary := {
  us_user_id : string;
  us_age : Z;
  combined_score : Q;
  us_avg_risk_score : Q;
  us_high_risk_ratio : Q;
  us_suspicious_indicators : list indicator;
  us_total_interactions : nat
}.

(** A value of [content_risk_analysis]. *)
Record content_risk_entry := {
  cr_content_id : string;
  cr_risk_score : Q;
  cr_risk_level : risk_level;
  cr_total_interactions : nat;
  cr_adult_interactions : nat;
  cr_adult_ratio : Q;
  cr_risk_factors : list string
}.

(** The texts of [_generate_content_recommendations], one constructor
    per template, with the interpolated count. *)
Inductive content_recommendation :=
| ImmediateAction (high_risk_count : nat)
| ProblematicContent (count : nat)
| Monitoring
| Prevention.

Record content_summary := {
  total_users_analyzed : nat;
  cs_high_risk_users : nat;
  cs_medium_risk_users : nat;
  total_content_analyzed : nat;
  problematic_content_count : nat
}.

Record content_report := {
  cr_timestamp : datetime;
  cr_summary : content_summary;
  user_risk_analysis : dict string (list user_summary);
  problematic_content : list content_risk_entry;
  cr_recommendations : list content_recommendation
}.

(** [avg_risk * 0.4 + high_risk_ratio * 0.4 + min(1.0, num_indicators / 5) * 0.2] *)
Definition combined_of (pattern : pattern_analysis) : Q :=
  avg_risk_score pattern * 0.4 + high_risk_ratio pattern * 0.4 +
  py_min 1.0 (int_div (length (suspicious_indicators pattern)) 5) * 0.2.

Definition summarize (uid : string) (pattern : pattern_analysis) : user_summary :=
  {| us_user_id := uid;
     us_age := pa_age pattern;
     combined_score := combined_of pattern;
     us_avg_risk_score := avg_risk_score pattern;
     us_high_risk_ratio := high_risk_ratio pattern;
     us_suspicious_indicators := suspicious_indicators pattern;
     us_total_interactions := total_interactions pattern |}.

(** [{'ALTO': [], 'MÉDIO': [], 'BAIXO': [], 'MÍNIMO': []}] *)
Definition empty_risk_summary : dict string (list user_summary) :=
  [(risk_level_name ALTO, []); (risk_level_name MEDIO, []);
   (risk_level_name BAIXO, []); (risk_level_name MINIMO, [])].

(** [risk_summary[risk_level].append(user_summary)] *)
Definition bucket_append (level : risk_level) (s : user_summary)
           (risk_summary : dict string (list user_summary))
  : dict string (list user_summary) :=
  Dict.setitem (risk_level_name level)
               (default [] (Dict.get (risk_level_name level) risk_summary) ++ [s])
               risk_summary.

(** The loop over [user_patterns.items()]; minors are skipped. *)
Definition fill_risk_summary (user_patterns : dict string pattern_analysis)
  : dict string (list user_summary) :=
  fold_left
    (fun risk_summary '(uid, pattern) =>
       if (pa_age pattern <? 18)%Z then risk_summary
       else bucket_append (_get_risk_level (combined_of pattern))
                          (summarize uid pattern) risk_summary)
    user_patterns empty_risk_summary.

(** The users of one level, as a comprehension over the patterns. *)
Definition level_members (level : risk_level)
           (user_patterns : dict string pattern_analysis) : list user_summary :=
  map (fun '(uid, pattern) => summarize uid pattern)
      (List.filter (fun '(_, pattern) =>
                 (18 <=? pa_age pattern)%Z
                 && risk_level_eqb (_get_risk_level (combined_of pattern)) level)
              user_patterns).

Definition buckets_of (user_patterns : dict string pattern_analysis)
  : dict string (list user_summary) :=
  map (fun level => (risk_level_name level, level_members level user_patterns))
      [ALTO; MEDIO; BAIXO; MINIMO].

(** [risk_summary[level].sort(key=combined_score, reverse=True)] for
    every level. *)
Definition sort_risk_summary (risk_summary : dict string (list user_summary))
  : dict string (list user_summary) :=
  map (fun '(level, l) => (level, sorted_desc combined_score l)) risk_summary.

(** [uid in user_patterns and user_patterns[uid]['age'] >= 18] *)
Definition adult_in_patterns (user_patterns : dict string pattern_analysis)
           (uid : string) : bool :=
  match Dict.get uid user_patterns with
  | Some pattern => (18 <=? pa_age pattern)%Z
  | None => false
  end.

Definition problem_key (e : content_risk_entry) : Q :=
  cr_risk_score e * cr_adult_ratio e.

(** [_generate_content_recommendations] *)
Definition _generate_content_recommendations
           (risk_summary : dict string (list user_summary))
           (problematic : list content_risk_entry) : list content_recommendation :=
  let high_risk_count :=
    length (default [] (Dict.get (risk_level_name ALTO) risk_summary)) in
  (if (0 <? high_risk_count)%nat then [ImmediateAction high_risk_count] else []) ++
  (if (10 <? length problematic)%nat then [ProblematicContent (length problematic)] else []) ++
  [Monitoring; Prevention].

Section ContentReport.

Variable lower : string -> string.

(** The loop over [content_data.items()]. *)
Definition content_risk_analysis (user_patterns : dict string pattern_analysis)
           (content_data : dict string content_item) : dict string content_risk_entry :=
  fold_left
    (fun analysis '(cid, content_info) =>
       let risk_info := classify_content_risk lower (c_metadata content_info) in
       let interactions_count := length (c_interactions content_info) in
       let adult_interactions :=
         length (List.filter
                   (fun i => adult_in_patterns user_patterns (ci_user_id i))
                   (c_interactions content_info)) in
       if (0 <? adult_interactions)%nat && Qltb 0.3 (risk_score risk_info)
       then Dict.setitem cid
              {| cr_content_id := cid;
                 cr_risk_score := risk_score risk_info;
                 cr_risk_level := risk_level_of risk_info;
                 cr_total_interactions := interactions_count;
                 cr_adult_interactions := adult_interactions;
                 cr_adult_ratio := int_div adult_interactions interactions_count;
                 cr_risk_factors := risk_factors risk_info |}
              analysis
       else analysis)
    content_data [].

(** [generate_content_risk_report]; [now] is the value of
    [datetime.now()]. *)
Definition generate_content_risk_report (now : datetime)
           (user_patterns : dict string pattern_analysis)
           (content_data : dict string content_item) : content_report :=
  let risk_summary := sort_risk_summary (fill_risk_summary user_patterns) in
  let problematic :=
    sorted_desc problem_key
                (Dict.values (content_risk_analysis user_patterns content_data)) in
  {| cr_timestamp := now;
     cr_summary :=
       {| total_users_analyzed :=
            length (List.filter (fun p => (18 <=? pa_age p)%Z) (Dict.values user_patterns));
          cs_high_risk_users :=
            length (default [] (Dict.get (risk_level_name ALTO) risk_summary));
          cs_medium_risk_users :=
            length (default [] (Dict.get (risk_level_name MEDIO) risk_summary));
          total_content_analyzed := length content_data;
          problematic_content_count := length problematic |};
     user_risk_analysis := risk_summary;
     problematic_content := firstn 20 problematic;
     cr_recommendations := _generate_content_recommendations risk_summary problematic |}.

End ContentReport.

Section Listing.

Variable lower : string -> string.
Variable patterns : dict string pattern_analysis.


End Listing.

(** ** Similar contents ([ContentSimilarityAnalyzer]) *)

(** [self.similarity_threshold] *)
Definition similarity_threshold : Q := 0.7%Q.

Section Similarity.

Variable lower : string -> string.

(** [set(re.findall(r'\w+', s))]: the set of the words of [s]. *)
Variable words : string -> gset string.

(** [_calculate_text_similarity]: the Jaccard index of the two word
    sets. *)
Definition _calculate_text_similarity (text1 text2 : string) : Q :=
  if String.eqb text1 "" || String.eqb text2 "" then 0.0%Q
  else
    let words1 := words (lower text1) in
    let words2 := words (lower text2) in
    if bool_decide (words1 = ∅) || bool_decide (words2 = ∅) then 0.0%Q
    else
      let intersection := size (words1 ∩ words2) in
      let union := size (words1 ∪ words2) in
      if (0 <? union)%nat then int_div intersection union else 0.0%Q.

(** [f"{metadata.get('title', '')} {metadata.get('description', '')}"] *)
Definition similarity_text (md : metadata) : string :=
  default "" (title md) ++ " " ++ default "" (description md).

(** [calculate_content_similarity] *)
Definition calculate_content_similarity (content1 content2 : content_item) : Q :=
  let s0 := 0.0%Q in
  let s1 :=
    if String.eqb (c_content_type content1) (c_content_type content2)
    then (s0 + 0.3)%Q else s0 in
  let age1_max := default 100%Q (target_age_max (c_metadata content1)) in
  let age2_max := default 100%Q (target_age_max (c_metadata content2)) in
  let age_diff := Qabs (age1_max - age2_max) in
  let age_similarity := py_max 0 (1 - age_diff / 20) in
  let s2 := (s1 + age_similarity * 0.3)%Q in
  let text_similarity :=
    _calculate_text_similarity (similarity_text (c_metadata content1))
                               (similarity_text (c_metadata content2)) in
  let s3 := (s2 + text_similarity * 0.4)%Q in
  py_min 1.0 s3.

Variable content_data : dict string content_item.

(** The inner loop [for j, content_id2 in enumerate(content_ids[i+1:], i+1)];
    the state is [(cluster, processed)], and [None] is the [KeyError]
    of [content_data[...]]. *)
Fixpoint cluster_scan (content_id1 : string) (ids : list string)
         (st : list string * gset string) : option (list string * gset string) :=
  match ids with
  | [] => Some st
  | content_id2 :: rest =>
      if bool_decide (content_id2 ∈ snd st) then cluster_scan content_id1 rest st
      else
        match Dict.get content_id1 content_data, Dict.get content_id2 content_data with
        | Some c1, Some c2 =>
            if Qle_bool similarity_threshold (calculate_content_similarity c1 c2)
            then cluster_scan content_id1 rest
                              (fst st ++ [content_id2], {[content_id2]} ∪ snd st)
            else cluster_scan content_id1 rest st
        | _, _ => None
        end
  end.

(** The outer loop [for i, content_id1 in enumerate(content_ids)]. *)
Fixpoint clusters_loop (ids : list string) (processed : gset string)
         (clusters : list (list string)) : option (list (list string)) :=
  match ids with
  | [] => Some clusters
  | content_id1 :: rest =>
      if bool_decide (content_id1 ∈ processed) then clusters_loop rest processed clusters
      else
        match cluster_scan content_id1 rest ([content_id1], {[content_id1]} ∪ processed) with
        | Some (cluster, processed') =>
            clusters_loop rest processed'
                          (if (1 <? length cluster)%nat then clusters ++ [cluster]
                           else clusters)
        | None => None
        end
  end.

(** [find_content_clusters] *)
Definition find_content_clusters : option (list (list string)) :=
  clusters_loop (Dict.keys content_data) ∅ [].

(** The head of a cluster and a member that joined it. *)
Definition similar (h x : string) : Prop :=
  exists c1 c2,
    Dict.get h content_data = Some c1 /\ Dict.get x content_data = Some c2 /\
    (similarity_threshold <= calculate_content_similarity c1 c2)%Q.

(** A cluster: a head and at least one member that is similar to it. *)
Definition grouped (c : list string) : Prop :=
  exists h t, c = h :: t /\ t <> [] /\ In h (Dict.keys content_data) /\
              forall x, In x t -> In x (Dict.keys content_data) /\ similar h x.

End Similarity.

(** ** The pattern detectors ([graph_utils.py]) *)

(** [G.edges()] of an undirected graph, as networkx lists it: node by
    node in the order of the adjacency dictionary, each edge from the
    endpoint that comes first, a self-loop once. *)
Fixpoint graph_edges_from (adj : nx_graph) (seen : gset string)
  : list (string * string) :=
  match adj with
  | [] => []
  | (n, nbrs) :: rest =>
      map (fun nbr => (n, nbr))
          (List.filter (fun nbr => negb (bool_decide (nbr ∈ seen))) (Dict.keys nbrs))
      ++ graph_edges_from rest ({[n]} ∪ seen)
  end.

Definition graph_edges (g : nx_graph) : list (string * string) :=
  graph_edges_from g ∅.

(** An entry of the result of [detect_age_based_anomalies]; its [type]
    is always ['adult_minor_connection']. *)
Record age_anomaly := {
  adult_id : string;
  minor_id : string;
  adult_age : Z;
  minor_age : Z;
  aa_age_gap : Z;
  aa_risk_score : Q
}.

(** The body of [for edge in graph.edges()]. *)
Definition age_anomaly_of (age_gap_threshold : Z) (user_profiles : dict string profile)
           (edge : string * string) : option age_anomaly :=
  let '(user1, user2) := edge in
  match Dict.get user1 user_profiles, Dict.get user2 user_profiles with
  | Some p1, Some p2 =>
      let age1 := age p1 in
      let age2 := age p2 in
      let age_gap := Z.abs (age1 - age2) in
      if (age_gap_threshold <=? age_gap)%Z
         && (((18 <=? age1)%Z && (age2 <? 18)%Z) || ((18 <=? age2)%Z && (age1 <? 18)%Z))
      then Some {| adult_id := if (18 <=? age1)%Z then user1 else user2;
                   minor_id := if (age2 <? 18)%Z then user2 else user1;
                   adult_age := if (18 <=? age1)%Z then age1 else age2;
                   minor_age := if (age2 <? 18)%Z then age2 else age1;
                   aa_age_gap := age_gap;
                   aa_risk_score := py_min 1.0 (inject_Z age_gap / 30) |}
      else None
  | _, _ => None
  end.

(** [detect_age_based_anomalies]; the threshold is the attribute
    [age_gap_threshold] of the detector, 15 unless given. *)
Definition detect_age_based_anomalies (age_gap_threshold : Z) (g : nx_graph)
           (user_profiles : dict string profile) : list age_anomaly :=
  sorted_desc aa_risk_score
              (omap (age_anomaly_of age_gap_threshold user_profiles) (graph_edges g)).

(** An entry of the result of [analyze_interaction_timing]. *)
Record timing_anomaly := {
  ta_user_id : string;
  ta_age : Z;
  ta_school_hours_ratio : Q;
  total_child_content_interactions : nat;
  ta_peak_hours : list Z;
  ta_risk_score : Q
}.

(** The hours of the interactions with a timestamp whose content is for
    children. *)
Definition child_content_hours (consumed : list interaction) : list Z :=
  omap (fun i =>
          match i_timestamp i with
          | Some ts => if is_child_content i then Some (hour ts) else None
          | None => None
          end) consumed.

(** The body of [for user_id, profile in user_profiles.items()]. *)
Definition timing_anomaly_of (uid : string) (p : profile) : option timing_anomaly :=
  if (age p <? 18)%Z || (length (content_consumed p) <? 5)%nat then None
  else
    let hours := child_content_hours (content_consumed p) in
    if (5 <=? length hours)%nat then
      let hour_counts := Dict.counter hours in
      let peak :=
        map fst (List.filter
                   (fun hc => Qltb 0.3 (int_div (snd hc) (length hours))) hour_counts) in
      let school_hours_interaction :=
        length (List.filter (fun h => (8 <=? h)%Z && (h <=? 17)%Z) hours) in
      let school_hours_ratio := int_div school_hours_interaction (length hours) in
      if Qltb 0.6 school_hours_ratio
      then Some {| ta_user_id := uid;
                   ta_age := age p;
                   ta_school_hours_ratio := school_hours_ratio;
                   total_child_content_interactions := length hours;
                   ta_peak_hours := peak;
                   ta_risk_score := py_min 1.0 (school_hours_ratio * 1.5) |}
      else None
    else None.

(** [analyze_interaction_timing] *)
Definition analyze_interaction_timing (user_profiles : dict string profile)
  : list timing_anomaly :=
  sorted_desc ta_risk_score
              (omap (fun '(uid, p) => timing_anomaly_of uid p) user_profiles).

(** ** More concrete inputs *)

(** Two users, A (40) and B (12). *)
Definition pair_store : analyzer :=
  add_user (add_user init "A" 40 None noon) "B" 12 None noon.

(** The two connected as friends. *)
Definition pair_linked : analyzer :=
  add_connection pair_store "A" "B" "friend" 1 noon.

(** A then views the content ["toy"], a children's video, six times. *)
Definition pair_watch : analyzer :=
  views 6 "A" "toy" "kids_video" (Some for_age_5) pair_linked.

(** Three contents: two children's videos for age 5 with the same
    title, and a film without a target age. *)
Definition film : metadata :=
  {| title := Some "noir"; description := None; category := None;
     target_age_max := None; target_age_min := None; duration_seconds := None |}.

Definition rhymes : metadata :=
  {| title := Some "rhymes"; description := None; category := None;
     target_age_max := Some 5%Q; target_age_min := None; duration_seconds := None |}.

Definition shelf : dict string content_item :=
  [("r1", {| c_content_id := "r1"; c_content_type := "kids_video";
             c_interactions := []; c_flags := []; c_metadata := rhymes |});
   ("f", {| c_content_id := "f"; c_content_type := "video";
            c_interactions := []; c_flags := []; c_metadata := film |});
   ("r2", {| c_content_id := "r2"; c_content_type := "kids_video";
             c_interactions := []; c_flags := []; c_metadata := rhymes |})].

(** A tokenizer for [re.findall(r'\w+', s)] on ASCII text: the maximal
    runs of letters, digits and underscores; a byte above 127 counts as
    part of a word. *)
Definition is_word_char (c : ascii) : bool :=
  let n := nat_of_ascii c in
  ((48 <=? n) && (n <=? 57) || (65 <=? n) && (n <=? 90) ||
   (97 <=? n) && (n <=? 122) || (n =? 95) || (128 <=? n))%nat.

Fixpoint tokens (s : string) (cur : string) : list string :=
  match s with
  | EmptyString => match cur with EmptyString => [] | _ => [cur] end
  | String c rest =>
      if is_word_char c then tokens rest (cur ++ String c EmptyString)
      else match cur with
           | EmptyString => tokens rest EmptyString
           | _ => cur :: tokens rest EmptyString
           end
  end.

Definition ascii_words (s : string) : gset string := list_to_set (tokens s "").

(** A user of 30 with six views of a children's game at 10h on a Monday. *)
Definition morning : datetime := {| instant := 0; hour := 10; weekday := 0 |}.

Definition morning_view : interaction :=
  {| i_content_id := "game"; i_content_type := "children_game";
     i_interaction_type := "view"; i_timestamp := Some morning;
     i_metadata := None |}.

Definition morning_user : dict string profile :=
  [("M", {| user_id := "M"; age := 30; registration_date := noon;
            suspicious_score := 0.0; content_consumed := repeat morning_view 6;
            connections := []; extra := [] |})].

(* ================================================================== *)
(** * Part II: properties *)
(* ================================================================== *)

(** ** Numbers *)

Lemma Qltb_lt (x y : Q) : Qltb x y = true <-> (x < y)%Q.
Proof.
  unfold Qltb. rewrite negb_true_iff.
  split; intros H.
  - apply Qnot_le_lt. intros Hle. apply Qle_bool_iff in Hle. congruence.
  - destruct (Qle_bool y x) eqn:E; [|reflexivity].
    apply Qle_bool_iff in E. exfalso. exact (Qlt_not_le _ _ H E).
Qed.

Lemma Qltb_ge (x y : Q) : Qltb x y = false <-> (y <= x)%Q.
Proof.
  unfold Qltb. rewrite negb_false_iff. apply Qle_bool_iff.
Qed.

Lemma Qle_bool_false (x y : Q) : Qle_bool x y = false <-> (y < x)%Q.
Proof.
  rewrite <- Qltb_lt. unfold Qltb. rewrite negb_true_iff. reflexivity.
Qed.

Lemma py_min_le_l (a b : Q) : (py_min a b <= a)%Q.
Proof.
  unfold py_min. destruct (Qltb b a) eqn:E.
  - apply Qltb_lt in E. apply Qlt_le_weak, E.
  - apply Qle_refl.
Qed.

Lemma py_min_ge (a b c : Q) : (c <= a)%Q -> (c <= b)%Q -> (c <= py_min a b)%Q.
Proof. intros Ha Hb. unfold py_min. destruct (Qltb b a); assumption. Qed.

(** ** The classifier *)

Section ClassifierFacts.

Variable lower : string -> string.

Lemma bump_nonneg (a : acc) (w : Q) (f : string) :
  (0 <= w)%Q -> (0 <= fst a)%Q -> (0 <= fst (bump a w f))%Q.
Proof.
  intros Hw Ha. unfold bump. simpl.
  exact (Qplus_le_compat 0 (fst a) 0 w Ha Hw).
Qed.

Lemma scan_keywords_nonneg text w label ks (a : acc) :
  (0 <= w)%Q -> (0 <= fst a)%Q ->
  (0 <= fst (scan_keywords text w label ks a))%Q.
Proof.
  intros Hw. revert a.
  induction ks as [|k ks IH]; intros a Ha; simpl; [exact Ha|].
  apply IH. destruct (PyStr.contains k text); [|exact Ha].
  apply bump_nonneg; assumption.
Qed.

Lemma raw_risk_nonneg (md : metadata) : (0 <= fst (raw_risk lower md))%Q.
Proof.
  unfold raw_risk, duration_rule, category_rule.
  assert (H0 : (0 <= fst (age_rule md (0.0%Q, [])))%Q).
  { unfold age_rule.
    repeat match goal with |- context [if ?b then _ else _] => destruct b end;
      try (apply bump_nonneg); simpl; try discriminate. }
  match goal with |- context [if ?b then _ else _] => destruct b end;
  [apply bump_nonneg; [discriminate|] |];
  (match goal with |- context [if ?b then _ else _] => destruct b end;
   [apply bump_nonneg; [discriminate|] |]);
  repeat (apply scan_keywords_nonneg; [discriminate|]); exact H0.
Qed.

End ClassifierFacts.

(** C3. For every metadata the classifier's [risk_score] lies in [0,1],
    and its level is the one the thresholds give: at least 0.7 is high,
    from 0.4 up to 0.7 medium, from 0.2 up to 0.4 low, below 0.2 minimal;
    the boundary scores 0, 0.2, 0.4, 0.7 and 1.0 fall on minimal, low,
    medium, high and high. *)
Theorem classify_score_range_and_levels :
  forall (lower : string -> string) (md : metadata),
    let r := classify_content_risk lower md in
    ((0 <= risk_score r)%Q /\ (risk_score r <= 1)%Q) /\
    risk_level_of r = _get_risk_level (risk_score r) /\
    ((0.7 <= risk_score r)%Q <-> risk_level_of r = ALTO) /\
    ((0.4 <= risk_score r)%Q /\ (risk_score r < 0.7)%Q <-> risk_level_of r = MEDIO) /\
    ((0.2 <= risk_score r)%Q /\ (risk_score r < 0.4)%Q <-> risk_level_of r = BAIXO) /\
    ((risk_score r < 0.2)%Q <-> risk_level_of r = MINIMO) /\
    _get_risk_level 0 = MINIMO /\ _get_risk_level 0.2 = BAIXO /\
    _get_risk_level 0.4 = MEDIO /\ _get_risk_level 0.7 = ALTO /\
    _get_risk_level 1.0 = ALTO.
Proof.
  intros lower md r.
  assert (Hlev : forall s : Q,
    ((0.7 <= s)%Q <-> _get_risk_level s = ALTO) /\
    ((0.4 <= s)%Q /\ (s < 0.7)%Q <-> _get_risk_level s = MEDIO) /\
    ((0.2 <= s)%Q /\ (s < 0.4)%Q <-> _get_risk_level s = BAIXO) /\
    ((s < 0.2)%Q <-> _get_risk_level s = MINIMO)).
  { intros s. unfold _get_risk_level.
    destruct (Qle_bool 0.7 s) eqn:E7;
      [apply Qle_bool_iff in E7 | apply Qle_bool_false in E7];
    (destruct (Qle_bool 0.4 s) eqn:E4;
      [apply Qle_bool_iff in E4 | apply Qle_bool_false in E4]);
    (destruct (Qle_bool 0.2 s) eqn:E2;
      [apply Qle_bool_iff in E2 | apply Qle_bool_false in E2]);
    (repeat split; intros; try discriminate; try reflexivity;
     repeat match goal with H : _ /\ _ |- _ => destruct H end; lra). }
  split.
  { subst r. unfold classify_content_risk. simpl. split.
    - apply py_min_ge; [discriminate | apply raw_risk_nonneg].
    - eapply Qle_trans; [apply py_min_le_l | discriminate]. }
  split; [reflexivity|].
  destruct (Hlev (risk_score r)) as (H1 & H2 & H3 & H4).
  split; [exact H1|]. split; [exact H2|]. split; [exact H3|]. split; [exact H4|].
  repeat split; reflexivity.
Qed.

(** C8. Classifying [{title: "bebê aprende", target_age_max: 5, category:
    "kids", duration_seconds: 30}] gives the level high and the score 1.0:
    the raw sum is 0.8 (target age at most 8) + 0.3 (one high-risk
    keyword) + 0.2 (suspicious category) + 0.1 (under 60 seconds), above
    the cap; the factor list has exactly 4 strings, in the order the
    rules are evaluated. *)
Theorem classify_bebe_aprende :
  let r := classify_content_risk PyStr.latin1_lower bebe_aprende in
  risk_level_of r = ALTO /\
  risk_score r = 1.0%Q /\
  fst (raw_risk PyStr.latin1_lower bebe_aprende) = (0.0 + 0.8 + 0.3 + 0.2 + 0.1)%Q /\
  (1.0 < fst (raw_risk PyStr.latin1_lower bebe_aprende))%Q /\
  risk_factors r =
    ["Conteúdo para crianças muito pequenas";
     "Palavra-chave de alto risco: bebê";
     "Categoria suspeita: kids";
     "Duração muito curta"] /\
  length (risk_factors r) = 4%nat.
Proof.
  cbv zeta. repeat split; vm_compute; reflexivity.
Qed.

(** ** Dictionaries *)

Section DictFacts.
Context {K V : Type} `{EqDecision K}.

Lemma dict_get_setitem_eq (k : K) (v : V) (d : dict K V) :
  Dict.get k (Dict.setitem k v d) = Some v.
Proof.
  induction d as [|[k' v'] d IH]; simpl.
  - destruct (decide (k = k)); congruence.
  - destruct (decide (k = k')) as [->|Hne]; simpl.
    + destruct (decide (k' = k')); congruence.
    + destruct (decide (k = k')); [congruence | exact IH].
Qed.

Lemma dict_get_setitem_ne (k k' : K) (v : V) (d : dict K V) :
  k <> k' -> Dict.get k' (Dict.setitem k v d) = Dict.get k' d.
Proof.
  intros Hne. induction d as [|[k0 v0] d IH]; simpl.
  - destruct (decide (k' = k)); congruence.
  - destruct (decide (k = k0)) as [->|Hk]; simpl.
    + destruct (decide (k' = k0)); congruence.
    + destruct (decide (k' = k0)); [reflexivity | exact IH].
Qed.

Lemma dict_contains_true (k : K) (d : dict K V) :
  Dict.contains k d = true <-> exists v, Dict.get k d = Some v.
Proof.
  unfold Dict.contains. destruct (Dict.get k d) as [v|].
  - split; [eauto | reflexivity].
  - split; [discriminate | intros [v Hv]; discriminate].
Qed.

Lemma dict_contains_false (k : K) (d : dict K V) :
  Dict.contains k d = false <-> Dict.get k d = None.
Proof.
  unfold Dict.contains. destruct (Dict.get k d); split; congruence.
Qed.

Lemma dict_get_In (k : K) (v : V) (d : dict K V) :
  Dict.get k d = Some v -> In (k, v) d.
Proof.
  induction d as [|[k' v'] d IH]; simpl; [discriminate|].
  destruct (decide (k = k')) as [->|Hne].
  - intros [= ->]. now left.
  - intros Hg. right. exact (IH Hg).
Qed.

Lemma dict_In_get (k : K) (v : V) (d : dict K V) :
  Dict.wf d -> In (k, v) d -> Dict.get k d = Some v.
Proof.
  unfold Dict.wf, Dict.keys.
  induction d as [|[k' v'] d IH]; simpl; [intros _ []|].
  intros Hnd Hin. apply NoDup_cons in Hnd as [Hnotin Hnd].
  destruct Hin as [[= -> ->]|Hin].
  - destruct (decide (k = k)); congruence.
  - destruct (decide (k = k')) as [->|Hne]; [|exact (IH Hnd Hin)].
    exfalso. apply Hnotin. apply list_elem_of_In.
    change k' with (fst (k', v)). apply in_map. exact Hin.
Qed.

Lemma dict_get_None_keys (k : K) (d : dict K V) :
  Dict.get k d = None <-> ~ In k (Dict.keys d).
Proof.
  unfold Dict.keys. induction d as [|[k' v'] d IH]; simpl.
  - split; [intros _ [] | reflexivity].
  - destruct (decide (k = k')) as [->|Hne].
    + split; [discriminate | intros Hn; exfalso; apply Hn; now left].
    + rewrite IH. split.
      * intros Hn [Heq|Hin]; [congruence | exact (Hn Hin)].
      * intros Hn Hin. apply Hn. now right.
Qed.

Lemma dict_keys_setitem (k : K) (v : V) (d : dict K V) :
  Dict.keys (Dict.setitem k v d) =
  if Dict.contains k d then Dict.keys d else Dict.keys d ++ [k].
Proof.
  unfold Dict.contains, Dict.keys.
  induction d as [|[k' v'] d IH]; simpl; [reflexivity|].
  destruct (decide (k = k')) as [->|Hne]; simpl; [reflexivity|].
  rewrite IH. destruct (Dict.get k d); reflexivity.
Qed.

Lemma dict_wf_setitem (k : K) (v : V) (d : dict K V) :
  Dict.wf d -> Dict.wf (Dict.setitem k v d).
Proof.
  unfold Dict.wf. rewrite dict_keys_setitem. intros Hnd.
  destruct (Dict.contains k d) eqn:E; [exact Hnd|].
  apply dict_contains_false, dict_get_None_keys in E.
  apply NoDup_app. split; [exact Hnd|]. split.
  - intros x Hx Hx'. apply list_elem_of_In in Hx, Hx'.
    destruct Hx' as [->|[]]. exact (E Hx).
  - apply NoDup_singleton.
Qed.

End DictFacts.

(** The histogram built by [d[k] += 1] over a list counts the
    occurrences of every key. *)
Lemma dict_get_incr (k k' : string) (d : dict string nat) :
  default 0%nat (Dict.get k' (Dict.incr k d)) =
  ((if decide (k = k') then 1 else 0) + default 0%nat (Dict.get k' d))%nat.
Proof.
  unfold Dict.incr. destruct (decide (k = k')) as [->|Hne].
  - rewrite dict_get_setitem_eq. reflexivity.
  - rewrite dict_get_setitem_ne by exact Hne. reflexivity.
Qed.

(** ** The stable sort *)

Section SortFacts.
Context {A : Type} (key : A -> Q).

Lemma insert_desc_perm (x : A) (l : list A) :
  Permutation (insert_desc key x l) (x :: l).
Proof.
  induction l as [|y ys IH]; simpl; [reflexivity|].
  destruct (Qltb (key x) (key y)); [|reflexivity].
  rewrite IH. apply perm_swap.
Qed.

Lemma sorted_desc_perm (l : list A) : Permutation (sorted_desc key l) l.
Proof.
  induction l as [|x l IH]; simpl; [reflexivity|].
  rewrite insert_desc_perm. now apply perm_skip.
Qed.

Lemma sorted_desc_length (l : list A) : length (sorted_desc key l) = length l.
Proof. apply Permutation_length, sorted_desc_perm. Qed.

Lemma insert_desc_sorted (x : A) (l : list A) :
  StronglySorted (desc key) l -> StronglySorted (desc key) (insert_desc key x l).
Proof.
  induction 1 as [|y ys Hs IH Hall]; simpl.
  - constructor; constructor.
  - destruct (Qltb (key x) (key y)) eqn:E.
    + constructor; [exact IH|].
      apply Forall_forall. intros z Hz.
      apply list_elem_of_In in Hz.
      apply (Permutation_in _ (insert_desc_perm x ys)) in Hz.
      destruct Hz as [<-|Hz].
      * apply Qltb_lt in E. apply Qlt_le_weak, E.
      * rewrite Forall_forall in Hall. apply Hall, list_elem_of_In, Hz.
    + apply Qltb_ge in E.
      constructor; [constructor; assumption|].
      constructor; [exact E|].
      eapply Forall_impl; [exact Hall|].
      intros z Hz. unfold desc in *. eapply Qle_trans; eassumption.
Qed.

Lemma sorted_desc_sorted (l : list A) : StronglySorted (desc key) (sorted_desc key l).
Proof.
  induction l as [|x l IH]; simpl; [constructor|].
  apply insert_desc_sorted, IH.
Qed.

(** Stability: the entries whose key equals [q] come out in the order
    they went in. *)
Lemma insert_desc_stable (q : Q) (x : A) (l : list A) :
  List.filter (fun a => Qeq_bool (key a) q) (insert_desc key x l) =
  List.filter (fun a => Qeq_bool (key a) q) (x :: l).
Proof.
  induction l as [|y ys IH]; [reflexivity|].
  cbn [insert_desc]. destruct (Qltb (key x) (key y)) eqn:E; [|reflexivity].
  cbn [List.filter] in *. rewrite IH.
  destruct (Qeq_bool (key x) q) eqn:Ex; [|reflexivity].
  destruct (Qeq_bool (key y) q) eqn:Ey; [|reflexivity].
  exfalso. apply Qeq_bool_iff in Ex, Ey. apply Qltb_lt in E.
  rewrite Ex, Ey in E. exact (Qlt_irrefl _ E).
Qed.

Lemma sorted_desc_stable (q : Q) (l : list A) :
  List.filter (fun a => Qeq_bool (key a) q) (sorted_desc key l) =
  List.filter (fun a => Qeq_bool (key a) q) l.
Proof.
  induction l as [|x l IH]; [reflexivity|].
  cbn [sorted_desc foldr]. rewrite insert_desc_stable.
  cbn [List.filter]. fold (sorted_desc key l). rewrite IH. reflexivity.
Qed.

Lemma sorted_firstn (n : nat) (l : list A) :
  StronglySorted (desc key) l -> StronglySorted (desc key) (firstn n l).
Proof.
  intros Hs. revert n. induction Hs as [|y ys Hs IH Hall]; intros [|n]; simpl;
    try constructor.
  - apply IH.
  - apply Forall_take, Hall.
Qed.

End SortFacts.

(** ** The suspicion scorer *)

Lemma py_min_Qmin (a b : Q) : (py_min a b == Qmin a b)%Q.
Proof.
  unfold py_min. destruct (Qltb b a) eqn:E.
  - apply Qltb_lt in E. symmetry. apply Q.min_r. apply Qlt_le_weak, E.
  - apply Qltb_ge in E. symmetry. apply Q.min_l, E.
Qed.

Lemma py_max_Qmax (a b : Q) : (py_max a b == Qmax a b)%Q.
Proof.
  unfold py_max. destruct (Qltb a b) eqn:E.
  - apply Qltb_lt in E. symmetry. apply Q.max_r. apply Qlt_le_weak, E.
  - apply Qltb_ge in E. symmetry. apply Q.max_l, E.
Qed.

Lemma py_min_mono (a b b' : Q) : (b <= b')%Q -> (py_min a b <= py_min a b')%Q.
Proof.
  intros Hb. rewrite !py_min_Qmin. apply Q.min_le_compat_l, Hb.
Qed.

Lemma int_div_mono (total c1 c2 : nat) :
  (c1 <= c2)%nat -> (int_div c1 total <= int_div c2 total)%Q.
Proof.
  intros Hc. unfold int_div, Qdiv. apply Qmult_le_compat_r.
  - rewrite <- Zle_Qle. lia.
  - apply Qinv_le_0_compat. replace 0%Q with (inject_Z 0) by reflexivity.
    rewrite <- Zle_Qle. lia.
Qed.




Lemma count_child_content_filter (l : list interaction) :
  count_child_content l = length (List.filter is_child_content l).
Proof.
  unfold count_child_content.
  assert (H : forall n, fold_left (fun n i => if is_child_content i then S n else n) l n
                        = (n + length (List.filter is_child_content l))%nat).
  { induction l as [|i l IH]; intros n; simpl; [lia|].
    rewrite IH. destruct (is_child_content i); simpl; lia. }
  apply H.
Qed.

Lemma scan_user_uid (uid : string) (p : profile) (r : suspicion_record) :
  scan_user uid p = Some r -> s_user_id r = uid.
Proof.
  unfold scan_user.
  repeat match goal with |- context [if ?b then _ else _] => destruct b end;
    intros [= <-]; reflexivity.
Qed.

Lemma scan_user_set_score (uid : string) (p : profile) (s : Q) :
  scan_user uid (set_suspicious_score p s) = scan_user uid p.
Proof. reflexivity. Qed.

Lemma write_back_idem (e : string * profile) : write_back (write_back e) = write_back e.
Proof.
  destruct e as [uid p]. unfold write_back. simpl.
  destruct (scan_user uid p) as [r|] eqn:E.
  - rewrite scan_user_set_score, E. reflexivity.
  - rewrite E. reflexivity.
Qed.

Lemma scan_entry_write_back (e : string * profile) :
  scan_entry (write_back e) = scan_entry e.
Proof.
  destruct e as [uid p]. unfold scan_entry, write_back. simpl.
  destruct (scan_user uid p) eqn:E; [rewrite scan_user_set_score|]; exact E.
Qed.

(** The loop yields the records in the order of the entries, and
    rewrites every entry where it stands. *)
Lemma detect_loop_spec (ups : dict string profile) :
  detect_loop ups = (omap scan_entry ups, map write_back ups).
Proof.
  unfold detect_loop.
  assert (H : forall found done,
    fold_left
      (fun '(found, done) '(uid, p) =>
         match scan_user uid p with
         | Some r =>
             (found ++ [r], done ++ [(uid, set_suspicious_score p (suspicion_score r))])
         | None => (found, done ++ [(uid, p)])
         end) ups (found, done)
    = (found ++ omap scan_entry ups, done ++ map write_back ups)).
  { induction ups as [|[uid p] ups IH]; intros found done; simpl.
    - now rewrite !app_nil_r.
    - unfold scan_entry at 1, write_back at 1. simpl.
      destruct (scan_user uid p) as [r|]; rewrite IH; simpl;
        now rewrite <- ?app_assoc. }
  apply (H [] []).
Qed.

Lemma detect_spec (st : analyzer) :
  detect_suspicious_content_patterns st =
  (sorted_desc suspicion_score (omap scan_entry (user_profiles st)),
   {| graph := graph st;
      user_profiles := map write_back (user_profiles st);
      content_data := content_data st |}).
Proof.
  unfold detect_suspicious_content_patterns. now rewrite detect_loop_spec.
Qed.

Lemma dict_get_write_back (uid : string) (ups : dict string profile) :
  Dict.get uid (map write_back ups) =
  (fun p => snd (write_back (uid, p))) <$> Dict.get uid ups.
Proof.
  induction ups as [|[k p] ups IH]; simpl; [reflexivity|].
  destruct (decide (uid = k)) as [->|Hne]; [reflexivity | exact IH].
Qed.

Lemma in_omap_scan (r : suspicion_record) (ups : dict string profile) :
  In r (omap scan_entry ups) <->
  exists uid p, In (uid, p) ups /\ scan_user uid p = Some r.
Proof.
  rewrite <- list_elem_of_In, list_elem_of_omap. split.
  - intros ([uid p] & Hin & Hs). exists uid, p.
    split; [apply list_elem_of_In, Hin | exact Hs].
  - intros (uid & p & Hin & Hs). exists (uid, p).
    split; [apply list_elem_of_In, Hin | exact Hs].
Qed.

Lemma omap_scan_write_back (ups : dict string profile) :
  omap scan_entry (map write_back ups) = omap scan_entry ups.
Proof.
  induction ups as [|e ups IH]; [reflexivity|].
  change (omap scan_entry (map write_back (e :: ups)))
    with (match scan_entry (write_back e) with
          | Some r => r :: omap scan_entry (map write_back ups)
          | None => omap scan_entry (map write_back ups)
          end).
  rewrite scan_entry_write_back, IH. reflexivity.
Qed.

(** C7. The scorer is idempotent on an unchanged store: a second run
    returns the same suspicious-user list and leaves the store as the
    first run left it. *)
Theorem detect_idempotent :
  forall st : analyzer,
    detect_suspicious_content_patterns (snd (detect_suspicious_content_patterns st))
    = detect_suspicious_content_patterns st.
Proof.
  intros st. rewrite !detect_spec.
  cbn [snd graph user_profiles content_data].
  rewrite omap_scan_write_back, map_map.
  do 2 f_equal. apply map_ext. intros e. apply write_back_idem.
Qed.

(** C9. With the total interaction count fixed, a greater child-content
    count never gives a smaller ratio nor a smaller score
    [min(1, ratio * 2)]; so it is for the records the scorer builds. *)
Theorem score_monotone_in_child_count :
  forall total c1 c2 : nat,
    (0 < total)%nat -> (c1 <= c2)%nat ->
    (int_div c1 total <= int_div c2 total)%Q /\
    (py_min 1.0 (int_div c1 total * 2) <= py_min 1.0 (int_div c2 total * 2))%Q /\
    forall uid1 p1 r1 uid2 p2 r2,
      scan_user uid1 p1 = Some r1 -> scan_user uid2 p2 = Some r2 ->
      total_content_count r1 = total -> total_content_count r2 = total ->
      child_content_count r1 = c1 -> child_content_count r2 = c2 ->
      (child_content_ratio r1 <= child_content_ratio r2)%Q /\
      (suspicion_score r1 <= suspicion_score r2)%Q.
Proof.
  intros total c1 c2 Ht Hc.
  assert (Hr : (int_div c1 total <= int_div c2 total)%Q) by now apply int_div_mono.
  assert (Hs : (py_min 1.0 (int_div c1 total * 2) <= py_min 1.0 (int_div c2 total * 2))%Q).
  { apply py_min_mono. apply Qmult_le_compat_r; [exact Hr | discriminate]. }
  split; [exact Hr|]. split; [exact Hs|].
  intros uid1 p1 r1 uid2 p2 r2 H1 H2 Ht1 Ht2 Hc1 Hc2.
  unfold scan_user in H1, H2.
  repeat match type of H1 with
         | context [if ?b then _ else _] => destruct b; try discriminate
         end.
  repeat match type of H2 with
         | context [if ?b then _ else _] => destruct b; try discriminate
         end.
  injection H1 as <-. injection H2 as <-.
  cbn [child_content_ratio suspicion_score total_content_count
       child_content_count] in *.
  rewrite Ht1, Ht2, Hc1, Hc2. split; assumption.
Qed.

Lemma score_monotone_in_child_count_witness :
  (int_div 6 10 <= int_div 8 10)%Q /\
  (py_min 1.0 (int_div 6 10 * 2) <= py_min 1.0 (int_div 8 10 * 2))%Q.
Proof.
  pose proof (score_monotone_in_child_count 10 6 8 ltac:(lia) ltac:(lia)) as H.
  exact (conj (proj1 H) (proj1 (proj2 H))).
Defined.





(** ** Ingestion *)

Lemma get_append_interaction (uid : string) (i : interaction)
      (ups : dict string profile) (p : profile) :
  Dict.get uid ups = Some p ->
  Dict.get uid (append_interaction uid i ups) =
  Some {| user_id := user_id p; age := age p;
          registration_date := registration_date p;
          suspicious_score := suspicious_score p;
          content_consumed := content_consumed p ++ [i];
          connections := connections p; extra := extra p |}.
Proof.
  intros Hget. unfold append_interaction. rewrite Hget.
  apply dict_get_setitem_eq.
Qed.

Lemma get_append_content_interaction (cid : string) (ci : content_interaction)
      (cd : dict string content_item) (c : content_item) :
  Dict.get cid cd = Some c ->
  Dict.get cid (append_content_interaction cid ci cd) =
  Some {| c_content_id := c_content_id c; c_content_type := c_content_type c;
          c_interactions := c_interactions c ++ [ci];
          c_flags := c_flags c; c_metadata := c_metadata c |}.
Proof.
  intros Hget. unfold append_content_interaction. rewrite Hget.
  apply dict_get_setitem_eq.
Qed.

(** C6. Registering a connection leaves the whole store as it is when
    one of the two users is not registered.  Recording an interaction
    returns [False] exactly when the user is not registered, and then
    the store is unchanged; for a registered user it returns [True], the
    interaction is appended to the user's log and an entry is appended
    to the interaction list of the content (created when new). *)
Theorem ingestion_unknown_references :
  forall st : analyzer,
    (forall user1 user2 ctype w now,
       Dict.contains user1 (user_profiles st) = false \/
       Dict.contains user2 (user_profiles st) = false ->
       add_connection st user1 user2 ctype w now = st) /\
    (forall uid cid ctype itype md now1 now2,
       let res := add_content_interaction st uid cid ctype itype md now1 now2 in
       (fst res = false <-> Dict.contains uid (user_profiles st) = false) /\
       (Dict.contains uid (user_profiles st) = false -> snd res = st) /\
       (forall p, Dict.get uid (user_profiles st) = Some p ->
          fst res = true /\
          graph (snd res) = graph st /\
          (exists p',
             Dict.get uid (user_profiles (snd res)) = Some p' /\
             content_consumed p' =
               content_consumed p ++
               [{| i_content_id := cid; i_content_type := ctype;
                   i_interaction_type := itype; i_timestamp := Some now1;
                   i_metadata := Some (default empty_metadata md) |}] /\
             connections p' = connections p /\ age p' = age p /\
             suspicious_score p' = suspicious_score p) /\
          (exists c',
             Dict.get cid (content_data (snd res)) = Some c' /\
             c_interactions c' =
               match Dict.get cid (content_data st) with
               | Some c => c_interactions c
               | None => []
               end ++
               [{| ci_user_id := uid; ci_interaction_type := itype;
                   ci_timestamp := now2 |}]))).
Proof.
  intros st. split.
  - intros user1 user2 ctype w now Hor. unfold add_connection.
    destruct Hor as [-> | ->]; [reflexivity | now rewrite andb_false_r].
  - intros uid cid ctype itype md now1 now2 res. subst res.
    unfold add_content_interaction.
    destruct (Dict.contains uid (user_profiles st)) eqn:Ereg; cbn [negb fst snd].
    + split; [split; discriminate|]. split; [discriminate|].
      intros p Hget. split; [reflexivity|]. split; [reflexivity|].
      cbn [user_profiles content_data]. split.
      * eexists. split; [apply (get_append_interaction _ _ _ _ Hget)|].
        cbn. repeat split; reflexivity.
      * destruct (Dict.get cid (content_data st)) as [c|] eqn:Ecid.
        -- assert (Ec : Dict.contains cid (content_data st) = true)
             by (apply dict_contains_true; eauto).
           rewrite Ec. cbn [negb].
           eexists. split; [apply (get_append_content_interaction _ _ _ _ Ecid)|].
           reflexivity.
        -- assert (Ec : Dict.contains cid (content_data st) = false)
             by (now apply dict_contains_false).
           rewrite Ec. cbn [negb].
           eexists. split.
           ++ apply get_append_content_interaction. apply dict_get_setitem_eq.
           ++ reflexivity.
    + split; [split; reflexivity|]. split; [reflexivity|].
      intros p Hget. apply dict_contains_false in Ereg. congruence.
Qed.

Lemma get_fold_setitem (k : string) (l : dict string string) (d : dict string string) :
  Dict.wf l ->
  Dict.get k (fold_left (fun d '(k, v) => Dict.setitem k v d) l d) =
  match Dict.get k l with
  | Some v => Some v
  | None => Dict.get k d
  end.
Proof.
  unfold Dict.wf, Dict.keys. revert d.
  induction l as [|[k' v'] l IH]; intros d Hnd; [reflexivity|].
  cbn [map fst] in Hnd. apply NoDup_cons in Hnd as [Hnotin Hnd].
  cbn [fold_left Dict.get]. rewrite (IH _ Hnd).
  destruct (decide (k = k')) as [->|Hne].
  - assert (Hn : Dict.get k' l = None).
    { apply dict_get_None_keys. intros Hin. apply Hnotin, list_elem_of_In, Hin. }
    rewrite Hn. apply dict_get_setitem_eq.
  - rewrite dict_get_setitem_ne by congruence. reflexivity.
Qed.

Lemma has_edge_add_node (g : nx_graph) (n u v : string) :
  Graph.has_edge (Graph.add_node n g) u v = Graph.has_edge g u v.
Proof.
  unfold Graph.add_node, Graph.has_edge.
  destruct (Dict.contains n g) eqn:E; [reflexivity|].
  destruct (decide (n = u)) as [->|Hne].
  - rewrite dict_get_setitem_eq. apply dict_contains_false in E. now rewrite E.
  - now rewrite dict_get_setitem_ne.
Qed.

(** C10. After [add_user(id, age, attrs)] the profile stored under [id]
    is the default profile (no interactions, no connections, cached
    score 0, the given age) with every key of [attrs] copied over it:
    [attrs] overrides [age], [suspicious_score] and the other fields it
    names.  Registering an id again replaces the user's profile, so the
    interaction log and the connection list kept so far are gone, while
    the graph keeps its edges; the other profiles and the content catalog
    are untouched. *)
Theorem add_user_overwrites_profile :
  forall (st : analyzer) (uid : string) (a : Z) (pd : option profile_data)
         (now : datetime),
    let st' := add_user st uid a pd now in
    let fresh := fresh_profile uid a now in
    Dict.get uid (user_profiles st') =
      Some (match pd with Some d => profile_update fresh d | None => fresh end) /\
    (content_consumed fresh = [] /\ connections fresh = [] /\
     suspicious_score fresh = 0.0%Q /\ age fresh = a /\ user_id fresh = uid) /\
    (forall d, pd = Some d ->
       let p := profile_update fresh d in
       age p = default a (pd_age d) /\
       suspicious_score p = default 0.0%Q (pd_suspicious_score d) /\
       content_consumed p = default [] (pd_content_consumed d) /\
       connections p = default [] (pd_connections d) /\
       user_id p = default uid (pd_user_id d) /\
       registration_date p = default now (pd_registration_date d) /\
       (Dict.wf (pd_extra d) ->
        forall k, Dict.get k (extra p) = Dict.get k (pd_extra d))) /\
    (forall old, Dict.get uid (user_profiles st) = Some old ->
       (pd = None \/
        exists d, pd = Some d /\ pd_content_consumed d = None /\
                  pd_connections d = None) ->
       exists p', Dict.get uid (user_profiles st') = Some p' /\
                  content_consumed p' = [] /\ connections p' = []) /\
    (Dict.contains uid (graph st) = true -> graph st' = graph st) /\
    (forall u v, Graph.has_edge (graph st') u v = Graph.has_edge (graph st) u v) /\
    (forall u, u <> uid ->
       Dict.get u (user_profiles st') = Dict.get u (user_profiles st)) /\
    content_data st' = content_data st.
Proof.
  intros st uid a pd now st' fresh.
  assert (Hget : Dict.get uid (user_profiles st') =
      Some (match pd with Some d => profile_update fresh d | None => fresh end)).
  { subst st'. unfold add_user. cbn [user_profiles]. apply dict_get_setitem_eq. }
  split; [exact Hget|].
  split; [repeat split|].
  split.
  { intros d _ p. subst p. unfold profile_update.
    cbn [age suspicious_score content_consumed connections user_id
         registration_date extra fresh fresh_profile].
    repeat split. intros Hwf k. rewrite (get_fold_setitem _ _ _ Hwf).
    now destruct (Dict.get k (pd_extra d)). }
  split.
  { intros old _ Hpd. eexists. split; [exact Hget|].
    destruct Hpd as [-> | (d & -> & Hc & Hn)]; [split; reflexivity|].
    unfold profile_update. cbn [content_consumed connections].
    rewrite Hc, Hn. split; reflexivity. }
  split.
  { intros Hc. subst st'. unfold add_user, Graph.add_node. cbn [graph].
    now rewrite Hc. }
  split.
  { intros u v. subst st'. unfold add_user. cbn [graph]. apply has_edge_add_node. }
  split.
  { intros u Hne. subst st'. unfold add_user. cbn [user_profiles].
    apply dict_get_setitem_ne. congruence. }
  reflexivity.
Qed.

(** ** The behaviour pattern analyzer *)

Lemma Qsum_app (l1 l2 : list Q) : (Qsum (l1 ++ l2) == Qsum l1 + Qsum l2)%Q.
Proof.
  induction l1 as [|x l1 IH]; simpl.
  - now rewrite Qplus_0_l.
  - rewrite IH. apply Qplus_assoc.
Qed.

Lemma count_by_cons {A : Type} (f : A -> string) (k : string) (x : A) (l : list A) :
  count_by f k (x :: l) =
  ((if decide (f x = k) then 1 else 0) + count_by f k l)%nat.
Proof.
  unfold count_by. cbn [List.filter].
  destruct (decide (f x = k)) as [e|n].
  - rewrite (bool_decide_eq_true_2 _ e). reflexivity.
  - rewrite (bool_decide_eq_false_2 _ n). reflexivity.
Qed.

Section PatternFacts.

Variable lower : string -> string.
Variable cd : dict string content_item.

Lemma resolvable_scores_cons (i : interaction) (l : list interaction) :
  resolvable_scores lower cd (i :: l) =
  match Dict.get (i_content_id i) cd with
  | Some item =>
      risk_score (classify_content_risk lower (c_metadata item))
        :: resolvable_scores lower cd l
  | None => resolvable_scores lower cd l
  end.
Proof.
  unfold resolvable_scores. cbn [omap list_omap].
  destruct (Dict.get (i_content_id i) cd); reflexivity.
Qed.

(** What the interaction loop has accumulated after the log [l]. *)
Lemma loop_accumulates (l : list interaction) (st : loop_state) :
  let st' := fold_left (loop_step lower cd) l st in
  (total_risk_score st' == total_risk_score st + Qsum (resolvable_scores lower cd l))%Q /\
  (forall t, default 0%nat (Dict.get t (ls_content_types st')) =
             (count_by i_content_type t l +
              default 0%nat (Dict.get t (ls_content_types st)))%nat) /\
  (forall k, default 0%nat (Dict.get k (ls_interaction_types st')) =
             (count_by i_interaction_type k l +
              default 0%nat (Dict.get k (ls_interaction_types st)))%nat).
Proof.
  revert st. induction l as [|i l IH]; intros st; cbn [fold_left].
  - cbn zeta. split; [|split]; [..|reflexivity|reflexivity].
    unfold resolvable_scores. simpl. now rewrite Qplus_0_r.
  - specialize (IH (loop_step lower cd st i)). cbn zeta in IH |- *.
    destruct IH as (IHr & IHc & IHk).
    split; [|split].
    + rewrite IHr, resolvable_scores_cons. unfold loop_step.
      destruct (Dict.get (i_content_id i) cd) as [item|];
        cbn [total_risk_score Qsum foldr]; [|reflexivity].
      now rewrite Qplus_assoc.
    + intros t. rewrite IHc, count_by_cons.
      assert (E : ls_content_types (loop_step lower cd st i)
                  = Dict.incr (i_content_type i) (ls_content_types st)).
      { unfold loop_step. now destruct (Dict.get (i_content_id i) cd). }
      rewrite E, dict_get_incr. lia.
    + intros k. rewrite IHk, count_by_cons.
      assert (E : ls_interaction_types (loop_step lower cd st i)
                  = Dict.incr (i_interaction_type i) (ls_interaction_types st)).
      { unfold loop_step. now destruct (Dict.get (i_content_id i) cd). }
      rewrite E, dict_get_incr. lia.
Qed.

Lemma patterns_skip (uid : string) (ups : dict string profile)
      (acc0 : dict string pattern_analysis) :
  ~ In uid (Dict.keys ups) ->
  Dict.get uid
    (fold_left
       (fun user_patterns '(uid, p) =>
          if (length (content_consumed p) =? 0)%nat then user_patterns
          else Dict.setitem uid (analyze_user lower cd uid p) user_patterns)
       ups acc0)
  = Dict.get uid acc0.
Proof.
  revert acc0. induction ups as [|[k q] ups IH]; intros acc0 Hnotin; [reflexivity|].
  cbn [fold_left]. rewrite IH.
  - destruct (length (content_consumed q) =? 0)%nat; [reflexivity|].
    apply dict_get_setitem_ne. intros ->. apply Hnotin. now left.
  - intros Hin. apply Hnotin. now right.
Qed.

(** The pattern stored for a user with at least one interaction. *)
Lemma patterns_of_user (uid : string) (p : profile) (ups : dict string profile) :
  Dict.wf ups -> Dict.get uid ups = Some p -> content_consumed p <> [] ->
  Dict.get uid (analyze_user_content_patterns lower ups cd)
  = Some (analyze_user lower cd uid p).
Proof.
  unfold analyze_user_content_patterns. generalize (@nil (string * pattern_analysis)).
  unfold Dict.wf, Dict.keys.
  induction ups as [|[k q] ups IH]; intros acc0 Hwf Hget Hne; [discriminate|].
  cbn [map fst] in Hwf. apply NoDup_cons in Hwf as [Hnotin Hwf].
  cbn [fold_left]. cbn [Dict.get] in Hget.
  destruct (decide (uid = k)) as [->|Hk].
  - injection Hget as ->.
    rewrite patterns_skip
      by (intros Hin; apply Hnotin, list_elem_of_In, Hin).
    destruct (content_consumed p) eqn:E; [congruence|].
    cbn [length Nat.eqb]. apply dict_get_setitem_eq.
  - apply IH; assumption.
Qed.

End PatternFacts.

(** C2, as the code has it.  For a user with at least one interaction,
    [avg_risk_score] is the sum of the classifier's scores over the
    interactions whose content is in the catalog, divided by the number
    of all the user's interactions, resolvable or not; it is the mean
    over the resolvable interactions when every interaction is
    resolvable.  An interaction whose content is missing adds nothing to
    the sum and is still counted in the histograms of content types and
    of interaction kinds. *)
Theorem avg_risk_over_all_interactions :
  forall (lower : string -> string) (ups : dict string profile)
         (cd : dict string content_item) (uid : string) (p : profile),
    Dict.wf ups -> Dict.get uid ups = Some p -> content_consumed p <> [] ->
    exists pa,
      Dict.get uid (analyze_user_content_patterns lower ups cd) = Some pa /\
      total_interactions pa = length (content_consumed p) /\
      (avg_risk_score pa ==
         Qsum (resolvable_scores lower cd (content_consumed p))
         / inject_Z (Z.of_nat (length (content_consumed p))))%Q /\
      (forall t, default 0%nat (Dict.get t (content_types pa)) =
                 count_by i_content_type t (content_consumed p)) /\
      (forall k, default 0%nat (Dict.get k (interaction_types pa)) =
                 count_by i_interaction_type k (content_consumed p)) /\
      (length (resolvable_scores lower cd (content_consumed p)) =
         length (content_consumed p) ->
       (avg_risk_score pa == mean (resolvable_scores lower cd (content_consumed p)))%Q).
Proof.
  intros lower ups cd uid p Hwf Hget Hne.
  exists (analyze_user lower cd uid p).
  split; [now apply patterns_of_user|].
  destruct (loop_accumulates lower cd (content_consumed p) loop_init)
    as (Hr & Hc & Hk).
  cbn zeta in Hr, Hc, Hk.
  assert (Havg : (avg_risk_score (analyze_user lower cd uid p) ==
                  Qsum (resolvable_scores lower cd (content_consumed p))
                  / inject_Z (Z.of_nat (length (content_consumed p))))%Q).
  { unfold analyze_user, _detect_suspicious_patterns. cbn [avg_risk_score].
    rewrite Hr. cbn [total_risk_score loop_init]. now rewrite Qplus_0_l. }
  split; [reflexivity|]. split; [exact Havg|].
  split; [|split].
  - intros t. unfold analyze_user, _detect_suspicious_patterns. cbn [content_types].
    rewrite Hc. cbn. lia.
  - intros k. unfold analyze_user, _detect_suspicious_patterns.
    cbn [interaction_types]. rewrite Hk. cbn. lia.
  - intros Hlen. rewrite Havg. unfold mean. now rewrite Hlen.
Qed.

Lemma avg_risk_over_all_interactions_witness :
  exists pa,
    Dict.get "u" (analyze_user_content_patterns PyStr.latin1_lower
                    (user_profiles half_known_store)
                    (content_data half_known_store)) = Some pa /\
    total_interactions pa = 2%nat.
Proof.
  assert (Hwf : Dict.wf (user_profiles half_known_store)).
  { apply (bool_decide_unpack _). vm_compute. exact I. }
  assert (Hget : Dict.get "u" (user_profiles half_known_store) = Some half_known_user).
  { vm_compute. reflexivity. }
  assert (Hne : content_consumed half_known_user <> []).
  { vm_compute. discriminate. }
  destruct (avg_risk_over_all_interactions PyStr.latin1_lower
              (user_profiles half_known_store) (content_data half_known_store)
              "u" half_known_user Hwf Hget Hne)
    as (pa & Hpa & Htot & _).
  exists pa. split; [exact Hpa | exact Htot].
Defined.

(** C2 as stated fails: with one of two interactions on a content the
    catalog does not hold, the average is 0.8 / 2 = 0.4, while the mean
    over the one resolvable interaction is 0.8. *)
Lemma avg_risk_not_mean_of_resolvable :
  exists pa,
    Dict.get "u" (analyze_user_content_patterns PyStr.latin1_lower
                    (user_profiles half_known_store)
                    (content_data half_known_store)) = Some pa /\
    (avg_risk_score pa == 0.4)%Q /\
    (mean (resolvable_scores PyStr.latin1_lower (content_data half_known_store)
             half_known_log) == 0.8)%Q /\
    ~ (avg_risk_score pa ==
       mean (resolvable_scores PyStr.latin1_lower (content_data half_known_store)
               half_known_log))%Q.
Proof.
  eexists. split; [vm_compute; reflexivity|].
  split; [vm_compute; reflexivity|].
  split; [vm_compute; reflexivity|].
  intros H. vm_compute in H. discriminate H.
Qed.

(** ** The suspicious subnetworks *)

Lemma enumerate_from (A : Type) (l : list A) (s i : nat) (x : A) :
  In (i, x) (combine (seq s (length l)) l) <-> (s <= i)%nat /\ l !! (i - s)%nat = Some x.
Proof.
  revert s. induction l as [|y l IH]; intros s; cbn [length seq combine].
  - split; [intros [] | intros [_ H]; discriminate].
  - cbn [In]. rewrite IH. split.
    + intros [[= <- <-] | [Hle Hl]].
      * split; [lia|]. now rewrite Nat.sub_diag.
      * split; [lia|]. replace (i - s)%nat with (S (i - S s)) by lia. exact Hl.
    + intros [Hle Hl]. destruct (decide (i = s)) as [->|Hne].
      * left. rewrite Nat.sub_diag in Hl. cbn in Hl. congruence.
      * right. split; [lia|].
        replace (i - s)%nat with (S (i - S s)) in Hl by lia. exact Hl.
Qed.

Lemma enumerate_lookup (A : Type) (l : list A) (i : nat) (x : A) :
  In (i, x) (enumerate l) <-> l !! i = Some x.
Proof.
  unfold enumerate. rewrite enumerate_from, Nat.sub_0_r.
  split; [now intros [_ H] | intros H; split; [lia | exact H]].
Qed.

Lemma max_size_foldr (comps : list (gset string)) :
  max_size comps = foldr Nat.max 0%nat (map size comps).
Proof.
  destruct comps as [|c cs]; [reflexivity|]. cbn [max_size map foldr].
  revert c. generalize (size (C:=gset string)) as sz. intros sz.
  assert (H : forall m, fold_left (fun m c' => Nat.max m (sz c')) cs m
                        = Nat.max m (foldr Nat.max 0%nat (map sz cs))).
  { induction cs as [|c' cs IH]; intros m; cbn [fold_left map foldr]; [lia|].
    rewrite IH. lia. }
  intros c. apply H.
Qed.

Lemma max_size_bound (comps : list (gset string)) (c : gset string) :
  In c comps -> (size c <= max_size comps)%nat.
Proof.
  rewrite max_size_foldr. induction comps as [|c' cs IH]; [intros []|].
  cbn [map foldr]. intros [->|Hin]; [lia|]. specialize (IH Hin). lia.
Qed.

Lemma neighbors_has_edge (g : nx_graph) (u n : string) (nbrs : list string) :
  Graph.neighbors g u = Some nbrs -> (In n nbrs <-> Graph.has_edge g u n = true).
Proof.
  unfold Graph.neighbors, Graph.has_edge.
  destruct (Dict.get u g) as [adj|]; [|discriminate].
  intros [= <-]. rewrite dict_contains_true. split.
  - intros Hin. destruct (Dict.get n adj) eqn:E; [eauto|].
    apply dict_get_None_keys in E. contradiction.
  - intros [d Hd]. destruct (in_dec string_dec n (Dict.keys adj)) as [H|H]; [exact H|].
    apply dict_get_None_keys in H. congruence.
Qed.

Lemma has_node_neighbors (g : nx_graph) (u : string) :
  Graph.has_node g u = true <-> exists nbrs, Graph.neighbors g u = Some nbrs.
Proof.
  unfold Graph.has_node, Graph.neighbors. rewrite dict_contains_true. split.
  - intros [adj ->]. eauto.
  - intros [nbrs H]. destruct (Dict.get u g); [eauto | discriminate].
Qed.

(** The set of the suspicious users and their neighbours is built
    whenever every suspicious id is a node of the graph. *)
Lemma extend_suspicious_from (g : nx_graph) (ids : list string) (acc0 : gset string) :
  (forall u, In u ids -> Graph.has_node g u = true) ->
  exists ext : gset string,
    fold_left
      (fun acc uid =>
         ext ← acc;
         nbrs ← Graph.neighbors g uid;
         Some (ext ∪ {[uid]} ∪ list_to_set nbrs))
      ids (Some acc0) = Some ext /\
    forall n, n ∈ ext <->
              n ∈ acc0 \/ In n ids \/
              exists u, In u ids /\ Graph.has_edge g u n = true.
Proof.
  revert acc0. induction ids as [|u ids IH]; intros acc0 Hnodes.
  - exists acc0. split; [reflexivity|]. intros n. split; [auto|].
    intros [H|[[]|(u & [] & _)]]. exact H.
  - assert (Hu : Graph.has_node g u = true) by (apply Hnodes; now left).
    apply has_node_neighbors in Hu as [nbrs Hn].
    destruct (IH (acc0 ∪ {[u]} ∪ list_to_set nbrs)) as (ext & Hfold & Hext).
    { intros v Hv. apply Hnodes. now right. }
    exists ext. split.
    + cbn [fold_left mbind option_bind]. rewrite Hn. exact Hfold.
    + intros n. rewrite Hext. rewrite !elem_of_union, elem_of_singleton,
        elem_of_list_to_set, list_elem_of_In, (neighbors_has_edge g u n nbrs Hn).
      cbn [In]. split.
      * intros [[[H| ->]|H]|[H|(v & Hv & He)]]; eauto 6.
      * intros [H|[[<-|H]|(v & [<-|Hv] & He)]]; eauto 8.
Qed.

Lemma extend_suspicious_unknown (g : nx_graph) (ids : list string) (u : string) :
  In u ids -> Graph.has_node g u = false -> extend_suspicious g ids = None.
Proof.
  unfold extend_suspicious. generalize (Some (∅ : gset string)) as acc0.
  induction ids as [|v ids IH]; intros acc0 Hin Hu; [destruct Hin|].
  cbn [fold_left]. destruct Hin as [->|Hin].
  - assert (Hn : Graph.neighbors g u = None).
    { unfold Graph.has_node in Hu. apply dict_contains_false in Hu.
      unfold Graph.neighbors. now rewrite Hu. }
    rewrite Hn.
    assert (Hnone : forall l,
      fold_left
        (fun acc uid =>
           ext ← acc; nbrs ← Graph.neighbors g uid;
           Some (ext ∪ {[uid]} ∪ list_to_set nbrs)) l (None : option (gset string))
      = None).
    { induction l as [|w l IHl]; [reflexivity | exact IHl]. }
    destruct acc0; apply Hnone.
  - apply IH; assumption.
Qed.

Lemma dict_get_filter_keys {V : Type} (P : string -> bool) (k : string)
      (d : dict string V) :
  Dict.get k (List.filter (fun '(n, _) => P n) d) =
  if P k then Dict.get k d else None.
Proof.
  induction d as [|[n v] d IH]; cbn [List.filter Dict.get].
  - now destruct (P k).
  - destruct (P n) eqn:En; cbn [Dict.get]; destruct (decide (k = n)) as [->|Hne].
    + now rewrite En.
    + exact IH.
    + rewrite En in IH |- *. exact IH.
    + exact IH.
Qed.

(** The induced subgraph: the nodes kept, and the edges between them. *)
Lemma subgraph_get (g : nx_graph) (keep : gset string) (n : string) :
  Dict.get n (Graph.subgraph g keep) =
  if bool_decide (n ∈ keep)
  then List.filter (fun '(m, _) => bool_decide (m ∈ keep)) <$> Dict.get n g
  else None.
Proof.
  unfold Graph.subgraph.
  induction g as [|[k nbrs] g IH]; cbn [List.filter map Dict.get].
  - now destruct (bool_decide (n ∈ keep)).
  - destruct (bool_decide (k ∈ keep)) eqn:Ek; cbn [map Dict.get];
      destruct (decide (n = k)) as [->|Hne].
    + now rewrite Ek.
    + exact IH.
    + rewrite Ek in IH |- *. exact IH.
    + exact IH.
Qed.

Lemma subgraph_has_node (g : nx_graph) (keep : gset string) (n : string) :
  Graph.has_node (Graph.subgraph g keep) n =
  Graph.has_node g n && bool_decide (n ∈ keep).
Proof.
  unfold Graph.has_node, Dict.contains. rewrite subgraph_get.
  destruct (bool_decide (n ∈ keep)), (Dict.get n g); reflexivity.
Qed.

Lemma subgraph_has_edge (g : nx_graph) (keep : gset string) (u v : string) :
  Graph.has_edge (Graph.subgraph g keep) u v =
  Graph.has_edge g u v && bool_decide (u ∈ keep) && bool_decide (v ∈ keep).
Proof.
  unfold Graph.has_edge. rewrite subgraph_get.
  destruct (bool_decide (u ∈ keep)).
  - destruct (Dict.get u g) as [nbrs|]; cbn [fmap option_fmap option_map]; [|reflexivity].
    unfold Dict.contains.
    pose proof (dict_get_filter_keys (V:=edge_data)
                  (fun n => bool_decide (n ∈ keep)) v nbrs) as H.
    cbv beta in H. rewrite H.
    destruct (bool_decide (v ∈ keep)), (Dict.get v nbrs); reflexivity.
  - destruct (Dict.get u g); cbn; [now rewrite andb_false_r | reflexivity].
Qed.

Section EngineFacts.

Variable nx_connected_components : nx_graph -> list (gset string).
Variable nx_density : nx_graph -> Q.
Variable nx_average_clustering : nx_graph -> Q.
Variable nx_is_connected : nx_graph -> bool.
Variable nx_diameter : nx_graph -> nat.

Local Abbreviation analyze_networks :=
  (analyze_suspicious_networks nx_connected_components nx_density
     nx_average_clustering nx_is_connected nx_diameter).
Local Abbreviation component_entry :=
  (analyze_component nx_density nx_average_clustering nx_is_connected nx_diameter).

Lemma analyze_networks_some (st : analyzer) (sus : list suspicion_record)
      (ext : gset string) :
  extend_suspicious (graph st)
    (elements (list_to_set (map s_user_id sus) : gset string)) = Some ext ->
  let ids : gset string := list_to_set (map s_user_id sus) in
  let sub := Graph.subgraph (graph st) ext in
  let comps := nx_connected_components sub in
  analyze_networks st sus =
  Some {| total_suspicious_users := size ids;
          na_connected_components := length comps;
          largest_component_size := max_size comps;
          components_analysis :=
            map (fun '(i, component) => component_entry sub ids i component)
                (List.filter
                   (fun '(_, component) => (1 <? size (component ∩ ids))%nat)
                   (enumerate comps)) |}.
Proof.
  intros Hext. unfold analyze_suspicious_networks. rewrite Hext. reflexivity.
Qed.

Lemma itemized_entries (sub : nx_graph) (ids : gset string)
      (comps : list (gset string)) (e : component_analysis) :
  In e (map (fun '(i, component) => component_entry sub ids i component)
            (List.filter
               (fun '(_, component) => (1 <? size (component ∩ ids))%nat)
               (enumerate comps)))
  <-> exists i c, comps !! i = Some c /\ (2 <= size (c ∩ ids))%nat /\
                  e = component_entry sub ids i c.
Proof.
  rewrite in_map_iff. split.
  - intros ([i c] & <- & Hin). apply filter_In in Hin as [Hin Htest].
    apply enumerate_lookup in Hin. apply Nat.ltb_lt in Htest.
    exists i, c. repeat split; [exact Hin | lia].
  - intros (i & c & Hl & Hsz & ->). exists (i, c). split; [reflexivity|].
    apply filter_In. split; [now apply enumerate_lookup|].
    apply Nat.ltb_lt. lia.
Qed.

End EngineFacts.

(** C4, as the code has it.  For a graph and suspicious users whose ids
    are nodes of the graph, the extractor takes the suspicious ids and
    all their direct neighbours as node set, induces the subgraph on it
    and has it partitioned into connected components.  A component is
    itemized, with its size, the number of its suspicious members, its
    density, its average clustering and its diameter (or the 'N/A'
    sentinel when the component's subgraph is not connected), exactly
    when it holds at least 2 suspicious members; every component counts
    in the number of components and in the largest size. *)
Theorem suspicious_components_itemized :
  forall (cc : nx_graph -> list (gset string)) (dens clus : nx_graph -> Q)
         (conn : nx_graph -> bool) (diam : nx_graph -> nat)
         (st : analyzer) (sus : list suspicion_record),
    let ids : gset string := list_to_set (map s_user_id sus) in
    (forall u, u ∈ ids -> Graph.has_node (graph st) u = true) ->
    exists (ext : gset string) (na : network_analysis),
      analyze_suspicious_networks cc dens clus conn diam st sus = Some na /\
      (forall n, n ∈ ext <->
                 n ∈ ids \/
                 exists u, u ∈ ids /\ Graph.has_edge (graph st) u n = true) /\
      let sub := Graph.subgraph (graph st) ext in
      let comps := cc sub in
      (forall n, Graph.has_node sub n =
                 Graph.has_node (graph st) n && bool_decide (n ∈ ext)) /\
      (forall u v, Graph.has_edge sub u v =
                   Graph.has_edge (graph st) u v
                   && bool_decide (u ∈ ext) && bool_decide (v ∈ ext)) /\
      total_suspicious_users na = size ids /\
      na_connected_components na = length comps /\
      largest_component_size na = foldr Nat.max 0%nat (map size comps) /\
      (forall c, In c comps -> (size c <= largest_component_size na)%nat) /\
      (forall i c, comps !! i = Some c ->
         ((exists e, In e (components_analysis na) /\ component_id e = i)
          <-> (2 <= size (c ∩ ids))%nat) /\
         (forall e, In e (components_analysis na) -> component_id e = i ->
            total_users e = size c /\
            ca_suspicious_users e = size (c ∩ ids) /\
            (forall u, In u (suspicious_user_ids e) <-> u ∈ c /\ u ∈ ids) /\
            ca_density e = dens (Graph.subgraph sub c) /\
            avg_clustering e = clus (Graph.subgraph sub c) /\
            ca_diameter e =
              if conn (Graph.subgraph sub c)
              then Some (diam (Graph.subgraph sub c)) else None)).
Proof.
  intros cc dens clus conn diam st sus ids Hnodes.
  destruct (extend_suspicious_from (graph st) (elements ids) ∅) as (ext & Hfold & Hext).
  { intros u Hu. apply Hnodes. apply elem_of_elements, list_elem_of_In, Hu. }
  pose proof (analyze_networks_some cc dens clus conn diam st sus ext Hfold) as Hna.
  cbv zeta in Hna. fold ids in Hna.
  eexists ext, _. split; [exact Hna|].
  split.
  { intros n. rewrite Hext. split.
    - intros [H|[H|(u & Hu & He)]].
      + now apply elem_of_empty in H.
      + left. apply elem_of_elements, list_elem_of_In, H.
      + right. exists u. split; [apply elem_of_elements, list_elem_of_In, Hu | exact He].
    - intros [H|(u & Hu & He)].
      + right. left. apply list_elem_of_In, elem_of_elements, H.
      + right. right. exists u.
        split; [apply list_elem_of_In, elem_of_elements, Hu | exact He]. }
  cbv zeta. cbn [total_suspicious_users na_connected_components
                 largest_component_size components_analysis].
  split; [intros n; apply subgraph_has_node|].
  split; [intros u v; apply subgraph_has_edge|].
  split; [reflexivity|]. split; [reflexivity|].
  split; [apply max_size_foldr|].
  split; [intros c; apply max_size_bound|].
  intros i c Hic. split.
  - split.
    + intros (e & He & Hid). apply itemized_entries in He as (j & c' & Hj & Hsz & ->).
      cbn [component_id analyze_component] in Hid. subst j.
      assert (c' = c) by congruence. now subst c'.
    + intros Hsz. exists (analyze_component dens clus conn diam
                            (Graph.subgraph (graph st) ext) ids i c).
      split; [|reflexivity]. apply itemized_entries. exists i, c. auto.
  - intros e He Hid. apply itemized_entries in He as (j & c' & Hj & Hsz & ->).
    cbn [component_id analyze_component] in Hid. subst j.
    assert (c' = c) by congruence. subst c'.
    cbn [analyze_component total_users ca_suspicious_users suspicious_user_ids
         ca_density avg_clustering ca_diameter].
    split; [reflexivity|]. split; [reflexivity|].
    split; [|repeat split; reflexivity].
    intros u. rewrite <- list_elem_of_In, elem_of_elements, elem_of_intersection.
    reflexivity.
Qed.

Lemma suspicious_components_itemized_witness :
  exists na,
    analyze_suspicious_networks Nx.connected_components Nx.density
      Nx.average_clustering Nx.is_connected Nx.diameter trio_store trio_suspects
    = Some na.
Proof.
  assert (Hids : map s_user_id trio_suspects = ["A"; "B"; "C"]) by reflexivity.
  destruct (suspicious_components_itemized Nx.connected_components Nx.density
              Nx.average_clustering Nx.is_connected Nx.diameter
              trio_store trio_suspects) as (ext & na & Hna & _).
  { intros u Hu. rewrite Hids in Hu. apply elem_of_list_to_set in Hu.
    repeat (apply elem_of_cons in Hu as [-> | Hu]); try (vm_compute; reflexivity).
    now apply elem_of_nil in Hu. }
  exists na. exact Hna.
Defined.

(** C4 as stated fails on an id that is not a node of the graph: the
    neighbour lookup raises, and no analysis is returned. *)
Lemma network_analysis_unknown_id :
  analyze_suspicious_networks Nx.connected_components Nx.density
    Nx.average_clustering Nx.is_connected Nx.diameter init [ghost] = None.
Proof. vm_compute. reflexivity. Qed.

(** The scenario of the specification: two components, of which only
    the one with A and B (and A's neighbour N) is itemized, with 2
    suspicious members; C's component counts in the totals. *)
Example trio_network_analysis :
  exists e,
    analyze_suspicious_networks Nx.connected_components Nx.density
      Nx.average_clustering Nx.is_connected Nx.diameter trio_store trio_suspects
    = Some {| total_suspicious_users := 3; na_connected_components := 2;
              largest_component_size := 3; components_analysis := [e] |} /\
    component_id e = 0%nat /\ total_users e = 3%nat /\
    ca_suspicious_users e = 2%nat /\ ca_diameter e = Some 2%nat.
Proof. eexists. split; [vm_compute; reflexivity|]. repeat split. Qed.

Lemma analyze_networks_unknown (cc : nx_graph -> list (gset string))
      (dens clus : nx_graph -> Q) (conn : nx_graph -> bool) (diam : nx_graph -> nat)
      (st : analyzer) (sus : list suspicion_record) (u : string) :
  In u (map s_user_id sus) -> Graph.has_node (graph st) u = false ->
  analyze_suspicious_networks cc dens clus conn diam st sus = None.
Proof.
  intros Hin Hu. unfold analyze_suspicious_networks.
  rewrite (extend_suspicious_unknown (graph st) _ u); [reflexivity| |exact Hu].
  apply list_elem_of_In, elem_of_elements, elem_of_list_to_set, list_elem_of_In, Hin.
Qed.

(** ** The report *)

Lemma join_centrality_length (metrics : dict string centrality)
      (top : list suspicion_record) :
  (length (join_centrality metrics top) <= length top)%nat.
Proof.
  unfold join_centrality. induction top as [|u top IH]; [reflexivity|].
  cbn [omap list_omap length].
  destruct (Dict.get (s_user_id u) metrics); cbn [fmap option_fmap option_map length]; lia.
Qed.

Lemma join_centrality_In (metrics : dict string centrality)
      (top : list suspicion_record) (u : suspicion_record) (m : centrality) :
  In (u, m) (join_centrality metrics top) ->
  In u top /\ Dict.get (s_user_id u) metrics = Some m.
Proof.
  unfold join_centrality. rewrite <- list_elem_of_In, list_elem_of_omap.
  intros (x & Hx & Hm). apply list_elem_of_In in Hx.
  destruct (Dict.get (s_user_id x) metrics) as [m'|] eqn:E; [|discriminate].
  cbn in Hm. injection Hm as <- <-. auto.
Qed.

(** C5. In a generated report the suspicious users are those the scorer
    found, sorted by score with the greatest first and with equal scores
    in the order of discovery, cut to the first 20; at most 10
    influential suspicious users are listed, all among the first 10;
    [suspicious_users_count] is the length of the whole ranked list and
    [high_risk_users] the number of its entries with a score above
    0.7. *)
Theorem report_ranking_and_counters :
  forall (cc : nx_graph -> list (gset string)) (dens clus : nx_graph -> Q)
         (conn : nx_graph -> bool) (diam : nx_graph -> nat)
         (dc bc clc ec : nx_graph -> option (dict string Q))
         (st : analyzer) (now : datetime) (rep : report) (st' : analyzer),
    generate_risk_report cc dens clus conn diam dc bc clc ec st now = (Some rep, st') ->
    let ranked := fst (detect_suspicious_content_patterns st) in
    let discovered := omap scan_entry (user_profiles st) in
    r_suspicious_users rep = firstn 20 ranked /\
    Permutation ranked discovered /\
    StronglySorted (desc suspicion_score) ranked /\
    (forall q,
       List.filter (fun r => Qeq_bool (suspicion_score r) q) ranked =
       List.filter (fun r => Qeq_bool (suspicion_score r) q) discovered) /\
    StronglySorted (desc suspicion_score) (r_suspicious_users rep) /\
    (length (r_suspicious_users rep) <= 20)%nat /\
    (length (influential_suspicious rep) <= 10)%nat /\
    (forall u m, In (u, m) (influential_suspicious rep) -> In u (firstn 10 ranked)) /\
    suspicious_users_count (r_summary rep) = length ranked /\
    high_risk_users (r_summary rep) =
      length (List.filter (fun r => Qltb 0.7 (suspicion_score r)) ranked) /\
    (forall r, Qltb 0.7 (suspicion_score r) = true <-> (0.7 < suspicion_score r)%Q) /\
    st' = snd (detect_suspicious_content_patterns st).
Proof.
  intros cc dens clus conn diam dc bc clc ec st now rep st' Hgen ranked discovered.
  assert (Hranked : ranked = sorted_desc suspicion_score discovered).
  { subst ranked discovered. now rewrite detect_spec. }
  unfold generate_risk_report in Hgen.
  destruct (detect_suspicious_content_patterns st) as [su st1] eqn:Edet.
  cbn [fst snd] in *. subst ranked.
  destruct (analyze_suspicious_networks cc dens clus conn diam st1 su) as [na|];
    [|discriminate].
  destruct (calculate_user_centrality_metrics dc bc clc ec st1) as [cm|];
    [|discriminate].
  cbn [mbind option_bind] in Hgen. injection Hgen as <- <-.
  cbn [r_suspicious_users influential_suspicious r_summary
       suspicious_users_count high_risk_users].
  assert (Hsorted : StronglySorted (desc suspicion_score) su).
  { rewrite Hranked. apply sorted_desc_sorted. }
  split; [reflexivity|].
  split; [rewrite Hranked; apply sorted_desc_perm|].
  split; [exact Hsorted|].
  split; [intros q; rewrite Hranked; apply sorted_desc_stable|].
  split; [apply sorted_firstn, Hsorted|].
  split; [apply firstn_le_length|].
  split.
  { etransitivity; [apply join_centrality_length | apply firstn_le_length]. }
  split; [intros u m Hin; apply (join_centrality_In _ _ _ _ Hin)|].
  split; [reflexivity|]. split; [reflexivity|].
  split; [intros r; apply Qltb_lt | reflexivity].
Qed.

Lemma report_ranking_and_counters_witness :
  exists rep,
    fst (generate_risk_report Nx.connected_components Nx.density
           Nx.average_clustering Nx.is_connected Nx.diameter
           Nx.no_centrality Nx.no_centrality Nx.no_centrality Nx.no_centrality
           ranking_store noon) = Some rep /\
    (length (r_suspicious_users rep) <= 20)%nat /\
    (length (influential_suspicious rep) <= 10)%nat.
Proof.
  pose (res := generate_risk_report Nx.connected_components Nx.density
           Nx.average_clustering Nx.is_connected Nx.diameter
           Nx.no_centrality Nx.no_centrality Nx.no_centrality Nx.no_centrality
           ranking_store noon).
  assert (H : exists rep, res = (Some rep, snd res)).
  { vm_compute. eexists. reflexivity. }
  destruct H as [rep H]. exists rep.
  pose proof (report_ranking_and_counters _ _ _ _ _ _ _ _ _ _ _ _ _ H) as Hrep.
  cbv zeta in Hrep.
  destruct Hrep as (_ & _ & _ & _ & _ & H20 & H10 & _).
  split; [exact (f_equal fst H)|].
  split; [exact H20 | exact H10].
Defined.

(** The ranking on [ranking_store]: the two users with score 1.0 come
    first, in the order they were registered, then the user with score
    0.6; two users are above 0.7. *)
Example ranking_report_example :
  exists rep,
    fst (generate_risk_report Nx.connected_components Nx.density
           Nx.average_clustering Nx.is_connected Nx.diameter
           Nx.no_centrality Nx.no_centrality Nx.no_centrality Nx.no_centrality
           ranking_store noon) = Some rep /\
    map s_user_id (r_suspicious_users rep) = ["top1"; "top2"; "low"] /\
    map s_user_id (omap scan_entry (user_profiles ranking_store)) =
      ["low"; "top1"; "top2"] /\
    suspicious_users_count (r_summary rep) = 3%nat /\
    high_risk_users (r_summary rep) = 2%nat.
Proof.
  eexists. split; [vm_compute; reflexivity|].
  split; [vm_compute; reflexivity|].
  split; [vm_compute; reflexivity|].
  split; vm_compute; reflexivity.
Qed.

(** The end-to-end scenario of the specification: U1 (45, 8 of 10) is
    flagged with ratio 0.8 and score 1.0; U2 (16) and U3 (30, 1 of 10)
    are not. *)
Example demo_store_detection :
  exists r,
    fst (detect_suspicious_content_patterns demo_store) = [r] /\
    s_user_id r = "U1" /\ (child_content_ratio r == 0.8)%Q /\
    suspicion_score r = 1.0%Q /\ child_content_count r = 8%nat /\
    total_content_count r = 10%nat.
Proof. eexists. split; [vm_compute; reflexivity|]. repeat split. Qed.

(** ** Invariants of the store *)

Lemma dict_contains_setitem {V : Type} (k k' : string) (v : V) (d : dict string V) :
  Dict.contains k' (Dict.setitem k v d) = bool_decide (k' = k) || Dict.contains k' d.
Proof.
  unfold Dict.contains. destruct (decide (k = k')) as [->|Hne].
  - rewrite dict_get_setitem_eq. now rewrite bool_decide_eq_true_2.
  - rewrite dict_get_setitem_ne by exact Hne.
    rewrite bool_decide_eq_false_2 by congruence. reflexivity.
Qed.

Lemma dict_setitem_present_contains {V : Type} (k k' : string) (v : V)
      (d : dict string V) :
  Dict.contains k d = true ->
  Dict.contains k' (Dict.setitem k v d) = Dict.contains k' d.
Proof.
  intros Hk. rewrite dict_contains_setitem.
  destruct (decide (k' = k)) as [->|Hne].
  - now rewrite Hk, orb_true_r.
  - now rewrite bool_decide_eq_false_2.
Qed.

Lemma append_connection_inv (u v : string) (ups : dict string profile) :
  (Dict.wf ups -> Dict.wf (append_connection u v ups)) /\
  forall k, Dict.contains k (append_connection u v ups) = Dict.contains k ups.
Proof.
  unfold append_connection. destruct (Dict.get u ups) eqn:E; [|auto].
  split; [apply dict_wf_setitem|].
  intros k. apply dict_setitem_present_contains, dict_contains_true. eauto.
Qed.

Lemma append_interaction_inv (u : string) (i : interaction) (ups : dict string profile) :
  (Dict.wf ups -> Dict.wf (append_interaction u i ups)) /\
  forall k, Dict.contains k (append_interaction u i ups) = Dict.contains k ups.
Proof.
  unfold append_interaction. destruct (Dict.get u ups) eqn:E; [|auto].
  split; [apply dict_wf_setitem|].
  intros k. apply dict_setitem_present_contains, dict_contains_true. eauto.
Qed.

Lemma keys_write_back (ups : dict string profile) :
  Dict.keys (map write_back ups) = Dict.keys ups.
Proof.
  unfold Dict.keys. rewrite map_map. apply map_ext. now intros [k p].
Qed.

Lemma contains_write_back (k : string) (ups : dict string profile) :
  Dict.contains k (map write_back ups) = Dict.contains k ups.
Proof.
  unfold Dict.contains. rewrite dict_get_write_back.
  now destruct (Dict.get k ups).
Qed.

Lemma has_node_add_node (g : nx_graph) (n u : string) :
  Graph.has_node (Graph.add_node n g) u = bool_decide (u = n) || Graph.has_node g u.
Proof.
  unfold Graph.has_node, Graph.add_node.
  destruct (Dict.contains n g) eqn:E; [|apply dict_contains_setitem].
  destruct (decide (u = n)) as [->|Hne].
  - now rewrite E, orb_true_r.
  - now rewrite bool_decide_eq_false_2.
Qed.

Lemma has_node_add_edge (g : nx_graph) (u v w : string) (data : edge_data) :
  Graph.has_node g w = true -> Graph.has_node (Graph.add_edge u v data g) w = true.
Proof.
  intros Hw. unfold Graph.add_edge, Graph.set_adj, Graph.has_node.
  rewrite !dict_contains_setitem.
  fold (Graph.has_node (Graph.add_node v (Graph.add_node u g)) w).
  rewrite !has_node_add_node, Hw. now rewrite !orb_true_r.
Qed.

(** Every store the interface builds satisfies the invariant. *)
Lemma reachable_inv (st : analyzer) : reachable st -> store_inv st.
Proof.
  induction 1 as [|st uid a pd now _ [Hwf Hn]|st u1 u2 ct w now _ [Hwf Hn]
                  |st uid cid ct it md n1 n2 _ [Hwf Hn]|st _ [Hwf Hn]].
  - split; [constructor | discriminate].
  - split; [apply dict_wf_setitem, Hwf|].
    intros u. cbn [add_user user_profiles graph].
    rewrite dict_contains_setitem, has_node_add_node.
    destruct (bool_decide (u = uid)); [reflexivity | apply Hn].
  - unfold add_connection.
    destruct (Dict.contains u1 (user_profiles st) && Dict.contains u2 (user_profiles st));
      [|now split].
    unfold store_inv. cbn [user_profiles graph]. split.
    + now apply append_connection_inv, append_connection_inv.
    + intros u. rewrite !(proj2 (append_connection_inv _ _ _)).
      intros Hu. apply has_node_add_edge, Hn, Hu.
  - unfold add_content_interaction.
    destruct (negb (Dict.contains uid (user_profiles st))); [now split|].
    unfold store_inv. cbn [snd user_profiles graph]. split.
    + now apply append_interaction_inv.
    + intros u. rewrite (proj2 (append_interaction_inv _ _ _)). apply Hn.
  - rewrite detect_spec. unfold store_inv. cbn [snd user_profiles graph]. split.
    + unfold Dict.wf. now rewrite keys_write_back.
    + intros u. rewrite contains_write_back. apply Hn.
Qed.

(** On a store the interface built, the users the scorer returns are
    nodes of the graph: in the report's pipeline the network analysis
    is always returned. *)
Lemma pipeline_network_analysis (cc : nx_graph -> list (gset string))
      (dens clus : nx_graph -> Q) (conn : nx_graph -> bool) (diam : nx_graph -> nat)
      (st : analyzer) :
  reachable st ->
  exists na,
    analyze_suspicious_networks cc dens clus conn diam
      (snd (detect_suspicious_content_patterns st))
      (fst (detect_suspicious_content_patterns st)) = Some na.
Proof.
  intros Hr. destruct (reachable_inv _ Hr) as [Hwf Hn].
  set (sus := fst (detect_suspicious_content_patterns st)).
  set (st1 := snd (detect_suspicious_content_patterns st)).
  destruct (extend_suspicious_from (graph st1)
              (elements (list_to_set (map s_user_id sus) : gset string)) ∅)
    as (ext & Hfold & _).
  { intros u Hu.
    apply list_elem_of_In, elem_of_elements, elem_of_list_to_set,
          list_elem_of_In, in_map_iff in Hu as (r & <- & Hr').
    subst sus st1. rewrite detect_spec in Hr' |- *. cbn [fst snd graph] in *.
    apply (Permutation_in _ (sorted_desc_perm suspicion_score _)) in Hr'.
    apply in_omap_scan in Hr' as (uid & p & Hin & Hs).
    rewrite (scan_user_uid _ _ _ Hs). apply Hn, dict_contains_true.
    exists p. now apply dict_In_get. }
  eexists. apply (analyze_networks_some cc dens clus conn diam st1 sus ext Hfold).
Qed.

(** ** The interface on concrete stores *)

(** A connection to an unknown user and an interaction of an unknown
    user change nothing. *)
Example unknown_references_example :
  add_connection demo_store "U1" "nobody" "friend" 1.0 noon = demo_store /\
  add_content_interaction demo_store "nobody" "toy" "video" "view" None noon noon
  = (false, demo_store).
Proof. split; vm_compute; reflexivity. Qed.

(** Attributes that name [age] and [suspicious_score] replace the age
    given to [add_user] and the default score. *)
Example add_user_override_example :
  exists p,
    Dict.get "u" (user_profiles (add_user init "u" 30 (Some overriding_attrs) noon))
    = Some p /\
    age p = 12%Z /\ suspicious_score p = 0.9%Q /\
    Dict.get "name" (extra p) = Some "Ana".
Proof. eexists. split; [vm_compute; reflexivity|]. repeat split. Qed.

(** Registering A again in [trio_store]: A's six interactions and two
    connections are gone from the profile, the graph still has the
    edges A-B and A-N, and B's profile still lists A. *)
Example add_user_again_example :
  let st' := add_user trio_store "A" 41 None noon in
  (exists old, Dict.get "A" (user_profiles trio_store) = Some old /\
               length (content_consumed old) = 6%nat /\
               connections old = ["B"; "N"]) /\
  Dict.get "A" (user_profiles st') = Some (fresh_profile "A" 41 noon) /\
  graph st' = graph trio_store /\
  Graph.neighbors (graph st') "A" = Some ["B"; "N"] /\
  (connections <$> Dict.get "B" (user_profiles st')) = Some ["A"].
Proof.
  cbv zeta. split.
  - eexists. split; [vm_compute; reflexivity|]. split; reflexivity.
  - split; [vm_compute; reflexivity|]. split; [vm_compute; reflexivity|].
    split; vm_compute; reflexivity.
Qed.

(** ** Connections *)

Lemma has_edge_set_adj (g : nx_graph) (u v a b : string) (data : edge_data) :
  Graph.has_edge (Graph.set_adj u v data g) a b =
  (bool_decide (a = u) && bool_decide (b = v)) || Graph.has_edge g a b.
Proof.
  unfold Graph.has_edge, Graph.set_adj.
  destruct (decide (a = u)) as [->|Hne].
  - rewrite dict_get_setitem_eq, dict_contains_setitem.
    rewrite (bool_decide_eq_true_2 (u = u)) by reflexivity. cbn [andb].
    destruct (Dict.get u g); reflexivity.
  - rewrite dict_get_setitem_ne by congruence.
    now rewrite (bool_decide_eq_false_2 (a = u)) by exact Hne.
Qed.

Lemma has_edge_add_edge (g : nx_graph) (u v a b : string) (data : edge_data) :
  Graph.has_edge (Graph.add_edge u v data g) a b =
  (bool_decide (a = u) && bool_decide (b = v))
  || (bool_decide (a = v) && bool_decide (b = u))
  || Graph.has_edge g a b.
Proof.
  unfold Graph.add_edge. rewrite !has_edge_set_adj, !has_edge_add_node.
  destruct (bool_decide (a = u) && bool_decide (b = v)),
           (bool_decide (a = v) && bool_decide (b = u)); reflexivity.
Qed.

Lemma has_node_set_adj (g : nx_graph) (u v w : string) (data : edge_data) :
  Graph.has_node (Graph.set_adj u v data g) w = bool_decide (w = u) || Graph.has_node g w.
Proof. unfold Graph.has_node, Graph.set_adj. apply dict_contains_setitem. Qed.

Lemma has_node_add_edge_eq (g : nx_graph) (u v w : string) (data : edge_data) :
  Graph.has_node (Graph.add_edge u v data g) w =
  bool_decide (w = u) || bool_decide (w = v) || Graph.has_node g w.
Proof.
  unfold Graph.add_edge. rewrite !has_node_set_adj, !has_node_add_node.
  destruct (bool_decide (w = u)), (bool_decide (w = v)); reflexivity.
Qed.


Lemma edge_attrs_add_node (g : nx_graph) (n a b : string) :
  edge_attrs (Graph.add_node n g) a b = edge_attrs g a b.
Proof.
  unfold edge_attrs, Graph.add_node.
  destruct (Dict.contains n g) eqn:E; [reflexivity|].
  destruct (decide (n = a)) as [->|Hne].
  - rewrite dict_get_setitem_eq. apply dict_contains_false in E. now rewrite E.
  - now rewrite dict_get_setitem_ne.
Qed.




Lemma add_connection_unfold (st : analyzer) (user1 user2 ctype : string) (w : Q)
      (now : datetime) :
  Dict.contains user1 (user_profiles st) = true ->
  Dict.contains user2 (user_profiles st) = true ->
  add_connection st user1 user2 ctype w now =
  {| graph := Graph.add_edge user1 user2
                {| connection_type := ctype; weight := w; e_timestamp := now |}
                (graph st);
     user_profiles :=
       append_connection user2 user1
         (append_connection user1 user2 (user_profiles st));
     content_data := content_data st |}.
Proof. intros E1 E2. unfold add_connection. now rewrite E1, E2. Qed.

Lemma dict_keys_setitem_present {V : Type} (k : string) (v : V) (d : dict string V) :
  Dict.contains k d = true -> Dict.keys (Dict.setitem k v d) = Dict.keys d.
Proof. intros H. now rewrite dict_keys_setitem, H. Qed.

Lemma dict_contains_In_keys {V : Type} (k : string) (d : dict string V) :
  Dict.contains k d = true <-> In k (Dict.keys d).
Proof.
  destruct (Dict.contains k d) eqn:E.
  - split; [intros _|reflexivity].
    destruct (in_dec string_dec k (Dict.keys d)) as [H|H]; [exact H|].
    apply dict_get_None_keys, dict_contains_false in H. congruence.
  - split; [discriminate|]. intros H.
    apply dict_contains_false, dict_get_None_keys in E. contradiction.
Qed.









(** ** Invariants of the graph and of the catalog *)

Lemma get_append_content_interaction_any (cid k : string) (ci : content_interaction)
      (cd : dict string content_item) :
  Dict.get k (append_content_interaction cid ci cd) =
  if bool_decide (k = cid)
  then (fun c => {| c_content_id := c_content_id c;
                    c_content_type := c_content_type c;
                    c_interactions := c_interactions c ++ [ci];
                    c_flags := c_flags c; c_metadata := c_metadata c |})
         <$> Dict.get cid cd
  else Dict.get k cd.
Proof.
  unfold append_content_interaction. destruct (decide (k = cid)) as [->|Hne].
  - rewrite (bool_decide_eq_true_2 _ eq_refl).
    destruct (Dict.get cid cd) as [c|] eqn:E; cbn [fmap option_fmap option_map].
    + apply dict_get_setitem_eq.
    + exact E.
  - rewrite (bool_decide_eq_false_2 _ Hne).
    destruct (Dict.get cid cd); [|reflexivity].
    apply dict_get_setitem_ne. congruence.
Qed.

Lemma wf_append_content_interaction (cid : string) (ci : content_interaction)
      (cd : dict string content_item) :
  Dict.wf cd -> Dict.wf (append_content_interaction cid ci cd).
Proof.
  unfold append_content_interaction. destruct (Dict.get cid cd); [|auto].
  apply dict_wf_setitem.
Qed.

Lemma add_content_interaction_unfold (st : analyzer) (uid cid ctype itype : string)
      (md : option metadata) (now1 now2 : datetime) :
  Dict.contains uid (user_profiles st) = true ->
  snd (add_content_interaction st uid cid ctype itype md now1 now2) =
  {| graph := graph st;
     user_profiles :=
       append_interaction uid
         {| i_content_id := cid; i_content_type := ctype;
            i_interaction_type := itype; i_timestamp := Some now1;
            i_metadata := Some (default empty_metadata md) |}
         (user_profiles st);
     content_data :=
       append_content_interaction cid
         {| ci_user_id := uid; ci_interaction_type := itype; ci_timestamp := now2 |}
         (if negb (Dict.contains cid (content_data st))
          then Dict.setitem cid
                 {| c_content_id := cid; c_content_type := ctype;
                    c_interactions := []; c_flags := [];
                    c_metadata := default empty_metadata md |}
                 (content_data st)
          else content_data st) |}.
Proof. intros E. unfold add_content_interaction. now rewrite E. Qed.

(** X3. In every store built through the interface the nodes of the
    graph are exactly the registered users, the graph is undirected
    (an edge is seen from both of its ends) and every edge joins two
    registered users. *)
Theorem reachable_graph_inv :
  forall st : analyzer, reachable st -> graph_inv st.
Proof.
  induction 1 as [|st uid a pd now _ (Hn & Hs & He)
                  |st u1 u2 ct w now _ (Hn & Hs & He)
                  |st uid cid ct it md n1 n2 _ (Hn & Hs & He)
                  |st _ (Hn & Hs & He)].
  - repeat split; intros; discriminate.
  - unfold graph_inv. cbn [add_user graph user_profiles]. split; [|split].
    + intros u. now rewrite has_node_add_node, dict_contains_setitem, Hn.
    + intros u v. now rewrite !has_edge_add_node.
    + intros u v. rewrite has_edge_add_node, !dict_contains_setitem.
      intros H. destruct (He u v H) as [-> ->]. now rewrite !orb_true_r.
  - destruct (Dict.contains u1 (user_profiles st)) eqn:E1;
      [destruct (Dict.contains u2 (user_profiles st)) eqn:E2|].
    + rewrite (add_connection_unfold _ _ _ _ _ _ E1 E2).
      unfold graph_inv. cbn [graph user_profiles].
      assert (Hc : forall k, Dict.contains k
                     (append_connection u2 u1
                        (append_connection u1 u2 (user_profiles st)))
                   = Dict.contains k (user_profiles st)).
      { intros k. now rewrite !(proj2 (append_connection_inv _ _ _)). }
      split; [|split].
      * intros u. rewrite has_node_add_edge_eq, Hc, Hn.
        destruct (decide (u = u1)) as [->|N1].
        -- rewrite (bool_decide_eq_true_2 _ eq_refl). now rewrite E1.
        -- rewrite (bool_decide_eq_false_2 _ N1).
           destruct (decide (u = u2)) as [->|N2].
           ++ rewrite (bool_decide_eq_true_2 _ eq_refl). now rewrite E2.
           ++ now rewrite (bool_decide_eq_false_2 _ N2).
      * intros u v. rewrite !has_edge_add_edge, (Hs u v).
        destruct (bool_decide (u = u1)), (bool_decide (v = u2)),
                 (bool_decide (u = u2)), (bool_decide (v = u1)); reflexivity.
      * intros u v. rewrite has_edge_add_edge, !Hc. intros H.
        apply orb_true_iff in H as [H|H]; [apply orb_true_iff in H as [H|H]|].
        -- apply andb_true_iff in H as [Ha Hb].
           apply bool_decide_eq_true_1 in Ha, Hb. subst. auto.
        -- apply andb_true_iff in H as [Ha Hb].
           apply bool_decide_eq_true_1 in Ha, Hb. subst. auto.
        -- now apply He.
    + unfold add_connection. rewrite E1, E2. cbn [andb]. exact (conj Hn (conj Hs He)).
    + unfold add_connection. rewrite E1. cbn [andb]. exact (conj Hn (conj Hs He)).
  - destruct (Dict.contains uid (user_profiles st)) eqn:E.
    + rewrite (add_content_interaction_unfold _ _ _ _ _ _ _ _ E).
      unfold graph_inv. cbn [graph user_profiles].
      split; [|split; [exact Hs|]].
      * intros u. now rewrite (proj2 (append_interaction_inv _ _ _)).
      * intros u v. rewrite !(proj2 (append_interaction_inv _ _ _)). apply He.
    + unfold add_content_interaction. rewrite E. exact (conj Hn (conj Hs He)).
  - rewrite detect_spec. unfold graph_inv. cbn [snd graph user_profiles].
    split; [|split; [exact Hs|]].
    + intros u. now rewrite contains_write_back.
    + intros u v. rewrite !contains_write_back. apply He.
Qed.

(** X4. In every store built through the interface the content catalog
    has distinct keys, every item is stored under its own id, holds at
    least one interaction, has no flags (no operation sets one), and
    every interaction it lists is by a registered user. *)
Theorem reachable_catalog_inv :
  forall st : analyzer, reachable st -> catalog_inv st.
Proof.
  induction 1 as [|st uid a pd now _ (Hwf & Hc)
                  |st u1 u2 ct w now _ (Hwf & Hc)
                  |st uid cid ct it md n1 n2 _ (Hwf & Hc)
                  |st _ (Hwf & Hc)].
  - split; [constructor | discriminate].
  - unfold catalog_inv. cbn [add_user user_profiles content_data].
    split; [exact Hwf|]. intros k c Hk. destruct (Hc k c Hk) as (H1 & H2 & H3 & H4).
    repeat split; try assumption. intros ci Hci.
    rewrite dict_contains_setitem, (H4 ci Hci). apply orb_true_r.
  - destruct (Dict.contains u1 (user_profiles st) && Dict.contains u2 (user_profiles st))
      eqn:E; unfold add_connection; rewrite E; [|exact (conj Hwf Hc)].
    unfold catalog_inv. cbn [user_profiles content_data].
    split; [exact Hwf|]. intros k c Hk. destruct (Hc k c Hk) as (H1 & H2 & H3 & H4).
    repeat split; try assumption. intros ci Hci.
    rewrite !(proj2 (append_connection_inv _ _ _)). now apply H4.
  - destruct (Dict.contains uid (user_profiles st)) eqn:E;
      [|unfold add_content_interaction; rewrite E; exact (conj Hwf Hc)].
    rewrite (add_content_interaction_unfold _ _ _ _ _ _ _ _ E).
    unfold catalog_inv. cbn [user_profiles content_data]. split.
    + apply wf_append_content_interaction.
      destruct (negb (Dict.contains cid (content_data st)));
        [apply dict_wf_setitem|]; exact Hwf.
    + intros k c. rewrite get_append_content_interaction_any.
      assert (Hreg : forall u, Dict.contains u (user_profiles st) = true ->
                Dict.contains u (append_interaction uid
                  {| i_content_id := cid; i_content_type := ct;
                     i_interaction_type := it; i_timestamp := Some n1;
                     i_metadata := Some (default empty_metadata md) |}
                  (user_profiles st)) = true).
      { intros u Hu. now rewrite (proj2 (append_interaction_inv _ _ _)). }
      destruct (decide (k = cid)) as [->|Hne].
      * rewrite (bool_decide_eq_true_2 _ eq_refl).
        destruct (Dict.contains cid (content_data st)) eqn:Ec; cbn [negb].
        -- apply dict_contains_true in Ec as [c0 Hc0]. rewrite Hc0.
           cbn [fmap option_fmap option_map]. intros [= <-].
           destruct (Hc cid c0 Hc0) as (H1 & H2 & H3 & H4).
           cbn [c_content_id c_interactions c_flags].
           split; [exact H1|]. split; [now destruct (c_interactions c0)|].
           split; [exact H3|]. intros ci Hci. apply Hreg.
           apply in_app_or in Hci as [Hci|[<-|[]]]; [now apply H4 | exact E].
        -- rewrite dict_get_setitem_eq. cbn [fmap option_fmap option_map].
           intros [= <-]. cbn [c_content_id c_interactions c_flags app].
           split; [reflexivity|]. split; [discriminate|]. split; [reflexivity|].
           intros ci [<-|[]]. apply Hreg, E.
      * rewrite (bool_decide_eq_false_2 _ Hne).
        assert (Hk : Dict.get k
                  (if negb (Dict.contains cid (content_data st))
                   then Dict.setitem cid
                          {| c_content_id := cid; c_content_type := ct;
                             c_interactions := []; c_flags := [];
                             c_metadata := default empty_metadata md |}
                          (content_data st)
                   else content_data st) = Dict.get k (content_data st)).
        { destruct (negb (Dict.contains cid (content_data st))); [|reflexivity].
          apply dict_get_setitem_ne. congruence. }
        rewrite Hk. intros Hget. destruct (Hc k c Hget) as (H1 & H2 & H3 & H4).
        repeat split; try assumption. intros ci Hci. apply Hreg. now apply H4.
  - rewrite detect_spec. unfold catalog_inv. cbn [snd user_profiles content_data].
    split; [exact Hwf|]. intros k c Hk. destruct (Hc k c Hk) as (H1 & H2 & H3 & H4).
    repeat split; try assumption. intros ci Hci.
    rewrite contains_write_back. now apply H4.
Qed.

(** X5. The catalog keeps the first description of a content: recording
    an interaction with a content that is in the catalog appends to its
    interaction list and leaves its type and metadata as they are,
    whatever type and metadata the call passes (these go to the entry
    in the user's log only); a content that is new is stored with the
    type and metadata of the call, at the end of the catalog.  No other
    content changes. *)
Theorem catalog_keeps_first_description :
  forall (st : analyzer) (uid cid ctype itype : string) (md : option metadata)
         (now1 now2 : datetime),
    Dict.contains uid (user_profiles st) = true ->
    let st' := snd (add_content_interaction st uid cid ctype itype md now1 now2) in
    let ci := {| ci_user_id := uid; ci_interaction_type := itype;
                 ci_timestamp := now2 |} in
    (forall c, Dict.get cid (content_data st) = Some c ->
       Dict.get cid (content_data st') =
         Some {| c_content_id := c_content_id c;
                 c_content_type := c_content_type c;
                 c_interactions := c_interactions c ++ [ci];
                 c_flags := c_flags c; c_metadata := c_metadata c |} /\
       Dict.keys (content_data st') = Dict.keys (content_data st)) /\
    (Dict.get cid (content_data st) = None ->
       Dict.get cid (content_data st') =
         Some {| c_content_id := cid; c_content_type := ctype;
                 c_interactions := [ci]; c_flags := [];
                 c_metadata := default empty_metadata md |} /\
       Dict.keys (content_data st') = Dict.keys (content_data st) ++ [cid]) /\
    (forall k, k <> cid ->
       Dict.get k (content_data st') = Dict.get k (content_data st)).
Proof.
  intros st uid cid ctype itype md now1 now2 E st' ci. subst st'.
  rewrite (add_content_interaction_unfold _ _ _ _ _ _ _ _ E). cbn [content_data].
  fold ci. split; [|split].
  - intros c Hc.
    assert (Ec : Dict.contains cid (content_data st) = true)
      by (apply dict_contains_true; eauto).
    rewrite Ec. cbn [negb]. split.
    + now apply get_append_content_interaction.
    + unfold append_content_interaction. rewrite Hc.
      now apply dict_keys_setitem_present.
  - intros Hc.
    assert (Ec : Dict.contains cid (content_data st) = false)
      by (now apply dict_contains_false).
    rewrite Ec. cbn [negb]. split.
    + rewrite (get_append_content_interaction _ _ _ _ (dict_get_setitem_eq _ _ _)).
      reflexivity.
    + unfold append_content_interaction. rewrite dict_get_setitem_eq.
      rewrite dict_keys_setitem_present
        by (apply dict_contains_true; rewrite dict_get_setitem_eq; eauto).
      now rewrite dict_keys_setitem, Ec.
  - intros k Hne. rewrite get_append_content_interaction_any.
    rewrite (bool_decide_eq_false_2 _ Hne).
    destruct (negb (Dict.contains cid (content_data st))); [|reflexivity].
    apply dict_get_setitem_ne. congruence.
Qed.

(** ** More on the suspicion scorer *)

Lemma py_max_ge_l (a b : Q) : (a <= py_max a b)%Q.
Proof.
  unfold py_max. destruct (Qltb a b) eqn:E.
  - apply Qltb_lt in E. apply Qlt_le_weak, E.
  - apply Qle_refl.
Qed.

Lemma filter_length_le {A : Type} (f : A -> bool) (l : list A) :
  (length (List.filter f l) <= length l)%nat.
Proof.
  induction l as [|x l IH]; [reflexivity|]. cbn [List.filter].
  destruct (f x); cbn [length]; lia.
Qed.

Lemma int_div_le_1 (a b : nat) : (a <= b)%nat -> (0 < b)%nat -> (int_div a b <= 1)%Q.
Proof.
  intros Hab Hb. unfold int_div. apply Qle_shift_div_r.
  - replace 0%Q with (inject_Z 0) by reflexivity. rewrite <- Zlt_Qlt. lia.
  - rewrite Qmult_1_l. rewrite <- Zle_Qle. lia.
Qed.

Lemma scan_user_bounds (uid : string) (p : profile) (r : suspicion_record) :
  scan_user uid p = Some r ->
  s_user_id r = uid /\ s_age r = age p /\ (18 <= s_age r)%Z /\
  total_content_count r = length (content_consumed p) /\
  connections_count r = length (connections p) /\
  (6 <= child_content_count r)%nat /\
  (child_content_count r <= total_content_count r)%nat /\
  (0.1 < child_content_ratio r)%Q /\ (child_content_ratio r <= 1)%Q /\
  (0.2 < suspicion_score r)%Q /\ (suspicion_score r <= 1)%Q.
Proof.
  unfold scan_user. destruct (age p <? 18)%Z eqn:Ea; [discriminate|].
  destruct (length (content_consumed p) =? 0)%nat eqn:Et; [discriminate|].
  destruct (Qltb (suspicion_threshold (age p))
              (int_div (count_child_content (content_consumed p))
                 (length (content_consumed p)))
            && (5 <? count_child_content (content_consumed p))%nat) eqn:Ef;
    [|discriminate].
  intros [= <-].
  cbn [s_user_id s_age total_content_count connections_count child_content_count
       child_content_ratio suspicion_score].
  apply andb_true_iff in Ef as [Hthr Hcnt].
  apply Qltb_lt in Hthr. apply Nat.ltb_lt in Hcnt.
  apply Z.ltb_ge in Ea. apply Nat.eqb_neq in Et.
  assert (Hle : (count_child_content (content_consumed p)
                 <= length (content_consumed p))%nat).
  { rewrite count_child_content_filter. apply filter_length_le. }
  assert (Hlow : (0.1 < int_div (count_child_content (content_consumed p))
                          (length (content_consumed p)))%Q).
  { eapply Qle_lt_trans; [|exact Hthr]. apply py_max_ge_l. }
  assert (Hup : (int_div (count_child_content (content_consumed p))
                   (length (content_consumed p)) <= 1)%Q).
  { apply int_div_le_1; lia. }
  repeat split; try assumption; try lia.
  - unfold py_min. destruct (Qltb _ _); lra.
  - eapply Qle_trans; [apply py_min_le_l|]. discriminate.
Qed.

Lemma in_detect (st : analyzer) (r : suspicion_record) :
  In r (fst (detect_suspicious_content_patterns st)) <->
  exists uid p, In (uid, p) (user_profiles st) /\ scan_user uid p = Some r.
Proof.
  rewrite detect_spec. cbn [fst]. rewrite <- in_omap_scan. split; intros H.
  - exact (Permutation_in _ (sorted_desc_perm suspicion_score _) H).
  - exact (Permutation_in _ (Permutation_sym (sorted_desc_perm suspicion_score _)) H).
Qed.

(** X6. Every record the scorer returns is for a registered user of age
    at least 18 and has at least 6 child-content interactions, no more
    than the user's interactions; its ratio lies in (0.1, 1] and its
    score in (0.2, 1]; the age, the total and the connection count are
    those of the user's profile. *)
Theorem detect_record_bounds :
  forall (st : analyzer) (r : suspicion_record),
    In r (fst (detect_suspicious_content_patterns st)) ->
    (exists p, In (s_user_id r, p) (user_profiles st) /\
               s_age r = age p /\
               total_content_count r = length (content_consumed p) /\
               connections_count r = length (connections p)) /\
    (18 <= s_age r)%Z /\
    (6 <= child_content_count r)%nat /\
    (child_content_count r <= total_content_count r)%nat /\
    (0.1 < child_content_ratio r)%Q /\ (child_content_ratio r <= 1)%Q /\
    (0.2 < suspicion_score r)%Q /\ (suspicion_score r <= 1)%Q.
Proof.
  intros st r Hin. apply in_detect in Hin as (uid & p & Hin & Hs).
  destruct (scan_user_bounds uid p r Hs)
    as (Hu & Ha & H18 & Ht & Hc & H6 & Hle & Hr1 & Hr2 & Hs1 & Hs2).
  split; [|repeat split; assumption].
  exists p. rewrite Hu. auto.
Qed.

Lemma ids_of_scan_sublist (ups : dict string profile) :
  sublist (map s_user_id (omap scan_entry ups)) (Dict.keys ups).
Proof.
  induction ups as [|[uid p] ups IH]; [constructor|].
  change (omap scan_entry ((uid, p) :: ups))
    with (match scan_user uid p with
          | Some r => r :: omap scan_entry ups
          | None => omap scan_entry ups
          end).
  cbn [Dict.keys map fst]. destruct (scan_user uid p) as [r|] eqn:E.
  - cbn [map]. rewrite (scan_user_uid _ _ _ E). now apply sublist_skip.
  - now apply sublist_cons.
Qed.

(** X7. On a store whose users have distinct ids the scorer returns at
    most one record per user: the ids of the returned records are
    pairwise distinct, all are registered, and there are no more
    records than users. *)
Theorem detect_one_record_per_user :
  forall st : analyzer,
    Dict.wf (user_profiles st) ->
    let found := fst (detect_suspicious_content_patterns st) in
    NoDup (map s_user_id found) /\
    (forall r, In r found -> Dict.contains (s_user_id r) (user_profiles st) = true) /\
    (length found <= length (user_profiles st))%nat.
Proof.
  intros st Hwf found. subst found. rewrite detect_spec. cbn [fst].
  pose proof (ids_of_scan_sublist (user_profiles st)) as Hsub.
  pose proof (sorted_desc_perm suspicion_score (omap scan_entry (user_profiles st)))
    as Hperm.
  split; [|split].
  - rewrite (Permutation_map s_user_id Hperm).
    exact (sublist_NoDup _ _ Hwf Hsub).
  - intros r Hr. apply dict_contains_In_keys.
    apply list_elem_of_In. eapply elem_of_sublist; [|exact Hsub].
    apply list_elem_of_In, in_map. exact (Permutation_in _ Hperm Hr).
  - rewrite (Permutation_length Hperm).
    apply sublist_length in Hsub. unfold Dict.keys in Hsub.
    now rewrite !length_map in Hsub.
Qed.


(** X9. The scorer changes nothing but cached scores: the graph, the
    content catalog and the order of the users are as before, and each
    profile keeps its id, age, registration date, interaction log,
    connection list and other attributes; its cached score is either
    untouched or a score in (0.2, 1]. *)
Theorem detect_changes_only_scores :
  forall st : analyzer,
    let st' := snd (detect_suspicious_content_patterns st) in
    graph st' = graph st /\
    content_data st' = content_data st /\
    Dict.keys (user_profiles st') = Dict.keys (user_profiles st) /\
    forall uid p', Dict.get uid (user_profiles st') = Some p' ->
      exists p, Dict.get uid (user_profiles st) = Some p /\
        user_id p' = user_id p /\ age p' = age p /\
        registration_date p' = registration_date p /\
        content_consumed p' = content_consumed p /\
        connections p' = connections p /\ extra p' = extra p /\
        (suspicious_score p' = suspicious_score p \/
         (0.2 < suspicious_score p')%Q /\ (suspicious_score p' <= 1)%Q).
Proof.
  intros st st'. subst st'. rewrite detect_spec. cbn [snd graph content_data user_profiles].
  split; [reflexivity|]. split; [reflexivity|]. split; [apply keys_write_back|].
  intros uid p'. rewrite dict_get_write_back.
  destruct (Dict.get uid (user_profiles st)) as [p|]; [|discriminate].
  cbn [fmap option_fmap option_map write_back fst snd]. intros [= <-].
  exists p. split; [reflexivity|].
  destruct (scan_user uid p) as [r|] eqn:E.
  - cbn. repeat split. right.
    destruct (scan_user_bounds uid p r E) as (_ & _ & _ & _ & _ & _ & _ & _ & _ & H1 & H2).
    split; assumption.
  - repeat split. now left.
Qed.

(** ** More on the report *)




Lemma generate_report_unfold (cc : nx_graph -> list (gset string))
      (dens clus : nx_graph -> Q) (conn : nx_graph -> bool) (diam : nx_graph -> nat)
      (dc bc clc ec : nx_graph -> option (dict string Q))
      (st : analyzer) (now : datetime) (rep : report) (st' : analyzer) :
  generate_risk_report cc dens clus conn diam dc bc clc ec st now = (Some rep, st') ->
  let ranked := fst (detect_suspicious_content_patterns st) in
  let st1 := snd (detect_suspicious_content_patterns st) in
  exists na metrics,
    analyze_suspicious_networks cc dens clus conn diam st1 ranked = Some na /\
    calculate_user_centrality_metrics dc bc clc ec st1 = Some metrics /\
    st' = st1 /\
    rep = {| r_timestamp := now;
             r_summary :=
               {| sm_total_users := length (user_profiles st1);
                  total_connections := Graph.number_of_edges (graph st1);
                  suspicious_users_count := length ranked;
                  high_risk_users := count_high_risk ranked |};
             r_suspicious_users := firstn 20 ranked;
             r_network_analysis := na;
             influential_suspicious := join_centrality metrics (firstn 10 ranked);
             recommendations := _generate_recommendations ranked na |}.
Proof.
  unfold generate_risk_report.
  destruct (detect_suspicious_content_patterns st) as [su st1]. cbn [fst snd].
  destruct (analyze_suspicious_networks cc dens clus conn diam st1 su) as [na|];
    [|discriminate].
  destruct (calculate_user_centrality_metrics dc bc clc ec st1) as [cm|];
    [|discriminate].
  cbn [mbind option_bind]. intros [= <- <-]. now exists na, cm.
Qed.




Lemma enumerate_length {A : Type} (l : list A) : length (enumerate l) = length l.
Proof.
  unfold enumerate. rewrite length_combine, length_seq. lia.
Qed.

Lemma analyze_networks_inv (cc : nx_graph -> list (gset string))
      (dens clus : nx_graph -> Q) (conn : nx_graph -> bool) (diam : nx_graph -> nat)
      (st : analyzer) (sus : list suspicion_record) (na : network_analysis) :
  analyze_suspicious_networks cc dens clus conn diam st sus = Some na ->
  let ids : gset string := list_to_set (map s_user_id sus) in
  exists (sub : nx_graph),
    let comps := cc sub in
    total_suspicious_users na = size ids /\
    na_connected_components na = length comps /\
    largest_component_size na = max_size comps /\
    (length (components_analysis na) <= length comps)%nat /\
    forall e, In e (components_analysis na) <->
      exists i c, comps !! i = Some c /\ (2 <= size (c ∩ ids))%nat /\
                  e = analyze_component dens clus conn diam sub ids i c.
Proof.
  intros Hna ids. unfold analyze_suspicious_networks in Hna. fold ids in Hna.
  destruct (extend_suspicious (graph st) (elements ids)) as [ext|]; [|discriminate].
  cbn [mbind option_bind] in Hna. injection Hna as <-.
  exists (Graph.subgraph (graph st) ext).
  cbn [total_suspicious_users na_connected_components largest_component_size
       components_analysis].
  split; [reflexivity|]. split; [reflexivity|]. split; [reflexivity|]. split.
  - rewrite length_map. etransitivity; [apply filter_length_le|].
    now rewrite enumerate_length.
  - intros e. apply itemized_entries.
Qed.

Lemma in_recommendations (sus : list suspicion_record) (na : network_analysis)
      (x : recommendation) :
  In x (_generate_recommendations sus na) <->
  (x = Alerta (length sus) /\ (10 < length sus)%nat) \/
  (x = PrioridadeAlta (count_high_risk sus) /\ (0 < count_high_risk sus)%nat) \/
  (x = RedesIdentificadas (na_connected_components na) /\
   (0 < na_connected_components na)%nat) \/
  (x = RedesComplexas
         (length (List.filter (fun c => (3 <=? ca_suspicious_users c)%nat)
                    (components_analysis na))) /\
   (0 < length (List.filter (fun c => (3 <=? ca_suspicious_users c)%nat)
                  (components_analysis na)))%nat).
Proof.
  unfold _generate_recommendations. rewrite !in_app_iff.
  assert (H1 : forall (b : bool) (y : recommendation) (P : Prop),
             (b = true <-> P) -> (In x (if b then [y] else []) <-> x = y /\ P)).
  { intros b y P Hb. destruct b; cbn [In].
    - split; [intros [<-|[]]; split; [reflexivity | now apply Hb]
             | intros [-> _]; now left].
    - split; [intros [] | intros [_ HP]; apply Hb in HP; discriminate]. }
  rewrite (H1 _ _ _ (Nat.ltb_lt _ _)), (H1 _ _ _ (Nat.ltb_lt _ _)),
          (H1 _ _ _ (Nat.ltb_lt _ _)).
  assert (H4 : forall l : list component_analysis,
             In x match l with [] => [] | _ => [RedesComplexas (length l)] end
             <-> x = RedesComplexas (length l) /\ (0 < length l)%nat).
  { intros [|c l]; cbn [In length].
    - split; [intros [] | intros [_ H]; lia].
    - split; [intros [<-|[]]; split; [reflexivity | lia] | intros [-> _]; now left]. }
  rewrite H4. tauto.
Qed.

(** X11. The counters of a generated report agree with one another: the
    number of users and of connections are those of the store; on a
    store whose users have distinct ids, the suspicious count of the
    network analysis equals the length of the ranking, which is at most
    the number of users and at least the number of high-risk users;
    every itemized component has an index below the number of
    components, between 2 and its size suspicious members, and a size
    at most the largest size; and each recommendation carries the
    counter it is about and is issued exactly when that counter passes
    its bound (more than 10 suspicious users, at least one high-risk
    user, at least one component, at least one itemized component with
    3 or more suspicious members). *)
Theorem report_counters_consistent :
  forall (cc : nx_graph -> list (gset string)) (dens clus : nx_graph -> Q)
         (conn : nx_graph -> bool) (diam : nx_graph -> nat)
         (dc bc clc ec : nx_graph -> option (dict string Q))
         (st : analyzer) (now : datetime) (rep : report) (st' : analyzer),
    Dict.wf (user_profiles st) ->
    generate_risk_report cc dens clus conn diam dc bc clc ec st now = (Some rep, st') ->
    let s := r_summary rep in
    let na := r_network_analysis rep in
    sm_total_users s = length (user_profiles st) /\
    total_connections s = Graph.number_of_edges (graph st) /\
    (high_risk_users s <= suspicious_users_count s)%nat /\
    (suspicious_users_count s <= sm_total_users s)%nat /\
    total_suspicious_users na = suspicious_users_count s /\
    (length (components_analysis na) <= na_connected_components na)%nat /\
    (forall e, In e (components_analysis na) ->
       (component_id e < na_connected_components na)%nat /\
       (2 <= ca_suspicious_users e)%nat /\
       (ca_suspicious_users e <= total_users e)%nat /\
       (ca_suspicious_users e <= total_suspicious_users na)%nat /\
       (total_users e <= largest_component_size na)%nat) /\
    (forall x, In x (recommendations rep) <->
       (x = Alerta (suspicious_users_count s) /\ (10 < suspicious_users_count s)%nat) \/
       (x = PrioridadeAlta (high_risk_users s) /\ (0 < high_risk_users s)%nat) \/
       (x = RedesIdentificadas (na_connected_components na) /\
        (0 < na_connected_components na)%nat) \/
       (x = RedesComplexas
              (length (List.filter (fun c => (3 <=? ca_suspicious_users c)%nat)
                         (components_analysis na))) /\
        (0 < length (List.filter (fun c => (3 <=? ca_suspicious_users c)%nat)
                       (components_analysis na)))%nat)).
Proof.
  intros cc dens clus conn diam dc bc clc ec st now rep st' Hwf Hgen s na.
  subst s na.
  destruct (generate_report_unfold _ _ _ _ _ _ _ _ _ _ _ _ _ Hgen)
    as (na & metrics & Hna & _ & _ & ->).
  cbn [r_summary r_network_analysis recommendations sm_total_users total_connections
       suspicious_users_count high_risk_users].
  set (ranked := fst (detect_suspicious_content_patterns st)) in *.
  assert (Hperm : Permutation ranked (omap scan_entry (user_profiles st))).
  { subst ranked. rewrite detect_spec. apply sorted_desc_perm. }
  assert (Hnd : NoDup (map s_user_id ranked)).
  { rewrite (Permutation_map s_user_id Hperm).
    exact (sublist_NoDup _ _ Hwf (ids_of_scan_sublist _)). }
  destruct (analyze_networks_inv _ _ _ _ _ _ _ _ Hna)
    as (sub & Htot & Hcc & Hmax & Hlen & Hent).
  cbv zeta in Htot, Hcc, Hmax, Hlen, Hent.
  assert (Hsize : size (list_to_set (map s_user_id ranked) : gset string)
                  = length ranked).
  { rewrite size_list_to_set by exact Hnd. apply length_map. }
  split; [rewrite detect_spec; cbn [snd user_profiles]; apply length_map|].
  split; [now rewrite detect_spec|].
  split; [apply filter_length_le|].
  split.
  { rewrite (Permutation_length Hperm), detect_spec. cbn [snd user_profiles].
    rewrite length_map.
    pose proof (sublist_length _ _ (ids_of_scan_sublist (user_profiles st))) as H.
    unfold Dict.keys in H. now rewrite !length_map in H. }
  split; [now rewrite Htot|].
  split; [now rewrite Hcc|].
  split; [|apply in_recommendations].
  intros e He. apply Hent in He as (i & c & Hic & Hsz & ->).
  cbn [component_id ca_suspicious_users total_users analyze_component].
  rewrite Hcc, Htot, Hmax.
  split; [now apply lookup_lt_Some in Hic|].
  split; [exact Hsz|].
  split.
  { apply subseteq_size. intros x Hx. now apply elem_of_intersection in Hx. }
  split.
  { apply subseteq_size. intros x Hx. now apply elem_of_intersection in Hx. }
  apply max_size_bound. apply list_elem_of_In. eapply list_elem_of_lookup_2, Hic.
Qed.

(** ** More on the classifier *)

Lemma weighed_bump (a : acc) (w : Q) (f : string) :
  (0.1 <= w)%Q -> (w <= 0.8)%Q -> weighed a -> weighed (bump a w f).
Proof.
  intros Hl Hu [H1 H2]. unfold weighed, bump. cbn [fst snd].
  rewrite length_app. cbn [length]. rewrite Nat2Z.inj_add, inject_Z_plus.
  change (inject_Z (Z.of_nat 1)) with 1%Q. split; lra.
Qed.

Lemma scan_keywords_weighed text w label ks (a : acc) :
  (0.1 <= w)%Q -> (w <= 0.8)%Q -> weighed a ->
  weighed (scan_keywords text w label ks a) /\
  (length (snd (scan_keywords text w label ks a)) <= length (snd a) + length ks)%nat /\
  (fst a <= fst (scan_keywords text w label ks a))%Q.
Proof.
  intros Hl Hu. revert a. induction ks as [|k ks IH]; intros a Ha; cbn [scan_keywords].
  - split; [exact Ha|]. split; [cbn; lia | apply Qle_refl].
  - destruct (PyStr.contains k text).
    + destruct (IH (bump a w (label ++ k)) (weighed_bump _ _ _ Hl Hu Ha)) as (H1 & H2 & H3).
      split; [exact H1|]. split.
      * assert (E : length (snd (bump a w (label ++ k))) = S (length (snd a))).
        { unfold bump. cbn [snd]. rewrite length_app. cbn [length]. lia. }
        rewrite E in H2. cbn [length]. lia.
      * eapply Qle_trans; [|exact H3]. unfold bump. cbn [fst].
        assert (Hw : (0 <= w)%Q) by (eapply Qle_trans; [|exact Hl]; discriminate).
        rewrite <- (Qplus_0_r (fst a)) at 1. apply Qplus_le_r. exact Hw.
    + destruct (IH a Ha) as (H1 & H2 & H3).
      split; [exact H1|]. split; [cbn [length]; lia | exact H3].
Qed.

Section ClassifierMore.

Variable lower : string -> string.

Lemma raw_risk_weighed (md : metadata) :
  weighed (raw_risk lower md) /\
  (length (snd (raw_risk lower md)) <= 15)%nat /\
  (age_weight md <= fst (raw_risk lower md))%Q.
Proof.
  unfold raw_risk, age_weight.
  set (a0 := (0.0%Q, @nil string)).
  assert (H0 : weighed a0) by (unfold weighed, a0; cbn; split; discriminate).
  assert (H1 : weighed (age_rule md a0) /\ (length (snd (age_rule md a0)) <= 1)%nat).
  { unfold age_rule.
    repeat match goal with |- context [if ?b then _ else _] => destruct b end;
      (split; [try (apply weighed_bump; [discriminate|discriminate|exact H0]);
               try exact H0 | cbn; lia]). }
  destruct H1 as [H1 L1].
  destruct (scan_keywords_weighed (text_content lower md) 0.3
              "Palavra-chave de alto risco: " high_risk_keywords _
              ltac:(discriminate) ltac:(discriminate) H1) as (H2 & L2 & M2).
  destruct (scan_keywords_weighed (text_content lower md) 0.1
              "Palavra-chave de médio risco: " medium_risk_keywords _
              ltac:(discriminate) ltac:(discriminate) H2) as (H3 & L3 & M3).
  cbn [length high_risk_keywords medium_risk_keywords] in L2, L3.
  set (a3 := scan_keywords (text_content lower md) 0.1 _ medium_risk_keywords _) in *.
  assert (H4 : weighed (category_rule lower md a3) /\
               (length (snd (category_rule lower md a3)) <= length (snd a3) + 1)%nat /\
               (fst a3 <= fst (category_rule lower md a3))%Q).
  { unfold category_rule. destruct (PyStr.mem _ _).
    - split; [apply weighed_bump; [discriminate|discriminate|exact H3]|].
      unfold bump. cbn [fst snd]. rewrite length_app. cbn [length]. split; [lia | lra].
    - split; [exact H3|]. split; [lia | apply Qle_refl]. }
  destruct H4 as (H4 & L4 & M4).
  set (a4 := category_rule lower md a3) in *.
  unfold duration_rule. destruct (_ && _).
  - split; [apply weighed_bump; [discriminate|discriminate|exact H4]|].
    unfold bump. cbn [fst snd]. rewrite length_app. cbn [length]. split; [lia | lra].
  - split; [exact H4|]. split; [lia | lra].
Qed.

End ClassifierMore.

(** X12. Every point of risk is explained: the classifier's factor list
    has one entry per rule that fired, at most 15, and the raw score
    lies between 0.1 and 0.8 times the number of factors.  So the score
    is 0 exactly when no factor is given, a content without factors is
    of minimal risk, and a score above 0 comes with at least one
    factor and is at least 0.1. *)
Theorem risk_is_explained :
  forall (lower : string -> string) (md : metadata),
    let r := classify_content_risk lower md in
    let raw := fst (raw_risk lower md) in
    let n := length (risk_factors r) in
    (0.1 * inject_Z (Z.of_nat n) <= raw)%Q /\
    (raw <= 0.8 * inject_Z (Z.of_nat n))%Q /\
    (n <= 15)%nat /\
    (risk_score r == Qmin 1 raw)%Q /\
    (risk_factors r = [] <-> (risk_score r == 0)%Q) /\
    (risk_factors r = [] -> risk_level_of r = MINIMO) /\
    (risk_factors r <> [] -> (0.1 <= risk_score r)%Q).
Proof.
  intros lower md r raw n. subst r raw n.
  destruct (raw_risk_weighed lower md) as ([Hl Hu] & Hn & _).
  unfold classify_content_risk. cbn [risk_factors risk_score risk_level_of].
  set (a := raw_risk lower md) in *.
  assert (Hmin : (py_min 1.0 (fst a) == Qmin 1 (fst a))%Q).
  { rewrite py_min_Qmin. apply Q.min_compat; reflexivity. }
  split; [exact Hl|]. split; [exact Hu|]. split; [exact Hn|]. split; [exact Hmin|].
  assert (Hpos : snd a <> [] -> (0.1 <= fst a)%Q).
  { intros Hne. destruct (snd a) as [|f fs]; [congruence|].
    cbn [length] in Hl. rewrite Nat2Z.inj_succ, <- Z.add_1_r, inject_Z_plus in Hl.
    assert (H0 : (0 <= inject_Z (Z.of_nat (length fs)))%Q).
    { replace 0%Q with (inject_Z 0) by reflexivity. rewrite <- Zle_Qle. lia. }
    change (inject_Z 1) with 1%Q in Hl. lra. }
  assert (Hzero : snd a = [] -> (fst a == 0)%Q).
  { intros He. rewrite He in Hl, Hu.
    change (inject_Z (Z.of_nat (length (@nil string)))) with 0%Q in Hl, Hu. lra. }
  split; [split|split].
  - intros He. rewrite Hmin, (Hzero He). reflexivity.
  - intros Hs. destruct (snd a) as [|f fs] eqn:E; [reflexivity|]. exfalso.
    assert (H : (0.1 <= fst a)%Q) by (apply Hpos; discriminate).
    rewrite Hmin in Hs.
    destruct (Q.min_spec 1 (fst a)) as [[_ Hm]|[_ Hm]]; rewrite Hm in Hs; lra.
  - intros He. specialize (Hzero He).
    unfold _get_risk_level.
    assert (Hs : (py_min 1.0 (fst a) == 0)%Q) by (rewrite Hmin, Hzero; reflexivity).
    rewrite !(proj2 (Qle_bool_false _ _)); [reflexivity| | |]; rewrite Hs; reflexivity.
  - intros Hne. specialize (Hpos Hne). rewrite Hmin.
    destruct (Q.min_spec 1 (fst a)) as [[_ Hm]|[_ Hm]]; rewrite Hm; lra.
Qed.

Lemma get_risk_level_rank (s : Q) :
  ((0.7 <= s)%Q <-> risk_rank (_get_risk_level s) = 3%nat) /\
  ((0.4 <= s)%Q <-> (2 <= risk_rank (_get_risk_level s))%nat) /\
  ((0.2 <= s)%Q <-> (1 <= risk_rank (_get_risk_level s))%nat).
Proof.
  unfold _get_risk_level.
  destruct (Qle_bool 0.7 s) eqn:E1; [apply Qle_bool_iff in E1 | apply Qle_bool_false in E1];
  [|destruct (Qle_bool 0.4 s) eqn:E2; [apply Qle_bool_iff in E2 | apply Qle_bool_false in E2];
    [|destruct (Qle_bool 0.2 s) eqn:E3; [apply Qle_bool_iff in E3 | apply Qle_bool_false in E3]]];
  cbn [risk_rank]; (split; [|split]); split; intros H; try lia; try lra.
Qed.

(** X13. The levels are cut from the score in order: a larger score
    never gets a lower level, equal scores (as numbers) get the same
    level, and the cuts are at 0.2, 0.4 and 0.7, each included in the
    higher level. *)
Theorem risk_level_monotone :
  forall s s' : Q,
    ((s <= s')%Q -> (risk_rank (_get_risk_level s) <= risk_rank (_get_risk_level s'))%nat) /\
    ((s == s')%Q -> _get_risk_level s = _get_risk_level s') /\
    (_get_risk_level s = ALTO <-> (0.7 <= s)%Q) /\
    (_get_risk_level s = MEDIO <-> (0.4 <= s)%Q /\ (s < 0.7)%Q) /\
    (_get_risk_level s = BAIXO <-> (0.2 <= s)%Q /\ (s < 0.4)%Q) /\
    (_get_risk_level s = MINIMO <-> (s < 0.2)%Q).
Proof.
  intros s s'.
  destruct (get_risk_level_rank s) as (A & B & C).
  destruct (get_risk_level_rank s') as (A' & B' & C').
  assert (Hmono : (s <= s')%Q ->
                  (risk_rank (_get_risk_level s) <= risk_rank (_get_risk_level s'))%nat).
  { intros Hle.
    assert (R : (risk_rank (_get_risk_level s) <= 3)%nat)
      by (destruct (_get_risk_level s); cbn; lia).
    destruct (risk_rank (_get_risk_level s)) as [|[|[|[|n]]]] eqn:E; try lia.
    - apply C'. assert (H : (0.2 <= s)%Q) by (apply C; lia). lra.
    - apply B'. assert (H : (0.4 <= s)%Q) by (apply B; lia). lra.
    - assert (H : (0.7 <= s)%Q) by (apply A; reflexivity).
      assert (H' : (0.7 <= s')%Q) by lra. apply A' in H'. lia. }
  split; [exact Hmono|].
  split.
  { intros He. unfold _get_risk_level.
    assert (Hc : forall c : Q, Qle_bool c s = Qle_bool c s').
    { intros c. destruct (Qle_bool c s) eqn:E1, (Qle_bool c s') eqn:E2; try reflexivity; exfalso.
      - apply Qle_bool_iff in E1. apply Qle_bool_false in E2. lra.
      - apply Qle_bool_iff in E2. apply Qle_bool_false in E1. lra. }
    rewrite !Hc. reflexivity. }
  clear Hmono A' B' C'.
  split; [|split; [|split]]; split.
  - intros H. apply A. rewrite H. reflexivity.
  - intros H. apply A in H. destruct (_get_risk_level s); cbn in H; congruence.
  - intros H. rewrite H in A, B. cbn in A, B. split; [apply B; lia|].
    apply Qnot_le_lt. intros Hc. apply A in Hc. discriminate.
  - intros [H1 H2]. apply B in H1.
    destruct (_get_risk_level s) eqn:E; cbn in H1; try lia; try reflexivity.
    exfalso. assert (H : (0.7 <= s)%Q) by (apply A; reflexivity). lra.
  - intros H. rewrite H in B, C. cbn in B, C. split; [apply C; lia|].
    apply Qnot_le_lt. intros Hc. apply B in Hc. lia.
  - intros [H1 H2]. apply C in H1.
    destruct (_get_risk_level s) eqn:E; cbn in H1; try lia; try reflexivity; exfalso.
    + assert (H : (0.7 <= s)%Q) by (apply A; reflexivity). lra.
    + assert (H : (0.4 <= s)%Q) by (apply B; cbn; lia). lra.
  - intros H. rewrite H in C. cbn in C.
    apply Qnot_le_lt. intros Hc. apply C in Hc. lia.
  - intros H. destruct (_get_risk_level s) eqn:E; try reflexivity; exfalso.
    + assert (H' : (0.7 <= s)%Q) by (apply A; reflexivity). lra.
    + assert (H' : (0.4 <= s)%Q) by (apply B; cbn; lia). lra.
    + assert (H' : (0.2 <= s)%Q) by (apply C; cbn; lia). lra.
Qed.

(** X14. The target age decides the floor of the level, whatever the
    text, category and duration say: a content for ages up to 8 is of
    high risk, one for ages up to 12 of medium risk at least, one for
    ages up to 16 of low risk at least; a content without target age
    counts as one for age 100 and gets nothing from the age rule. *)
Theorem target_age_sets_floor :
  forall (lower : string -> string) (md : metadata),
    let r := classify_content_risk lower md in
    let t := default 100%Q (target_age_max md) in
    ((t <= 8)%Q -> risk_level_of r = ALTO /\ (0.8 <= risk_score r)%Q) /\
    ((t <= 12)%Q -> (2 <= risk_rank (risk_level_of r))%nat /\ (0.6 <= risk_score r)%Q) /\
    ((t <= 16)%Q -> (1 <= risk_rank (risk_level_of r))%nat /\ (0.3 <= risk_score r)%Q) /\
    ((16 < t)%Q -> (age_weight md == 0)%Q) /\
    (target_age_max md = None -> (age_weight md == 0)%Q).
Proof.
  intros lower md r t. subst r t.
  destruct (raw_risk_weighed lower md) as (_ & _ & Hage).
  unfold classify_content_risk. cbn [risk_level_of risk_score].
  set (raw := fst (raw_risk lower md)) in *.
  destruct (get_risk_level_rank (py_min 1.0 raw)) as (A & B & C).
  assert (Hfloor : forall c : Q, (c <= 1)%Q -> (c <= age_weight md)%Q ->
                                 (c <= py_min 1.0 raw)%Q).
  { intros c Hc Hw. apply py_min_ge; lra. }
  assert (Hw : let t := default 100%Q (target_age_max md) in
               ((t <= 8)%Q -> (age_weight md == 0.8)%Q) /\
               ((t <= 12)%Q -> (0.6 <= age_weight md)%Q) /\
               ((t <= 16)%Q -> (0.3 <= age_weight md)%Q) /\
               ((16 < t)%Q -> (age_weight md == 0)%Q)).
  { unfold age_weight, age_rule. cbv zeta.
    set (t := default 100%Q (target_age_max md)).
    destruct (Qle_bool t 8) eqn:E1; [apply Qle_bool_iff in E1 | apply Qle_bool_false in E1];
    [|destruct (Qle_bool t 12) eqn:E2; [apply Qle_bool_iff in E2 | apply Qle_bool_false in E2];
      [|destruct (Qle_bool t 16) eqn:E3; [apply Qle_bool_iff in E3 | apply Qle_bool_false in E3]]];
    unfold bump; cbn [fst]; (split; [|split; [|split]]); intros H; try lra;
    try reflexivity; try discriminate. }
  cbv zeta in Hw. destruct Hw as (W1 & W2 & W3 & W4).
  split; [|split; [|split; [|split]]].
  - intros H. specialize (W1 H).
    assert (H8 : (0.8 <= py_min 1.0 raw)%Q) by (apply Hfloor; [discriminate | lra]).
    split; [|exact H8].
    assert (H7 : (0.7 <= py_min 1.0 raw)%Q) by lra.
    apply A in H7. destruct (_get_risk_level _); cbn in H7; congruence.
  - intros H. specialize (W2 H).
    assert (H6 : (0.6 <= py_min 1.0 raw)%Q) by (apply Hfloor; [discriminate | lra]).
    split; [|exact H6]. apply B. lra.
  - intros H. specialize (W3 H).
    assert (H3 : (0.3 <= py_min 1.0 raw)%Q) by (apply Hfloor; [discriminate | lra]).
    split; [|exact H3]. apply C. lra.
  - exact W4.
  - intros Hn. apply W4. rewrite Hn. reflexivity.
Qed.

(** ** More on the behaviour patterns *)

Lemma dict_sum_setitem {K : Type} `{EqDecision K} (k : K) (v : nat) (d : dict K nat) :
  (list_sum (Dict.values (Dict.setitem k v d)) + default 0 (Dict.get k d)
   = list_sum (Dict.values d) + v)%nat.
Proof.
  unfold Dict.values. induction d as [|[k' v'] d IH]; cbn [Dict.setitem Dict.get].
  - cbn. lia.
  - destruct (decide (k = k')) as [->|Hne]; simpl in *; lia.
Qed.

Lemma dict_sum_incr {K : Type} `{EqDecision K} (k : K) (d : dict K nat) :
  list_sum (Dict.values (Dict.incr k d)) = S (list_sum (Dict.values d)).
Proof.
  unfold Dict.incr.
  pose proof (dict_sum_setitem k (S (default 0 (Dict.get k d)))%nat d). lia.
Qed.

Lemma dict_wf_incr {K : Type} `{EqDecision K} (k : K) (d : dict K nat) :
  Dict.wf d -> Dict.wf (Dict.incr k d).
Proof. apply dict_wf_setitem. Qed.

Lemma counter_from {K : Type} `{EqDecision K} (l : list K) (d : dict K nat) :
  let d' := fold_left (fun d k => Dict.incr k d) l d in
  list_sum (Dict.values d') = (length l + list_sum (Dict.values d))%nat /\
  (Dict.wf d -> Dict.wf d').
Proof.
  revert d. induction l as [|k l IH]; intros d; cbn [fold_left length].
  - split; [reflexivity | tauto].
  - destruct (IH (Dict.incr k d)) as [H1 H2]. cbv zeta. split.
    + rewrite H1, dict_sum_incr. lia.
    + intros Hwf. apply H2, dict_wf_incr, Hwf.
Qed.

Lemma counter_total {K : Type} `{EqDecision K} (l : list K) :
  list_sum (Dict.values (Dict.counter l)) = length l /\ Dict.wf (Dict.counter l).
Proof.
  destruct (counter_from l []) as [H1 H2]. unfold Dict.counter. split.
  - rewrite H1. cbn. lia.
  - apply H2. constructor.
Qed.

Lemma Qsum_unit (l : list Q) :
  (forall x, In x l -> (0 <= x)%Q /\ (x <= 1)%Q) ->
  (0 <= Qsum l)%Q /\ (Qsum l <= inject_Z (Z.of_nat (length l)))%Q.
Proof.
  induction l as [|x l IH]; intros H.
  - cbn. split; discriminate.
  - destruct IH as [I1 I2]; [intros y Hy; apply H; now right|].
    destruct (H x (or_introl eq_refl)) as [X1 X2].
    unfold Qsum in *. cbn [foldr length].
    rewrite Nat2Z.inj_succ, <- Z.add_1_l, inject_Z_plus.
    change (inject_Z 1) with 1%Q. split; lra.
Qed.

Section PatternMore.

Variable lower : string -> string.
Variable cd : dict string content_item.

Lemma classify_score_unit (md : metadata) :
  (0 <= risk_score (classify_content_risk lower md))%Q /\
  (risk_score (classify_content_risk lower md) <= 1)%Q.
Proof.
  unfold classify_content_risk. cbn [risk_score]. split.
  - apply py_min_ge; [discriminate | apply raw_risk_nonneg].
  - pose proof (py_min_le_l 1.0 (fst (raw_risk lower md))). lra.
Qed.

Lemma resolvable_scores_unit (l : list interaction) :
  (forall x, In x (resolvable_scores lower cd l) -> (0 <= x)%Q /\ (x <= 1)%Q) /\
  (length (resolvable_scores lower cd l) <= length l)%nat.
Proof.
  induction l as [|i l [IH1 IH2]].
  - split; [intros x []|reflexivity].
  - rewrite resolvable_scores_cons.
    destruct (Dict.get (i_content_id i) cd) as [item|]; cbn [length].
    + split; [|lia]. intros x [<-|Hx]; [apply classify_score_unit | apply IH1, Hx].
    + split; [exact IH1 | lia].
Qed.

(** The counters of the interaction loop after the log [l]. *)
Lemma loop_counts (l : list interaction) (st : loop_state) :
  let st' := fold_left (loop_step lower cd) l st in
  list_sum (Dict.values (ls_content_types st'))
    = (length l + list_sum (Dict.values (ls_content_types st)))%nat /\
  list_sum (Dict.values (ls_interaction_types st'))
    = (length l + list_sum (Dict.values (ls_interaction_types st)))%nat /\
  list_sum (Dict.values (ls_risk_distribution st'))
    = (length (resolvable_scores lower cd l)
       + list_sum (Dict.values (ls_risk_distribution st)))%nat /\
  (high_risk_content_count st <= high_risk_content_count st')%nat /\
  (high_risk_content_count st'
   <= length (resolvable_scores lower cd l) + high_risk_content_count st)%nat.
Proof.
  revert st. induction l as [|i l IH]; intros st; cbn [fold_left].
  - cbv zeta. unfold resolvable_scores. cbn. repeat split; lia.
  - specialize (IH (loop_step lower cd st i)). cbv zeta in IH |- *.
    destruct IH as (I1 & I2 & I3 & I4 & I5).
    rewrite I1, I2, I3, resolvable_scores_cons. clear I1 I2 I3.
    revert I4 I5. generalize (fold_left (loop_step lower cd) l (loop_step lower cd st i)).
    intros st' I4 I5. unfold loop_step in *.
    destruct (Dict.get (i_content_id i) cd) as [item|];
      cbn [ls_content_types ls_interaction_types ls_risk_distribution
           high_risk_content_count length] in *;
      rewrite ?dict_sum_incr;
      try destruct (is_high_or_medium _); repeat split; lia.
Qed.

(** The log of one user: what [analyze_user] computes from it. *)
Lemma analyze_user_bounds (uid : string) (p : profile) :
  content_consumed p <> [] ->
  let pa := analyze_user lower cd uid p in
  pa_user_id pa = uid /\ pa_age pa = age p /\
  total_interactions pa = length (content_consumed p) /\
  (1 <= total_interactions pa)%nat /\
  (0 <= avg_risk_score pa)%Q /\ (avg_risk_score pa <= 1)%Q /\
  (0 <= high_risk_ratio pa)%Q /\ (high_risk_ratio pa <= 1)%Q /\
  list_sum (Dict.values (content_types pa)) = total_interactions pa /\
  list_sum (Dict.values (interaction_types pa)) = total_interactions pa /\
  (list_sum (Dict.values (risk_distribution pa)) <= total_interactions pa)%nat /\
  (inject_Z (Z.of_nat (total_interactions pa)) * high_risk_ratio pa
   <= inject_Z (Z.of_nat (list_sum (Dict.values (risk_distribution pa)))))%Q.
Proof.
  intros Hne. cbv zeta. unfold analyze_user, _detect_suspicious_patterns.
  cbn [pa_user_id pa_age total_interactions avg_risk_score high_risk_ratio
       content_types interaction_types risk_distribution].
  set (l := content_consumed p) in *.
  destruct (loop_counts l loop_init) as (C1 & C2 & C3 & _ & C5).
  destruct (loop_accumulates lower cd l loop_init) as (A1 & _).
  destruct (resolvable_scores_unit l) as [U1 U2].
  destruct (Qsum_unit _ U1) as [S1 S2].
  cbv zeta in *. set (st := fold_left (loop_step lower cd) l loop_init) in *.
  cbn [loop_init ls_content_types ls_interaction_types ls_risk_distribution
       high_risk_content_count total_risk_score Dict.values map list_sum] in *.
  rewrite Qplus_0_l in A1. rewrite Nat.add_0_r in *.
  assert (Hlen : (1 <= length l)%nat) by (destruct l; [congruence | cbn; lia]).
  assert (Hpos : (0 < inject_Z (Z.of_nat (length l)))%Q).
  { replace 0%Q with (inject_Z 0) by reflexivity. rewrite <- Zlt_Qlt. lia. }
  assert (Hres : (inject_Z (Z.of_nat (length (resolvable_scores lower cd l)))
                  <= inject_Z (Z.of_nat (length l)))%Q) by (rewrite <- Zle_Qle; lia).
  split; [reflexivity|]. split; [reflexivity|]. split; [reflexivity|].
  split; [exact Hlen|].
  split. { apply Qle_shift_div_l; [exact Hpos|]. rewrite A1. lra. }
  split. { apply Qle_shift_div_r; [exact Hpos|]. rewrite A1. lra. }
  split. { unfold int_div. apply Qle_shift_div_l; [exact Hpos|].
           rewrite Qmult_0_l. replace 0%Q with (inject_Z 0) by reflexivity.
           rewrite <- Zle_Qle. lia. }
  split. { apply int_div_le_1; lia. }
  split; [exact C1|]. split; [exact C2|]. split; [lia|].
  unfold int_div. rewrite Qmult_div_r by lra. rewrite <- Zle_Qle. lia.
Qed.

Local Abbreviation patterns_step :=
  (fun (user_patterns : dict string pattern_analysis) '(uid, p) =>
     if (length (content_consumed p) =? 0)%nat then user_patterns
     else Dict.setitem uid (analyze_user lower cd uid p) user_patterns).

Lemma patterns_get_inv (uid : string) (pa : pattern_analysis)
      (ups : dict string profile) (acc0 : dict string pattern_analysis) :
  Dict.get uid (fold_left patterns_step ups acc0) = Some pa ->
  Dict.get uid acc0 = Some pa \/
  exists p, In (uid, p) ups /\ content_consumed p <> [] /\
            pa = analyze_user lower cd uid p.
Proof.
  revert acc0. induction ups as [|[k q] ups IH]; intros acc0 H; [now left|].
  cbn [fold_left] in H. apply IH in H as [H|(p & Hin & Hne & ->)].
  - destruct (length (content_consumed q) =? 0)%nat eqn:E; [now left|].
    destruct (decide (k = uid)) as [->|Hk].
    + rewrite dict_get_setitem_eq in H. injection H as <-. right. exists q.
      split; [now left|]. split; [|reflexivity].
      intros Hc. rewrite Hc in E. discriminate.
    + rewrite dict_get_setitem_ne in H by exact Hk. now left.
  - right. exists p. split; [now right|]. now split.
Qed.

Lemma patterns_keys (ups : dict string profile) (acc0 : dict string pattern_analysis) :
  NoDup (Dict.keys acc0 ++ Dict.keys ups) ->
  Dict.keys (fold_left patterns_step ups acc0) =
  Dict.keys acc0 ++
  Dict.keys (List.filter (fun '(_, p) => negb (length (content_consumed p) =? 0)%nat) ups).
Proof.
  revert acc0. induction ups as [|[k q] ups IH]; intros acc0 Hnd.
  - cbn. now rewrite app_nil_r.
  - cbn [fold_left List.filter]. cbn [Dict.keys map fst] in Hnd.
    destruct (length (content_consumed q) =? 0)%nat eqn:E; cbn [negb].
    + apply IH. apply NoDup_app in Hnd as (H1 & H2 & H3).
      apply NoDup_cons in H3 as [_ H3]. apply NoDup_app. split; [exact H1|].
      split; [|exact H3]. intros x Hx Hx'. apply (H2 x Hx). now right.
    + assert (Hk : Dict.contains k acc0 = false).
      { destruct (Dict.contains k acc0) eqn:Ec; [|reflexivity]. exfalso.
        apply dict_contains_In_keys in Ec.
        apply NoDup_app in Hnd as (_ & H2 & _).
        apply (H2 k); [apply list_elem_of_In, Ec | now left]. }
      rewrite IH.
      * rewrite dict_keys_setitem, Hk. cbn [Dict.keys map fst].
        now rewrite <- app_assoc.
      * rewrite dict_keys_setitem, Hk. rewrite <- app_assoc. exact Hnd.
Qed.

End PatternMore.

(** X15. Every stored behaviour pattern is a well-formed summary of a
    log that is not empty: it belongs to a registered user with at
    least one interaction, carries that user's id, age and number of
    interactions, its average risk and its high-risk ratio lie between
    0 and 1, the histograms of content types and of interaction kinds
    each count every interaction once, and the risk histogram counts
    the resolvable ones only, of which the high and medium ones are a
    part. *)
Theorem pattern_is_bounded_summary :
  forall (lower : string -> string) (ups : dict string profile)
         (cd : dict string content_item) (uid : string) (pa : pattern_analysis),
    Dict.get uid (analyze_user_content_patterns lower ups cd) = Some pa ->
    (exists p, In (uid, p) ups /\ content_consumed p <> [] /\
               pa = analyze_user lower cd uid p /\
               pa_age pa = age p /\
               total_interactions pa = length (content_consumed p)) /\
    pa_user_id pa = uid /\
    (1 <= total_interactions pa)%nat /\
    (0 <= avg_risk_score pa)%Q /\ (avg_risk_score pa <= 1)%Q /\
    (0 <= high_risk_ratio pa)%Q /\ (high_risk_ratio pa <= 1)%Q /\
    list_sum (Dict.values (content_types pa)) = total_interactions pa /\
    list_sum (Dict.values (interaction_types pa)) = total_interactions pa /\
    (list_sum (Dict.values (risk_distribution pa)) <= total_interactions pa)%nat /\
    (inject_Z (Z.of_nat (total_interactions pa)) * high_risk_ratio pa
     <= inject_Z (Z.of_nat (list_sum (Dict.values (risk_distribution pa)))))%Q.
Proof.
  intros lower ups cd uid pa H. unfold analyze_user_content_patterns in H.
  apply patterns_get_inv in H as [H|(p & Hin & Hne & ->)]; [discriminate|].
  destruct (analyze_user_bounds lower cd uid p Hne)
    as (B1 & B2 & B3 & B4 & B5 & B6 & B7 & B8 & B9 & B10 & B11 & B12).
  split.
  { exists p. split; [exact Hin|]. split; [exact Hne|]. split; [reflexivity|].
    split; [exact B2 | exact B3]. }
  split; [exact B1|]. split; [exact B4|]. split; [exact B5|]. split; [exact B6|].
  split; [exact B7|]. split; [exact B8|]. split; [exact B9|]. split; [exact B10|].
  split; [exact B11 | exact B12].
Qed.

(** X16. Who gets a pattern: with distinct user ids, the pattern
    dictionary lists exactly the users whose log is not empty, in the
    order of registration; a user without interactions and an id that
    was never registered have no pattern. *)
Theorem patterns_cover_active_users :
  forall (lower : string -> string) (ups : dict string profile)
         (cd : dict string content_item),
    Dict.wf ups ->
    let patterns := analyze_user_content_patterns lower ups cd in
    Dict.keys patterns =
      Dict.keys (List.filter (fun '(_, p) => negb (length (content_consumed p) =? 0)%nat) ups) /\
    Dict.wf patterns /\
    (length patterns <= length ups)%nat /\
    (forall uid p, Dict.get uid ups = Some p ->
       Dict.get uid patterns =
       if (length (content_consumed p) =? 0)%nat then None
       else Some (analyze_user lower cd uid p)) /\
    (forall uid, Dict.get uid ups = None -> Dict.get uid patterns = None).
Proof.
  intros lower ups cd Hwf patterns.
  assert (Hkeys : Dict.keys patterns =
    Dict.keys (List.filter (fun '(_, p) => negb (length (content_consumed p) =? 0)%nat) ups)).
  { unfold patterns, analyze_user_content_patterns.
    rewrite patterns_keys; [reflexivity|]. exact Hwf. }
  assert (Hsub : forall (l : dict string profile) (f : string * profile -> bool),
             sublist (Dict.keys (List.filter f l)) (Dict.keys l)).
  { intros l f. unfold Dict.keys.
    induction l as [|x l IH]; [constructor|]. cbn [List.filter].
    destruct (f x); cbn [map]; [now apply sublist_skip | now apply sublist_cons]. }
  split; [exact Hkeys|]. split; [|split; [|split]].
  - unfold Dict.wf. rewrite Hkeys. eapply sublist_NoDup; [exact Hwf|apply Hsub].
  - rewrite <- (length_map fst patterns). fold (Dict.keys patterns). rewrite Hkeys.
    unfold Dict.keys. rewrite length_map. apply filter_length_le.
  - intros uid p Hget.
    destruct (length (content_consumed p) =? 0)%nat eqn:E.
    + apply dict_get_None_keys. rewrite Hkeys. unfold Dict.keys.
      intros Hin. apply in_map_iff in Hin as ([k q] & Hk & Hin). cbn in Hk. subst k.
      apply filter_In in Hin as [Hin Hq].
      apply (dict_In_get _ _ _ Hwf) in Hin. rewrite Hget in Hin. injection Hin as <-.
      rewrite E in Hq. discriminate.
    + apply patterns_of_user; [exact Hwf | exact Hget|].
      intros Hc. rewrite Hc in E. discriminate.
  - intros uid Hnone. apply dict_get_None_keys. rewrite Hkeys.
    apply dict_get_None_keys in Hnone. intros Hin. apply Hnone.
    apply list_elem_of_In. eapply elem_of_sublist; [apply list_elem_of_In, Hin | apply Hsub].
Qed.

Lemma peak_test (n c : nat) :
  Qltb (inject_Z (Z.of_nat n) * 0.2) (inject_Z (Z.of_nat c)) = true <-> (n < 5 * c)%nat.
Proof.
  rewrite Qltb_lt. split; intros H.
  - assert (H' : (inject_Z (Z.of_nat n) < inject_Z (Z.of_nat (5 * c)))%Q).
    { rewrite Nat2Z.inj_mul, inject_Z_mult. change (inject_Z (Z.of_nat 5)) with 5%Q. lra. }
    rewrite <- Zlt_Qlt in H'. lia.
  - assert (H' : (inject_Z (Z.of_nat n) < inject_Z (Z.of_nat (5 * c)))%Q)
      by (rewrite <- Zlt_Qlt; lia).
    rewrite Nat2Z.inj_mul, inject_Z_mult in H'. change (inject_Z (Z.of_nat 5)) with 5%Q in H'.
    lra.
Qed.

(** Fewer than five entries of a histogram can each hold more than a
    fifth of its total. *)
Lemma peaks_at_most_four {K : Type} (n : nat) (d : dict K nat) :
  list_sum (Dict.values d) = n ->
  (length (List.filter (fun hc => Qltb (inject_Z (Z.of_nat n) * 0.2)
                                       (inject_Z (Z.of_nat (snd hc)))) d) <= 4)%nat.
Proof.
  intros Hsum.
  set (P := fun hc : K * nat => Qltb (inject_Z (Z.of_nat n) * 0.2) (inject_Z (Z.of_nat (snd hc)))).
  assert (H : (length (List.filter P d) * S n <= 5 * list_sum (Dict.values d))%nat).
  { clear Hsum. unfold Dict.values. induction d as [|[k c] d IH]; [cbn; lia|].
    cbn [List.filter map snd].
    change (list_sum (c :: map snd d)) with (c + list_sum (map snd d))%nat.
    destruct (P (k, c)) eqn:E; [|lia].
    apply peak_test in E. cbn [snd length] in *. lia. }
  rewrite Hsum in H. nia.
Qed.

Lemma filter_keys_sublist {K V : Type} (f : K * V -> bool) (d : dict K V) :
  sublist (map fst (List.filter f d)) (Dict.keys d).
Proof.
  unfold Dict.keys. induction d as [|x d IH]; [constructor|]. cbn [List.filter].
  destruct (f x); cbn [map]; [now apply sublist_skip | now apply sublist_cons].
Qed.

Lemma omap_nil_iff {A B : Type} (f : A -> option B) (l : list A) :
  omap f l = [] <-> forall x, In x l -> f x = None.
Proof.
  induction l as [|x l IH]; cbn [omap list_omap].
  - split; [intros _ y [] | reflexivity].
  - destruct (f x) eqn:E.
    + split; [discriminate|]. intros H. specialize (H x (or_introl eq_refl)). congruence.
    + rewrite IH. split.
      * intros H y [<-|Hy]; [exact E | apply H, Hy].
      * intros H y Hy. apply H. now right.
Qed.

Lemma omap_length_le {A B : Type} (f : A -> option B) (l : list A) :
  (length (omap f l) <= length l)%nat.
Proof.
  induction l as [|x l IH]; [reflexivity|]. cbn [omap list_omap].
  destruct (f x); cbn [length]; lia.
Qed.

Lemma temporal_unfold (l : list interaction) (t : temporal_patterns) :
  _analyze_temporal_patterns l = Some t ->
  omap i_timestamp l <> [] /\
  t = (let timestamps := omap i_timestamp l in
       {| hour_distribution := Dict.counter (map hour timestamps);
          weekday_distribution := Dict.counter (map weekday timestamps);
          peak_hours :=
            map fst (List.filter
              (fun hc => Qltb (inject_Z (Z.of_nat (length (map hour timestamps))) * 0.2)
                              (inject_Z (Z.of_nat (snd hc))))
              (Dict.counter (map hour timestamps)));
          school_time_ratio :=
            int_div (length (List.filter
                       (fun ts => (8 <=? hour ts)%Z && (hour ts <=? 17)%Z
                                  && (weekday ts <? 5)%Z) timestamps))
                    (length timestamps);
          tp_total_interactions := length timestamps |}).
Proof.
  unfold _analyze_temporal_patterns.
  destruct (omap i_timestamp l) as [|ts0 tss]; [discriminate|].
  intros [= <-]. split; [discriminate | reflexivity].
Qed.

(** X17. The temporal summary of a log.  It is missing exactly when no
    interaction carries a timestamp.  Otherwise it counts the
    interactions with a timestamp (at least one, never more than the
    log holds), both histograms count each of them once, the share of
    school hours lies between 0 and 1, and the peak hours are hours of
    the histogram that hold more than a fifth of the timestamps each:
    there are never more than four of them, and none is listed
    twice. *)
Theorem temporal_summary :
  forall l : list interaction,
    (_analyze_temporal_patterns l = None <-> forall i, In i l -> i_timestamp i = None) /\
    (forall t, _analyze_temporal_patterns l = Some t ->
       tp_total_interactions t = length (omap i_timestamp l) /\
       (1 <= tp_total_interactions t)%nat /\
       (tp_total_interactions t <= length l)%nat /\
       list_sum (Dict.values (hour_distribution t)) = tp_total_interactions t /\
       list_sum (Dict.values (weekday_distribution t)) = tp_total_interactions t /\
       Dict.wf (hour_distribution t) /\ Dict.wf (weekday_distribution t) /\
       (0 <= school_time_ratio t)%Q /\ (school_time_ratio t <= 1)%Q /\
       (length (peak_hours t) <= 4)%nat /\ NoDup (peak_hours t) /\
       (forall h, In h (peak_hours t) <->
          exists c, Dict.get h (hour_distribution t) = Some c /\
                    (tp_total_interactions t < 5 * c)%nat)).
Proof.
  intros l.
  pose proof (omap_nil_iff i_timestamp l) as Hnil.
  pose proof (omap_length_le i_timestamp l) as Hlen.
  split.
  { rewrite <- Hnil. unfold _analyze_temporal_patterns.
    destruct (omap i_timestamp l); split; congruence. }
  intros t Ht. apply temporal_unfold in Ht as [Hne ->].
  cbn [tp_total_interactions hour_distribution weekday_distribution
       school_time_ratio peak_hours].
  revert Hne Hlen. clear Hnil. generalize (omap i_timestamp l). intros tss Hne Hlen.
  destruct (counter_total (map hour tss)) as [Hh Hhwf].
  destruct (counter_total (map weekday tss)) as [Hw Hwwf].
  rewrite length_map in Hh, Hw.
  assert (Hn : (1 <= length tss)%nat) by (destruct tss; [congruence | cbn; lia]).
  split; [reflexivity|]. split; [exact Hn|]. split; [exact Hlen|].
  split; [exact Hh|]. split; [exact Hw|]. split; [exact Hhwf|]. split; [exact Hwwf|].
  split.
  { unfold int_div. apply Qle_shift_div_l.
    - replace 0%Q with (inject_Z 0) by reflexivity. rewrite <- Zlt_Qlt. lia.
    - rewrite Qmult_0_l. replace 0%Q with (inject_Z 0) by reflexivity.
      rewrite <- Zle_Qle. lia. }
  split. { apply int_div_le_1; [apply filter_length_le | lia]. }
  rewrite (length_map hour tss).
  split. { rewrite length_map. apply peaks_at_most_four, Hh. }
  split. { eapply sublist_NoDup; [exact Hhwf | apply filter_keys_sublist]. }
  intros h. rewrite in_map_iff. split.
  - intros ([h' c] & Hfst & Hin). cbn in Hfst. subst h'.
    apply filter_In in Hin as [Hin Hp]. exists c. split.
    + apply dict_In_get; assumption.
    + apply peak_test in Hp. exact Hp.
  - intros (c & Hget & Hc). exists (h, c). split; [reflexivity|].
    apply filter_In. split; [apply dict_get_In, Hget|]. apply peak_test. exact Hc.
Qed.

Section IndicatorFacts.

Variable lower : string -> string.
Variable cd : dict string content_item.


End IndicatorFacts.


(** ** The content risk report *)

Lemma level_members_snoc (level : risk_level) (pre : dict string pattern_analysis)
      (uid : string) (pa : pattern_analysis) :
  level_members level (pre ++ [(uid, pa)]) =
  level_members level pre ++
  (if (18 <=? pa_age pa)%Z && risk_level_eqb (_get_risk_level (combined_of pa)) level
   then [summarize uid pa] else []).
Proof.
  unfold level_members. rewrite List.filter_app, map_app. cbn [List.filter].
  destruct (_ && _); reflexivity.
Qed.

Lemma bucket_append_buckets (level : risk_level) (s : user_summary)
      (a m b n : list user_summary) :
  bucket_append level s
    [(risk_level_name ALTO, a); (risk_level_name MEDIO, m);
     (risk_level_name BAIXO, b); (risk_level_name MINIMO, n)]
  = [(risk_level_name ALTO, if risk_level_eqb level ALTO then a ++ [s] else a);
     (risk_level_name MEDIO, if risk_level_eqb level MEDIO then m ++ [s] else m);
     (risk_level_name BAIXO, if risk_level_eqb level BAIXO then b ++ [s] else b);
     (risk_level_name MINIMO, if risk_level_eqb level MINIMO then n ++ [s] else n)].
Proof. destruct level; vm_compute; reflexivity. Qed.

Lemma fill_risk_summary_from (patterns pre : dict string pattern_analysis) :
  fold_left
    (fun risk_summary '(uid, pattern) =>
       if (pa_age pattern <? 18)%Z then risk_summary
       else bucket_append (_get_risk_level (combined_of pattern))
                          (summarize uid pattern) risk_summary)
    patterns (buckets_of pre)
  = buckets_of (pre ++ patterns).
Proof.
  revert pre. induction patterns as [|[uid pa] patterns IH]; intros pre.
  - now rewrite app_nil_r.
  - cbn [fold_left].
    replace (pre ++ (uid, pa) :: patterns) with ((pre ++ [(uid, pa)]) ++ patterns)
      by (now rewrite <- app_assoc).
    rewrite <- IH. f_equal.
    unfold buckets_of. cbn [map]. rewrite !level_members_snoc.
    rewrite (Z.ltb_antisym 18 (pa_age pa)).
    destruct (18 <=? pa_age pa)%Z; cbn [negb andb].
    + rewrite bucket_append_buckets.
      destruct (_get_risk_level (combined_of pa)); cbn [risk_level_eqb];
        rewrite ?app_nil_r; reflexivity.
    + now rewrite !app_nil_r.
Qed.

Lemma fill_risk_summary_closed (patterns : dict string pattern_analysis) :
  fill_risk_summary patterns = buckets_of patterns.
Proof. apply (fill_risk_summary_from patterns []). Qed.

Lemma risk_level_eqb_eq (a b : risk_level) : risk_level_eqb a b = true <-> a = b.
Proof. destruct a, b; cbn; split; congruence. Qed.


Lemma sorted_buckets_get_inv (k : string) (l : list user_summary)
      (patterns : dict string pattern_analysis) :
  Dict.get k (sort_risk_summary (buckets_of patterns)) = Some l ->
  exists level, k = risk_level_name level /\
                l = sorted_desc combined_score (level_members level patterns).
Proof.
  unfold sort_risk_summary, buckets_of. cbn [map Dict.get].
  repeat match goal with
         | |- context [decide (k = ?n)] =>
             destruct (decide (k = n)) as [->|?];
             [intros [= <-]; eexists; split; [|reflexivity]; reflexivity|]
         end.
  discriminate.
Qed.


Lemma in_level_members (level : risk_level) (s : user_summary)
      (patterns : dict string pattern_analysis) :
  In s (level_members level patterns) <->
  exists pa, In (us_user_id s, pa) patterns /\ s = summarize (us_user_id s) pa /\
             (18 <= pa_age pa)%Z /\ _get_risk_level (combined_of pa) = level.
Proof.
  unfold level_members. rewrite in_map_iff. split.
  - intros ([uid pa] & <- & Hin). apply filter_In in Hin as [Hin Hb].
    apply andb_true_iff in Hb as [Ha Hl]. apply Z.leb_le in Ha.
    apply risk_level_eqb_eq in Hl. exists pa. cbn [summarize us_user_id]. tauto.
  - intros (pa & Hin & Hs & Ha & Hl). exists (us_user_id s, pa). split; [now symmetry|].
    apply filter_In. split; [exact Hin|]. apply andb_true_iff. split.
    + apply Z.leb_le, Ha.
    + apply risk_level_eqb_eq, Hl.
Qed.


Lemma in_setitem {K V : Type} `{EqDecision K} (k k' : K) (v v' : V) (d : dict K V) :
  In (k, v) (Dict.setitem k' v' d) -> (k = k' /\ v = v') \/ In (k, v) d.
Proof.
  induction d as [|[k0 v0] d IH]; cbn [Dict.setitem].
  - intros [[= <- <-]|[]]. now left.
  - destruct (decide (k' = k0)) as [->|Hne].
    + intros [[= <- <-]|Hin]; [now left | right; now right].
    + intros [Heq|Hin]; [right; now left|].
      destruct (IH Hin) as [H|H]; [now left | right; now right].
Qed.


Lemma int_div_nonneg (a b : nat) : (0 < b)%nat -> (0 <= int_div a b)%Q.
Proof.
  intros Hb. unfold int_div. apply Qle_shift_div_l.
  - replace 0%Q with (inject_Z 0) by reflexivity. rewrite <- Zlt_Qlt. lia.
  - rewrite Qmult_0_l. replace 0%Q with (inject_Z 0) by reflexivity.
    rewrite <- Zle_Qle. lia.
Qed.


Lemma combined_unit (pa : pattern_analysis) :
  (0 <= avg_risk_score pa)%Q -> (avg_risk_score pa <= 1)%Q ->
  (0 <= high_risk_ratio pa)%Q -> (high_risk_ratio pa <= 1)%Q ->
  (0 <= combined_of pa)%Q /\ (combined_of pa <= 1)%Q.
Proof.
  intros A0 A1 R0 R1. unfold combined_of.
  set (t := py_min 1.0 (int_div (length (suspicious_indicators pa)) 5)).
  assert (T0 : (0 <= t)%Q).
  { apply py_min_ge; [discriminate | apply int_div_nonneg; lia]. }
  assert (T1 : (t <= 1)%Q).
  { pose proof (py_min_le_l 1.0 (int_div (length (suspicious_indicators pa)) 5)) as H.
    fold t in H. lra. }
  split; lra.
Qed.

Section PipelineFacts.

Variable lower : string -> string.
Variable cd : dict string content_item.

Lemma patterns_In_inv (uid : string) (pa : pattern_analysis)
      (ups : dict string profile) (acc0 : dict string pattern_analysis) :
  In (uid, pa)
     (fold_left
        (fun (user_patterns : dict string pattern_analysis) '(uid, p) =>
           if (length (content_consumed p) =? 0)%nat then user_patterns
           else Dict.setitem uid (analyze_user lower cd uid p) user_patterns)
        ups acc0) ->
  In (uid, pa) acc0 \/
  exists p, In (uid, p) ups /\ content_consumed p <> [] /\
            pa = analyze_user lower cd uid p.
Proof.
  revert acc0. induction ups as [|[k q] ups IH]; intros acc0 H; [now left|].
  cbn [fold_left] in H. apply IH in H as [H|(p & Hin & Hne & ->)].
  - destruct (length (content_consumed q) =? 0)%nat eqn:E; [now left|].
    apply in_setitem in H as [[-> ->]|H]; [|now left].
    right. exists q. split; [now left|]. split; [|reflexivity].
    intros Hc. rewrite Hc in E. discriminate.
  - right. exists p. split; [now right|]. now split.
Qed.

End PipelineFacts.

(** X20. The two analyses composed, as the example script runs them:
    every user listed in the content report, at whatever level, is a
    registered user of 18 or more with at least one interaction, the
    summary repeats that user's age and number of interactions, and the
    combined score and its two ratios lie between 0 and 1. *)
Theorem listed_users_are_active_adults :
  forall (lower : string -> string) (now : datetime) (ups : dict string profile)
         (cd : dict string content_item) (k : string) (l : list user_summary)
         (s : user_summary),
    Dict.get k (user_risk_analysis
                  (generate_content_risk_report lower now
                     (analyze_user_content_patterns lower ups cd) cd)) = Some l ->
    In s l ->
    (0 <= combined_score s)%Q /\ (combined_score s <= 1)%Q /\
    (0 <= us_avg_risk_score s)%Q /\ (us_avg_risk_score s <= 1)%Q /\
    (0 <= us_high_risk_ratio s)%Q /\ (us_high_risk_ratio s <= 1)%Q /\
    k = risk_level_name (_get_risk_level (combined_score s)) /\
    exists p, In (us_user_id s, p) ups /\ us_age s = age p /\ (18 <= age p)%Z /\
              content_consumed p <> [] /\
              us_total_interactions s = length (content_consumed p).
Proof.
  intros lower now ups cd k l s Hget Hin.
  unfold generate_content_risk_report in Hget. cbn [user_risk_analysis] in Hget.
  rewrite fill_risk_summary_closed in Hget.
  apply sorted_buckets_get_inv in Hget as (level & -> & ->).
  assert (Hin' : In s (level_members level (analyze_user_content_patterns lower ups cd))).
  { eapply Permutation_in; [apply sorted_desc_perm | exact Hin]. }
  apply in_level_members in Hin' as (pa & Hpa & Hs & Hage & Hlvl).
  unfold analyze_user_content_patterns in Hpa.
  apply patterns_In_inv in Hpa as [[]|(p & Hp & Hne & ->)].
  destruct (analyze_user_bounds lower cd (us_user_id s) p Hne)
    as (B1 & B2 & B3 & B4 & B5 & B6 & B7 & B8 & _).
  destruct (combined_unit _ B5 B6 B7 B8) as [C0 C1].
  rewrite Hs. cbn [summarize combined_score us_avg_risk_score us_high_risk_ratio
                   us_age us_total_interactions us_user_id].
  split; [exact C0|]. split; [exact C1|]. split; [exact B5|]. split; [exact B6|].
  split; [exact B7|]. split; [exact B8|]. split; [now rewrite Hlvl|].
  exists p. split; [exact Hp|]. split; [exact B2|]. split; [now rewrite <- B2|].
  split; [exact Hne | exact B3].
Qed.

Section ContentListing.

Variable lower : string -> string.
Variable patterns : dict string pattern_analysis.


End ContentListing.


(** ** Similar contents *)

Section SimilarityFacts.

Variable lower : string -> string.
Variable words : string -> gset string.

Lemma text_similarity_unit (t1 t2 : string) :
  (0 <= _calculate_text_similarity lower words t1 t2)%Q /\
  (_calculate_text_similarity lower words t1 t2 <= 1)%Q.
Proof.
  unfold _calculate_text_similarity.
  destruct (_ || _); [split; discriminate|].
  destruct (_ || _); [split; discriminate|].
  destruct (0 <? size (words (lower t1) ∪ words (lower t2)))%nat eqn:E;
    [|split; discriminate].
  apply Nat.ltb_lt in E. split.
  - apply int_div_nonneg, E.
  - apply int_div_le_1; [|exact E]. apply subseteq_size.
    intros x Hx. apply elem_of_intersection in Hx as [Hx _].
    apply elem_of_union. now left.
Qed.

Lemma text_similarity_sym (t1 t2 : string) :
  _calculate_text_similarity lower words t1 t2 =
  _calculate_text_similarity lower words t2 t1.
Proof.
  unfold _calculate_text_similarity.
  rewrite (orb_comm (String.eqb t1 "")).
  rewrite (orb_comm (bool_decide (words (lower t1) = ∅))).
  assert (Hi : words (lower t1) ∩ words (lower t2) = words (lower t2) ∩ words (lower t1)).
  { apply leibniz_equiv. intros x. rewrite !elem_of_intersection. tauto. }
  assert (Hu : words (lower t1) ∪ words (lower t2) = words (lower t2) ∪ words (lower t1)).
  { apply leibniz_equiv. intros x. rewrite !elem_of_union. tauto. }
  rewrite Hi, Hu. reflexivity.
Qed.

Lemma text_similarity_no_words (t1 t2 : string) :
  words (lower t1) = ∅ \/ words (lower t2) = ∅ ->
  _calculate_text_similarity lower words t1 t2 = 0.0%Q.
Proof.
  intros H. unfold _calculate_text_similarity.
  destruct (_ || _); [reflexivity|].
  destruct H as [H|H]; rewrite H.
  - rewrite bool_decide_eq_true_2 by reflexivity. reflexivity.
  - rewrite (bool_decide_eq_true_2 (∅ = ∅)) by reflexivity.
    rewrite orb_true_r. reflexivity.
Qed.

End SimilarityFacts.

(** X22. The similarity of two contents is a number between 0 and 1
    that does not depend on the order of the two.  The type counts for
    0.3, the closeness of the target ages for 0.3 and the shared words
    for 0.4: so two contents of different types reach the clustering
    threshold 0.7 only with the same target age and a text similarity
    of 1, and a content without words in title and description stays
    below the threshold with every other content. *)
Theorem similarity_symmetric_bounded :
  forall (lower : string -> string) (words : string -> gset string)
         (c1 c2 : content_item),
    let sim := calculate_content_similarity lower words in
    let text := _calculate_text_similarity lower words
                  (similarity_text (c_metadata c1)) (similarity_text (c_metadata c2)) in
    (0 <= sim c1 c2)%Q /\ (sim c1 c2 <= 1)%Q /\
    (sim c1 c2 == sim c2 c1)%Q /\
    (c_content_type c1 <> c_content_type c2 ->
     (similarity_threshold <= sim c1 c2)%Q ->
     (default 100%Q (target_age_max (c_metadata c1))
      == default 100%Q (target_age_max (c_metadata c2)))%Q /\ (text == 1)%Q) /\
    (words (lower (similarity_text (c_metadata c1))) = ∅ ->
     (sim c1 c2 <= 0.6)%Q /\ (sim c1 c2 < similarity_threshold)%Q).
Proof.
  intros lower words c1 c2 sim text. subst sim text.
  unfold calculate_content_similarity.
  set (a1 := default 100%Q (target_age_max (c_metadata c1))).
  set (a2 := default 100%Q (target_age_max (c_metadata c2))).
  set (t12 := _calculate_text_similarity lower words
                (similarity_text (c_metadata c1)) (similarity_text (c_metadata c2))).
  rewrite <- (text_similarity_sym lower words
                (similarity_text (c_metadata c1)) (similarity_text (c_metadata c2))).
  fold t12.
  destruct (text_similarity_unit lower words
              (similarity_text (c_metadata c1)) (similarity_text (c_metadata c2)))
    as [T0 T1]. fold t12 in T0, T1.
  rewrite (String.eqb_sym (c_content_type c2)).
  assert (Habs : Qabs (a2 - a1) = Qabs (a1 - a2)) by apply Qabs_Qminus.
  set (g12 := py_max 0 (1 - Qabs (a1 - a2) / 20)).
  set (g21 := py_max 0 (1 - Qabs (a2 - a1) / 20)).
  assert (G : (g21 == g12)%Q).
  { unfold g12, g21. rewrite !py_max_Qmax. rewrite Habs. reflexivity. }
  assert (G0 : (0 <= g12)%Q).
  { unfold g12. rewrite py_max_Qmax. apply Q.le_max_l. }
  assert (G1 : (g12 <= 1)%Q).
  { unfold g12. rewrite py_max_Qmax. apply Q.max_lub; [discriminate|].
    pose proof (Qabs_nonneg (a1 - a2)) as Hn.
    assert (H20 : (0 <= Qabs (a1 - a2) / 20)%Q).
    { apply Qle_shift_div_l; [reflexivity | lra]. }
    lra. }
  set (s1 := if String.eqb (c_content_type c1) (c_content_type c2)
             then (0.0 + 0.3)%Q else 0.0%Q).
  assert (S0 : (0 <= s1)%Q) by (unfold s1; destruct (String.eqb _ _); discriminate).
  assert (S1 : (s1 <= 0.3)%Q) by (unfold s1; destruct (String.eqb _ _); discriminate).
  set (raw := (s1 + g12 * 0.3 + t12 * 0.4)%Q).
  assert (Hraw : (0 <= raw)%Q /\ (raw <= 1)%Q) by (unfold raw; split; lra).
  assert (Hmin : (py_min 1.0 raw == raw)%Q).
  { rewrite py_min_Qmin. apply Q.min_r. lra. }
  split; [rewrite Hmin; tauto|]. split; [rewrite Hmin; tauto|].
  split.
  { rewrite !py_min_Qmin. apply Q.min_compat; [reflexivity|]. unfold raw.
    rewrite G. reflexivity. }
  split.
  - intros Hne Hthr. rewrite Hmin in Hthr. unfold raw, similarity_threshold in Hthr.
    assert (Es : s1 = 0.0%Q).
    { unfold s1. destruct (String.eqb _ _) eqn:E; [|reflexivity].
      apply String.eqb_eq in E. contradiction. }
    rewrite Es in Hthr.
    assert (Hg : (g12 == 1)%Q) by lra.
    assert (Ht : (t12 == 1)%Q) by lra.
    split; [|exact Ht].
    unfold g12 in Hg. rewrite py_max_Qmax in Hg.
    destruct (Q.max_spec 0 (1 - Qabs (a1 - a2) / 20)) as [[_ Hm]|[_ Hm]];
      rewrite Hm in Hg; [|discriminate].
    assert (Hd : (Qabs (a1 - a2) / 20 == 0)%Q) by lra.
    assert (Hd' : (Qabs (a1 - a2) == 0)%Q).
    { rewrite <- (Qmult_div_r (Qabs (a1 - a2)) 20) by discriminate. rewrite Hd. reflexivity. }
    pose proof (Qle_Qabs (a1 - a2)) as L1.
    pose proof (Qle_Qabs (a2 - a1)) as L2. rewrite Habs in L2. lra.
  - intros Hw.
    assert (Et : t12 = 0.0%Q) by (apply text_similarity_no_words; now left).
    rewrite Hmin. unfold raw, similarity_threshold. rewrite Et. split; lra.
Qed.

Lemma dict_In_keys_get {K V : Type} `{EqDecision K} (k : K) (d : dict K V) :
  In k (Dict.keys d) -> exists v, Dict.get k d = Some v.
Proof.
  intros Hin. destruct (Dict.get k d) as [v|] eqn:E; [now exists v|].
  apply dict_get_None_keys in E. contradiction.
Qed.

Section ClusterFacts.

Variable lower : string -> string.
Variable words : string -> gset string.
Variable cd : dict string content_item.

Lemma cluster_scan_spec (id1 : string) (ids : list string) (cl : list string)
      (P : gset string) :
  In id1 (Dict.keys cd) -> (forall x, In x ids -> In x (Dict.keys cd)) ->
  exists new P',
    cluster_scan lower words cd id1 ids (cl, P) = Some (cl ++ new, P') /\
    (forall x, x ∈ P' <-> x ∈ P \/ In x new) /\
    NoDup new /\
    (forall x, In x new -> (x ∉ P) /\ In x ids /\ similar lower words cd id1 x).
Proof.
  intros H1. revert cl P. induction ids as [|id2 rest IH]; intros cl P Hids.
  - exists [], P. cbn [cluster_scan]. rewrite app_nil_r.
    split; [reflexivity|]. split; [intros x; cbn; tauto|].
    split; [constructor | intros x []].
  - assert (Hrest : forall x, In x rest -> In x (Dict.keys cd))
      by (intros x Hx; apply Hids; now right).
    cbn [cluster_scan snd fst].
    destruct (decide (id2 ∈ P)) as [Hp|Hp].
    + rewrite bool_decide_eq_true_2 by exact Hp.
      destruct (IH cl P Hrest) as (new & P' & E & HP & Hnd & Hnew).
      exists new, P'. split; [exact E|]. split; [exact HP|]. split; [exact Hnd|].
      intros x Hx. destruct (Hnew x Hx) as (A & B & C). split; [exact A|].
      split; [now right | exact C].
    + rewrite bool_decide_eq_false_2 by exact Hp.
      destruct (dict_In_keys_get id1 cd H1) as [c1 E1].
      destruct (dict_In_keys_get id2 cd (Hids id2 (or_introl eq_refl))) as [c2 E2].
      rewrite E1, E2.
      destruct (Qle_bool similarity_threshold
                         (calculate_content_similarity lower words c1 c2)) eqn:Es.
      * apply Qle_bool_iff in Es.
        destruct (IH (cl ++ [id2]) ({[id2]} ∪ P) Hrest) as (new & P' & E & HP & Hnd & Hnew).
        exists (id2 :: new), P'. split.
        { rewrite E. now rewrite <- app_assoc. }
        split.
        { intros x. rewrite HP, elem_of_union, elem_of_singleton. cbn [In].
          split; [intros [[->|H]|H]; auto | intros [H|[<-|H]]; auto]. }
        split.
        { constructor; [|exact Hnd]. intros Hin. apply list_elem_of_In in Hin.
          destruct (Hnew id2 Hin) as (A & _). apply A.
          apply elem_of_union. left. now apply elem_of_singleton. }
        intros x [<-|Hx].
        { split; [exact Hp|]. split; [now left|]. exists c1, c2. now repeat split. }
        destruct (Hnew x Hx) as (A & B & C). split.
        { intros Hc. apply A. apply elem_of_union. now right. }
        split; [now right | exact C].
      * destruct (IH cl P Hrest) as (new & P' & E & HP & Hnd & Hnew).
        exists new, P'. split; [exact E|]. split; [exact HP|]. split; [exact Hnd|].
        intros x Hx. destruct (Hnew x Hx) as (A & B & C). split; [exact A|].
        split; [now right | exact C].
Qed.

Lemma clusters_loop_spec (ids : list string) (P : gset string)
      (clusters : list (list string)) :
  (forall x, In x ids -> In x (Dict.keys cd)) ->
  exists found,
    clusters_loop lower words cd ids P clusters = Some (clusters ++ found) /\
    NoDup (concat found) /\
    (forall x, In x (concat found) -> (x ∉ P) /\ In x ids) /\
    (forall c, In c found -> grouped lower words cd c).
Proof.
  revert P clusters. induction ids as [|id1 rest IH]; intros P clusters Hids.
  - exists []. cbn [clusters_loop concat]. rewrite app_nil_r.
    split; [reflexivity|]. split; [constructor|]. split; [intros x []|intros c []].
  - assert (Hrest : forall x, In x rest -> In x (Dict.keys cd))
      by (intros x Hx; apply Hids; now right).
    cbn [clusters_loop].
    destruct (decide (id1 ∈ P)) as [Hp|Hp].
    + rewrite bool_decide_eq_true_2 by exact Hp.
      destruct (IH P clusters Hrest) as (found & E & Hnd & Hout & Hgood).
      exists found. split; [exact E|]. split; [exact Hnd|]. split; [|exact Hgood].
      intros x Hx. destruct (Hout x Hx). split; [assumption | now right].
    + rewrite bool_decide_eq_false_2 by exact Hp.
      destruct (cluster_scan_spec id1 rest [id1] ({[id1]} ∪ P)
                  (Hids id1 (or_introl eq_refl)) Hrest)
        as (new & P1 & E & HP & Hnd & Hnew).
      rewrite E. cbn [app].
      assert (Hsub : forall x, x ∈ P -> x ∈ P1).
      { intros x Hx. apply HP. left. apply elem_of_union. now right. }
      assert (Hcl : forall x, In x (id1 :: new) -> (x ∈ P1) /\ (x ∉ P) /\ In x (id1 :: rest)).
      { intros x [<-|Hx].
        - split; [|split; [exact Hp | now left]].
          apply HP. left. apply elem_of_union. left. now apply elem_of_singleton.
        - destruct (Hnew x Hx) as (A & B & _). split; [apply HP; now right|].
          split; [|now right]. intros Hc. apply A. apply elem_of_union. now right. }
      assert (Hndc : NoDup (id1 :: new)).
      { constructor; [|exact Hnd]. intros Hin. apply list_elem_of_In in Hin.
        destruct (Hnew id1 Hin) as (A & _). apply A.
        apply elem_of_union. left. now apply elem_of_singleton. }
      destruct (1 <? length (id1 :: new))%nat eqn:El.
      * destruct (IH P1 (clusters ++ [id1 :: new]) Hrest) as (found & E' & Hnd' & Hout & Hgood).
        exists ((id1 :: new) :: found). split.
        { rewrite E'. now rewrite <- app_assoc. }
        split.
        { cbn [concat]. apply NoDup_app. split; [exact Hndc|]. split; [|exact Hnd'].
          intros x Hx Hx'. apply list_elem_of_In in Hx, Hx'.
          destruct (Hcl x Hx) as (A & _). destruct (Hout x Hx') as (B & _). contradiction. }
        split.
        { intros x Hx. cbn [concat] in Hx. apply in_app_iff in Hx as [Hx|Hx].
          - destruct (Hcl x Hx) as (_ & A & B). now split.
          - destruct (Hout x Hx) as (A & B). split; [|now right].
            intros Hc. apply A, Hsub, Hc. }
        intros c [<-|Hc]; [|apply Hgood, Hc].
        exists id1, new. split; [reflexivity|]. split.
        { intros ->. cbn in El. discriminate. }
        split; [apply Hids; now left|].
        intros x Hx. destruct (Hnew x Hx) as (_ & B & C). split; [apply Hrest, B | exact C].
      * destruct (IH P1 clusters Hrest) as (found & E' & Hnd' & Hout & Hgood).
        exists found. split; [exact E'|]. split; [exact Hnd'|]. split; [|exact Hgood].
        intros x Hx. destruct (Hout x Hx) as (A & B). split; [|now right].
        intros Hc. apply A, Hsub, Hc.
Qed.

End ClusterFacts.

(** X23. Clustering never fails on a lookup and returns groups that
    do not overlap: no content id is in two clusters or twice in one.
    Every cluster has a head and at least one more member, all of them
    ids of the catalog, and each member reached the threshold 0.7 with
    the head (not with the other members). *)
Theorem clusters_are_disjoint_groups :
  forall (lower : string -> string) (words : string -> gset string)
         (cd : dict string content_item),
    exists clusters,
      find_content_clusters lower words cd = Some clusters /\
      NoDup (concat clusters) /\
      (forall c, In c clusters ->
         (2 <= length c)%nat /\
         exists h t, c = h :: t /\ In h (Dict.keys cd) /\
           forall x, In x t ->
             In x (Dict.keys cd) /\
             exists c1 c2,
               Dict.get h cd = Some c1 /\ Dict.get x cd = Some c2 /\
               (0.7 <= calculate_content_similarity lower words c1 c2)%Q).
Proof.
  intros lower words cd. unfold find_content_clusters.
  destruct (clusters_loop_spec lower words cd (Dict.keys cd) ∅ [] (fun x H => H))
    as (found & E & Hnd & _ & Hgood).
  exists found. split; [exact E|]. split; [exact Hnd|].
  intros c Hc. destruct (Hgood c Hc) as (h & t & -> & Hne & Hh & Ht).
  split; [destruct t; [congruence | cbn; lia]|].
  exists h, t. split; [reflexivity|]. split; [exact Hh|].
  intros x Hx. destruct (Ht x Hx) as (A & c1 & c2 & B & C & D).
  split; [exact A|]. exists c1, c2. now repeat split.
Qed.

(** ** The pattern detectors *)

Lemma graph_edges_from_in (adj : nx_graph) (seen : gset string) (u v : string) :
  In (u, v) (graph_edges_from adj seen) ->
  exists nbrs, In (u, nbrs) adj /\ In v (Dict.keys nbrs).
Proof.
  revert seen. induction adj as [|[n nbrs] rest IH]; intros seen; cbn [graph_edges_from].
  - intros [].
  - rewrite in_app_iff, in_map_iff. intros [(nbr & [= <- <-] & Hin)|Hin].
    + apply filter_In in Hin as [Hin _]. exists nbrs. split; [now left | exact Hin].
    + destruct (IH _ Hin) as (nbrs' & H1 & H2). exists nbrs'. split; [now right | exact H2].
Qed.

Lemma graph_edges_has_edge (g : nx_graph) (u v : string) :
  Dict.wf g -> In (u, v) (graph_edges g) -> Graph.has_edge g u v = true.
Proof.
  intros Hwf Hin. apply graph_edges_from_in in Hin as (nbrs & H1 & H2).
  unfold Graph.has_edge. rewrite (dict_In_get _ _ _ Hwf H1).
  destruct (dict_In_keys_get v nbrs H2) as [d Hd].
  unfold Dict.contains. now rewrite Hd.
Qed.

(** X24. An age anomaly is an edge of the graph between two registered
    users, one of 18 or more and the other below 18, whose ages differ
    by the threshold at least.  The entry names the adult and the minor
    with their ages, its gap is the adult's age minus the minor's, and
    its risk is the gap over 30, capped at 1: at least 0.5 with the
    threshold 15.  The list is sorted by risk, the greater first, and
    holds one entry per edge at most. *)
Theorem age_anomalies_are_adult_minor_edges :
  forall (threshold : Z) (g : nx_graph) (ups : dict string profile),
    Dict.wf g ->
    let anomalies := detect_age_based_anomalies threshold g ups in
    StronglySorted (desc aa_risk_score) anomalies /\
    (length anomalies <= length (graph_edges g))%nat /\
    (forall a, In a anomalies ->
       (exists p1 p2,
          Dict.get (adult_id a) ups = Some p1 /\ Dict.get (minor_id a) ups = Some p2 /\
          adult_age a = age p1 /\ minor_age a = age p2) /\
       (18 <= adult_age a)%Z /\ (minor_age a < 18)%Z /\
       aa_age_gap a = (adult_age a - minor_age a)%Z /\
       (threshold <= aa_age_gap a)%Z /\
       (aa_risk_score a == Qmin 1 (inject_Z (aa_age_gap a) / 30))%Q /\
       (0 < aa_risk_score a)%Q /\ (aa_risk_score a <= 1)%Q /\
       ((15 <= threshold)%Z -> (0.5 <= aa_risk_score a)%Q) /\
       (Graph.has_edge g (adult_id a) (minor_id a) = true \/
        Graph.has_edge g (minor_id a) (adult_id a) = true)).
Proof.
  intros threshold g ups Hwf anomalies. subst anomalies.
  unfold detect_age_based_anomalies.
  split; [apply sorted_desc_sorted|]. split.
  { rewrite sorted_desc_length. apply omap_length_le. }
  intros a Ha.
  assert (Ha' : In a (omap (age_anomaly_of threshold ups) (graph_edges g))).
  { eapply Permutation_in; [apply sorted_desc_perm | exact Ha]. }
  apply list_elem_of_In, list_elem_of_omap in Ha' as ([u v] & Huv & Hof).
  apply list_elem_of_In in Huv. apply (graph_edges_has_edge g u v Hwf) in Huv.
  unfold age_anomaly_of in Hof.
  destruct (Dict.get u ups) as [p1|] eqn:E1; [|discriminate].
  destruct (Dict.get v ups) as [p2|] eqn:E2; [|discriminate].
  destruct ((threshold <=? Z.abs (age p1 - age p2))%Z && _) eqn:Eb; [|discriminate].
  injection Hof as <-.
  apply andb_true_iff in Eb as [Eg Ec]. apply Z.leb_le in Eg.
  cbn [adult_id minor_id adult_age minor_age aa_age_gap aa_risk_score].
  assert (Hrisk : forall gap : Z,
             (1 <= gap)%Z -> (threshold <= gap)%Z ->
             (py_min 1.0 (inject_Z gap / 30) == Qmin 1 (inject_Z gap / 30))%Q /\
             (0 < py_min 1.0 (inject_Z gap / 30))%Q /\
             (py_min 1.0 (inject_Z gap / 30) <= 1)%Q /\
             ((15 <= threshold)%Z -> (0.5 <= py_min 1.0 (inject_Z gap / 30))%Q)).
  { intros gap Hg1 Hgt.
    assert (Hq : (1 <= inject_Z gap)%Q)
      by (replace 1%Q with (inject_Z 1) by reflexivity; rewrite <- Zle_Qle; lia).
    assert (Hd : (0 < inject_Z gap / 30)%Q) by (apply Qlt_shift_div_l; [reflexivity | lra]).
    assert (Hm : (py_min 1.0 (inject_Z gap / 30) == Qmin 1 (inject_Z gap / 30))%Q).
    { rewrite py_min_Qmin. apply Q.min_compat; reflexivity. }
    split; [exact Hm|]. rewrite Hm. split.
    { destruct (Q.min_spec 1 (inject_Z gap / 30)) as [[_ H]|[_ H]]; rewrite H; lra. }
    split; [apply Q.le_min_l|].
    intros H15.
    assert (Hq15 : (15 <= inject_Z gap)%Q)
      by (replace 15%Q with (inject_Z 15) by reflexivity; rewrite <- Zle_Qle; lia).
    assert (Hd15 : (0.5 <= inject_Z gap / 30)%Q) by (apply Qle_shift_div_l; [reflexivity | lra]).
    destruct (Q.min_spec 1 (inject_Z gap / 30)) as [[_ H]|[_ H]]; rewrite H; lra. }
  apply orb_true_iff in Ec as [Ec|Ec]; apply andb_true_iff in Ec as [Ea Em].
  - rewrite Ea, Em. apply Z.leb_le in Ea. apply Z.ltb_lt in Em.
    assert (Hgap : Z.abs (age p1 - age p2) = (age p1 - age p2)%Z) by lia.
    destruct (Hrisk (Z.abs (age p1 - age p2)) ltac:(lia) Eg) as (R1 & R2 & R3 & R4).
    split; [exists p1, p2; now repeat split|].
    split; [exact Ea|]. split; [exact Em|]. split; [exact Hgap|]. split; [exact Eg|].
    split; [exact R1|]. split; [exact R2|]. split; [exact R3|]. split; [exact R4|].
    now left.
  - apply Z.leb_le in Ea. apply Z.ltb_lt in Em.
    assert (E18 : (18 <=? age p1)%Z = false) by (apply Z.leb_gt; lia).
    assert (E18' : (age p2 <? 18)%Z = false) by (apply Z.ltb_ge; lia).
    rewrite E18, E18'.
    assert (Hgap : Z.abs (age p1 - age p2) = (age p2 - age p1)%Z) by lia.
    destruct (Hrisk (Z.abs (age p1 - age p2)) ltac:(lia) Eg) as (R1 & R2 & R3 & R4).
    split; [exists p2, p1; now repeat split|].
    split; [exact Ea|]. split; [exact Em|]. split; [exact Hgap|]. split; [exact Eg|].
    split; [exact R1|]. split; [exact R2|]. split; [exact R3|]. split; [exact R4|].
    now right.
Qed.



Lemma child_content_hours_le (l : list interaction) :
  (length (child_content_hours l) <= length l)%nat.
Proof. apply omap_length_le. Qed.


(** ** The properties on concrete stores *)

Lemma reachable_views (n : nat) (uid cid ctype : string) (md : option metadata)
      (st : analyzer) :
  reachable st -> reachable (views n uid cid ctype md st).
Proof.
  intros H. induction n as [|n IH]; [exact H|].
  cbn [views]. apply reachable_add_content_interaction, IH.
Qed.

Lemma reachable_pair_watch : reachable pair_watch.
Proof.
  apply reachable_views, reachable_add_connection.
  do 2 apply reachable_add_user. apply reachable_init.
Qed.



Lemma reachable_graph_inv_witness : graph_inv pair_watch.
Proof. exact (reachable_graph_inv pair_watch reachable_pair_watch). Defined.

Lemma reachable_catalog_inv_witness : catalog_inv pair_watch.
Proof. exact (reachable_catalog_inv pair_watch reachable_pair_watch). Defined.

Lemma catalog_keeps_first_description_witness :
  Dict.contains "A" (user_profiles pair_linked) = true /\
  Dict.keys (content_data
               (snd (add_content_interaction pair_linked "A" "toy" "kids_video" "view"
                       (Some for_age_5) noon noon))) = ["toy"].
Proof.
  assert (H : Dict.contains "A" (user_profiles pair_linked) = true) by reflexivity.
  split; [exact H|].
  destruct (catalog_keeps_first_description pair_linked "A" "toy" "kids_video" "view"
              (Some for_age_5) noon noon H) as (_ & Hnew & _).
  exact (proj2 (Hnew eq_refl)).
Defined.

Lemma detect_record_bounds_witness :
  exists r,
    fst (detect_suspicious_content_patterns pair_watch) = [r] /\
    (18 <= s_age r)%Z /\ (6 <= child_content_count r)%nat /\
    (0.2 < suspicion_score r)%Q /\ (suspicion_score r <= 1)%Q.
Proof.
  assert (H : exists r, fst (detect_suspicious_content_patterns pair_watch) = [r]).
  { vm_compute. eexists. reflexivity. }
  destruct H as [r H]. exists r. split; [exact H|].
  destruct (detect_record_bounds pair_watch r) as (_ & Ha & Hc & _ & _ & _ & Hs & Hs').
  { rewrite H. now left. }
  split; [exact Ha|]. split; [exact Hc|]. split; [exact Hs | exact Hs'].
Defined.

Lemma detect_one_record_per_user_witness :
  Dict.wf (user_profiles pair_watch) /\
  NoDup (map s_user_id (fst (detect_suspicious_content_patterns pair_watch))).
Proof.
  assert (Hwf : Dict.wf (user_profiles pair_watch)).
  { apply (bool_decide_unpack _). vm_compute. exact I. }
  split; [exact Hwf|].
  exact (proj1 (detect_one_record_per_user pair_watch Hwf)).
Defined.

Lemma pair_watch_report :
  exists rep st',
    generate_risk_report Nx.connected_components Nx.density
      Nx.average_clustering Nx.is_connected Nx.diameter
      Nx.no_centrality Nx.no_centrality Nx.no_centrality Nx.no_centrality
      pair_watch noon = (Some rep, st').
Proof. vm_compute. do 2 eexists. reflexivity. Qed.


Lemma report_counters_consistent_witness :
  exists rep st',
    generate_risk_report Nx.connected_components Nx.density
      Nx.average_clustering Nx.is_connected Nx.diameter
      Nx.no_centrality Nx.no_centrality Nx.no_centrality Nx.no_centrality
      pair_watch noon = (Some rep, st') /\
    sm_total_users (r_summary rep) = length (user_profiles pair_watch) /\
    total_connections (r_summary rep) = Graph.number_of_edges (graph pair_watch).
Proof.
  destruct pair_watch_report as (rep & st' & H). exists rep, st'.
  assert (Hwf : Dict.wf (user_profiles pair_watch)).
  { apply (bool_decide_unpack _). vm_compute. exact I. }
  pose proof (report_counters_consistent
                Nx.connected_components Nx.density
                Nx.average_clustering Nx.is_connected Nx.diameter
                Nx.no_centrality Nx.no_centrality Nx.no_centrality Nx.no_centrality
                pair_watch noon rep st' Hwf H) as Hrep.
  cbv zeta in Hrep. destruct Hrep as (H1 & H2 & _).
  split; [exact H|]. split; [exact H1 | exact H2].
Defined.

Lemma pattern_is_bounded_summary_witness :
  exists pa,
    Dict.get "A" (analyze_user_content_patterns PyStr.latin1_lower
                    (user_profiles pair_watch) (content_data pair_watch)) = Some pa /\
    (1 <= total_interactions pa)%nat /\
    (0 <= avg_risk_score pa)%Q /\ (avg_risk_score pa <= 1)%Q.
Proof.
  assert (H : exists pa,
             Dict.get "A" (analyze_user_content_patterns PyStr.latin1_lower
                             (user_profiles pair_watch) (content_data pair_watch))
             = Some pa).
  { vm_compute. eexists. reflexivity. }
  destruct H as [pa H]. exists pa. split; [exact H|].
  destruct (pattern_is_bounded_summary _ _ _ _ _ H) as (_ & _ & H1 & H2 & H3 & _).
  split; [exact H1|]. split; [exact H2 | exact H3].
Defined.

Lemma patterns_cover_active_users_witness :
  Dict.wf (user_profiles pair_watch) /\
  Dict.wf (analyze_user_content_patterns PyStr.latin1_lower
             (user_profiles pair_watch) (content_data pair_watch)).
Proof.
  assert (Hwf : Dict.wf (user_profiles pair_watch)).
  { apply (bool_decide_unpack _). vm_compute. exact I. }
  split; [exact Hwf|].
  pose proof (patterns_cover_active_users PyStr.latin1_lower (user_profiles pair_watch)
                (content_data pair_watch) Hwf) as H.
  cbv zeta in H. exact (proj1 (proj2 H)).
Defined.

Lemma listed_users_are_active_adults_witness :
  exists s,
    Dict.get (risk_level_name ALTO)
      (user_risk_analysis
         (generate_content_risk_report PyStr.latin1_lower noon
            (analyze_user_content_patterns PyStr.latin1_lower
               (user_profiles pair_watch) (content_data pair_watch))
            (content_data pair_watch))) = Some [s] /\
    (0 <= combined_score s)%Q /\ (combined_score s <= 1)%Q.
Proof.
  assert (H : exists s,
    Dict.get (risk_level_name ALTO)
      (user_risk_analysis
         (generate_content_risk_report PyStr.latin1_lower noon
            (analyze_user_content_patterns PyStr.latin1_lower
               (user_profiles pair_watch) (content_data pair_watch))
            (content_data pair_watch))) = Some [s]).
  { vm_compute. eexists. reflexivity. }
  destruct H as [s H]. exists s. split; [exact H|].
  destruct (listed_users_are_active_adults _ _ _ _ _ _ s H (or_introl eq_refl))
    as (H0 & H1 & _).
  split; [exact H0 | exact H1].
Defined.

Lemma age_anomalies_are_adult_minor_edges_witness :
  Dict.wf (graph pair_linked) /\
  StronglySorted (desc aa_risk_score)
    (detect_age_based_anomalies 15 (graph pair_linked) (user_profiles pair_linked)).
Proof.
  assert (Hwf : Dict.wf (graph pair_linked)).
  { apply (bool_decide_unpack _). vm_compute. exact I. }
  split; [exact Hwf|].
  pose proof (age_anomalies_are_adult_minor_edges 15 (graph pair_linked)
                (user_profiles pair_linked) Hwf) as H.
  cbv zeta in H. exact (proj1 H).
Defined.

(** The two friends of [pair_linked] are 28 years apart: one anomaly,
    of risk 28/30. *)
Example pair_age_anomaly :
  exists a,
    detect_age_based_anomalies 15 (graph pair_linked) (user_profiles pair_linked) = [a] /\
    adult_id a = "A" /\ minor_id a = "B" /\ aa_age_gap a = 28%Z /\
    (aa_risk_score a == 28 # 30)%Q.
Proof. eexists. split; [vm_compute; reflexivity|]. repeat split. Qed.

(** On [pair_watch], A's six views are of a content for age 5: the
    pattern has average risk 0.8, every view counts as high risk, and
    the content report lists A under ALTO. *)
Example pair_watch_pattern :
  exists pa,
    Dict.get "A" (analyze_user_content_patterns PyStr.latin1_lower
                    (user_profiles pair_watch) (content_data pair_watch)) = Some pa /\
    (avg_risk_score pa == 0.8)%Q /\ (high_risk_ratio pa == 1)%Q /\
    (combined_of pa == 0.8)%Q /\
    Dict.get "B" (analyze_user_content_patterns PyStr.latin1_lower
                    (user_profiles pair_watch) (content_data pair_watch)) = None.
Proof.
  eexists. split; [vm_compute; reflexivity|].
  split; [vm_compute; reflexivity|]. split; [vm_compute; reflexivity|].
  split; vm_compute; reflexivity.
Qed.

(** The two videos with the same title and target age are clustered,
    across the film that stands between them in the catalog. *)
Example shelf_clusters :
  find_content_clusters PyStr.latin1_lower ascii_words shelf = Some [["r1"; "r2"]] /\
  (forall c, Dict.get "r1" shelf = Some c ->
     (calculate_content_similarity PyStr.latin1_lower ascii_words c c == 1)%Q).
Proof.
  split; [vm_compute; reflexivity|]. intros c [= <-]. vm_compute. reflexivity.
Qed.

(** Six views of a children's game at 10h: all in school hours, one
    peak hour, risk 1. *)
Example morning_timing_anomaly :
  exists a,
    analyze_interaction_timing morning_user = [a] /\
    ta_user_id a = "M" /\ total_child_content_interactions a = 6%nat /\
    ta_peak_hours a = [10%Z] /\ (ta_school_hours_ratio a == 1)%Q /\
    (ta_risk_score a == 1)%Q.
Proof. eexists. split; [vm_compute; reflexivity|]. repeat split. Qed.

(** ** The numbers of the specification in binary64 *)

Module Binary64Facts.
Import Floats.
Local Open Scope float_scope.
Set Warnings "-inexact-float".

(** The thresholds at 25 and at 55, as floats. *)
Example threshold_25_binary64 : Binary64.suspicion_threshold 25 = 0.5.
Proof. vm_compute. reflexivity. Qed.

Example threshold_55_binary64 : Binary64.suspicion_threshold 55 = 0.1.
Proof. vm_compute. reflexivity. Qed.

(** The example content: the sum of 0.8, 0.3, 0.2 and 0.1 is above 1 and
    the score is 1.0. *)
Example bebe_aprende_binary64 :
  Binary64.capped_sum [0.8; 0.3; 0.2; 0.1] = 1.0 /\
  PrimFloat.ltb 1.0 (0.0 + 0.8 + 0.3 + 0.2 + 0.1) = true.
Proof. split; vm_compute; reflexivity. Qed.

(** U1 of the end-to-end scenario: 8 of 10 at age 45. *)
Example u1_binary64 :
  PrimFloat.ltb (Binary64.suspicion_threshold 45) (8 / 10) = true /\
  Binary64.suspicion_score (8 / 10) = 1.0.
Proof. split; vm_compute; reflexivity. Qed.

(** One resolvable interaction of score 0.8 out of two: the average is
    0.4, below the mean 0.8 of the resolvable scores. *)
Example half_known_binary64 :
  (0 + 0.8) / 2 = 0.4 /\ PrimFloat.ltb ((0 + 0.8) / 2) (0.8 / 1) = true.
Proof. split; vm_compute; reflexivity. Qed.

Set Warnings "+inexact-float".
End Binary64Facts.
